(** * A shallow embedding of the G-code parser (gcode-parser.c)

    The development follows the C file top to bottom: single-precision
    arithmetic, the libc helpers the parser calls ([isspace], [toupper],
    [strtof]), the line buffer the tokenizer reads and patches in place,
    the tokenizer [parse_next_pair], the command handlers and the
    top-level loop [gcodep_parse_line]. *)

From Stdlib Require Import ZArith String Ascii Lia.
From Stdlib Require Import Floats.SpecFloat.
From stdpp Require Import base tactics option list vector strings.

Local Open Scope Z_scope.

(* ================================================================== *)
(** ** Single-precision floats

    C's [float] is IEEE-754 binary32.  The Standard Library's [SpecFloat]
    gives the operations, round-to-nearest-even, for any precision; here
    they are fixed at 24 bits of mantissa and exponent bound 128. *)

Module F32.

Definition prec : Z := 24.
Definition emax : Z := 128.

Definition float : Type := spec_float.

Definition add : float -> float -> float := SFadd prec emax.
Definition sub : float -> float -> float := SFsub prec emax.
Definition mul : float -> float -> float := SFmul prec emax.

(** C's [==] and [!=]: a NaN differs from everything, itself included,
    and the two zeros are equal. *)
Definition eqb : float -> float -> bool := SFeqb.
Definition neqb (x y : float) : bool := negb (eqb x y).

(** All bits zero, what [memset (.., 0x00, ..)] leaves in a float. *)
Definition zero : float := S754_zero false.

Definition of_Z (n : Z) : float := binary_normalize prec emax n 0 false.

(** The correctly rounded value of [(-1)^s * m * 10^e10], which is how a
    decimal literal (in the source text or given to [strtof]) becomes a
    float. *)
Definition of_decimal (s : bool) (m : Z) (e10 : Z) : float :=
  match m with
  | Zpos pm =>
      if 0 <=? e10
      then binary_normalize prec emax (cond_Zopp s (Zpos pm * 10 ^ e10)) 0 s
      else SFdiv prec emax (S754_finite s pm 0)
                           (S754_finite false (Z.to_pos (10 ^ (- e10))) 0)
  | _ => S754_zero s
  end.

(** The correctly rounded value of [(-1)^s * m * 2^e2] (hexadecimal
    floating literals). *)
Definition of_binary (s : bool) (m : Z) (e2 : Z) : float :=
  match m with
  | Zpos pm => binary_round prec emax s pm e2
  | _ => S754_zero s
  end.

Definition INT_MIN : Z := - 2 ^ 31.
Definition INT_MAX : Z := 2 ^ 31 - 1.

(** The integral part of a finite float, rounding toward zero. *)
Definition trunc (x : float) : option Z :=
  match x with
  | S754_zero _ => Some 0
  | S754_finite s m e =>
      Some (cond_Zopp s (if 0 <=? e then Z.shiftl (Zpos m) e
                         else Z.shiftr (Zpos m) (- e)))
  | _ => None
  end.

(** The cast [(int) value].  It discards the fractional part; when the
    integral part does not fit an [int], or the value is an infinity or
    a NaN, the behaviour is undefined and the model gives [None]. *)
Definition to_int (x : float) : option Z :=
  match trunc x with
  | Some n => if (INT_MIN <=? n) && (n <=? INT_MAX) then Some n else None
  | None => None
  end.

End F32.

Abbreviation float := F32.float.

(* ================================================================== *)
(** ** Characters: <ctype.h> in the "C" locale *)

Definition NUL : ascii := "000"%char.

Definition code (c : ascii) : Z := Z.of_N (N_of_ascii c).

Definition chr (n : Z) : ascii := ascii_of_N (Z.to_N n).

Definition char_eqb (a b : ascii) : bool := Ascii.eqb a b.

(** [isspace]: space, and the five controls from tab to carriage return. *)
Definition isspace (c : ascii) : bool :=
  (code c =? 32) || ((9 <=? code c) && (code c <=? 13)).

Definition isdigit (c : ascii) : bool := (48 <=? code c) && (code c <=? 57).

Definition islower (c : ascii) : bool := (97 <=? code c) && (code c <=? 122).

Definition isupper (c : ascii) : bool := (65 <=? code c) && (code c <=? 90).

Definition isalnum (c : ascii) : bool := isdigit c || islower c || isupper c.

Definition toupper (c : ascii) : ascii :=
  if islower c then chr (code c - 32) else c.

Definition isxdigit (c : ascii) : bool :=
  isdigit c || ((65 <=? code (toupper c)) && (code (toupper c) <=? 70)).

Definition digit_value (c : ascii) : Z := code c - 48.

Definition xdigit_value (c : ascii) : Z :=
  if isdigit c then code c - 48 else code (toupper c) - 55.

(* ================================================================== *)
(** ** strtof

    [strtof] belongs to libc; the model follows the C standard's
    description (7.22.1.3): optional white space, an optional sign, then
    the longest of a decimal floating constant, a hexadecimal one, an
    infinity or a NaN; the value is rounded to nearest.  The result is the
    value and the number of characters consumed, which is where [endptr]
    lands; zero characters means that no conversion was performed. *)

Module Strtof.

(** The longest prefix of characters satisfying [f], and the rest. *)
Fixpoint span (f : ascii -> bool) (s : list ascii) : list ascii * list ascii :=
  match s with
  | c :: s' =>
      if f c then let '(a, b) := span f s' in (c :: a, b) else ([], s)
  | [] => ([], [])
  end.

(** The number written by a digit sequence in the given base. *)
Definition number (base : Z) (val : ascii -> Z) (ds : list ascii) : Z :=
  fold_left (fun acc d => acc * base + val d) ds 0.

Definition sign (s : list ascii) : bool * list ascii :=
  match s with
  | "-"%char :: s' => (true, s')
  | "+"%char :: s' => (false, s')
  | _ => (false, s)
  end.

(** An exponent part: the marker, an optional sign and at least one
    decimal digit.  Without the digits nothing of it is consumed. *)
Definition exponent (marker : ascii) (s : list ascii) : Z * list ascii :=
  match s with
  | c :: s1 =>
      if char_eqb (toupper c) marker then
        let '(neg, s2) := sign s1 in
        let '(ds, s3) := span isdigit s2 in
        match ds with
        | [] => (0, s)
        | _ => (cond_Zopp neg (number 10 digit_value ds), s3)
        end
      else (0, s)
  | [] => (0, s)
  end.

(** Digits with an optional radix point inside or at either end. *)
Definition mantissa (isd : ascii -> bool) (s : list ascii)
  : list ascii * list ascii * list ascii :=
  let '(ip, s1) := span isd s in
  match s1 with
  | "."%char :: s2 =>
      let '(fp, s3) := span isd s2 in
      match ip, fp with
      | [], [] => ([], [], s)
      | _, _ => (ip, fp, s3)
      end
  | _ => (ip, [], s1)
  end.

Definition decimal (neg : bool) (s : list ascii) : option (float * list ascii) :=
  let '(ip, fp, s1) := mantissa isdigit s in
  match ip ++ fp with
  | [] => None
  | ds =>
      let '(e, s2) := exponent "E" s1 in
      Some (F32.of_decimal neg (number 10 digit_value ds)
              (e - Z.of_nat (length fp)), s2)
  end.

Definition hexadecimal (neg : bool) (s : list ascii) : option (float * list ascii) :=
  match s with
  | "0"%char :: x :: s0 =>
      if char_eqb (toupper x) "X" then
        let '(ip, fp, s1) := mantissa isxdigit s0 in
        match ip ++ fp with
        | [] => None
        | ds =>
            let '(e, s2) := exponent "P" s1 in
            Some (F32.of_binary neg (number 16 xdigit_value ds)
                    (e - 4 * Z.of_nat (length fp)), s2)
        end
      else None
  | _ => None
  end.

(** [s] begins with [word], letter case ignored; the rest of [s]. *)
Fixpoint keyword (word s : list ascii) : option (list ascii) :=
  match word, s with
  | [], _ => Some s
  | w :: word', c :: s' =>
      if char_eqb (toupper c) w then keyword word' s' else None
  | _ :: _, [] => None
  end.

Definition infinity (neg : bool) (s : list ascii) : option (float * list ascii) :=
  match keyword (list_ascii_of_string "INF") s with
  | Some s1 =>
      match keyword (list_ascii_of_string "INITY") s1 with
      | Some s2 => Some (S754_infinity neg, s2)
      | None => Some (S754_infinity neg, s1)
      end
  | None => None
  end.

Definition nan (s : list ascii) : option (float * list ascii) :=
  match keyword (list_ascii_of_string "NAN") s with
  | Some s1 =>
      match s1 with
      | "("%char :: s2 =>
          let '(_, s3) := span (fun c => isalnum c || char_eqb c "_") s2 in
          match s3 with
          | ")"%char :: s4 => Some (S754_nan, s4)
          | _ => Some (S754_nan, s1)
          end
      | _ => Some (S754_nan, s1)
      end
  | None => None
  end.

(** The value, and how many characters of [s] the number takes up. *)
Definition strtof (s : list ascii) : float * nat :=
  let '(_, s1) := span isspace s in
  let '(neg, s2) := sign s1 in
  let subject :=
    match hexadecimal neg s2 with
    | Some r => Some r
    | None =>
        match decimal neg s2 with
        | Some r => Some r
        | None =>
            match infinity neg s2 with
            | Some r => Some r
            | None => nan s2
            end
        end
    end in
  match subject with
  | Some (v, rest) => (v, (length s - length rest)%nat)
  | None => (F32.zero, 0%nat)
  end.

End Strtof.

Definition strtof := Strtof.strtof.

Definition cs (s : string) : list ascii := list_ascii_of_string s.

(* ================================================================== *)
(** ** The line buffer

    The parser receives a [const char *] and walks it with pointer
    arithmetic; the workaround for hexadecimal literals even writes
    through it.  The buffer is the array of characters the caller owns,
    terminator included, and a pointer into it is an index.  Reading or
    writing outside the array is undefined behaviour: the computation
    stops with a [Fault]. *)

Inductive fault : Type :=
  | OutOfBounds (i : nat)        (* access to index [i], outside the array *)
  | IntCastUndefined (v : float) (* [(int) v] with [v] out of range *).

Inductive outcome (A : Type) : Type :=
  | Ok (a : A)
  | Fault (f : fault)
  | OutOfFuel.
Arguments Ok {A} a.
Arguments Fault {A} f.
Arguments OutOfFuel {A}.

Abbreviation buffer := (list ascii).

(** Computations that read and write the line buffer. *)
Definition M (A : Type) : Type := buffer -> outcome (A * buffer).

Definition ret {A} (a : A) : M A := fun buf => Ok (a, buf).

Definition bind {A B} (m : M A) (k : A -> M B) : M B :=
  fun buf =>
    match m buf with
    | Ok (a, buf') => k a buf'
    | Fault f => Fault f
    | OutOfFuel => OutOfFuel
    end.

Definition raise {A} (f : fault) : M A := fun _ => Fault f.

Definition out_of_fuel {A} : M A := fun _ => OutOfFuel.

Declare Scope mem_scope.
Delimit Scope mem_scope with mem.
Notation "'let*' x := m 'in' k" := (bind m (fun x => k))
  (at level 10, x name, m at level 100, k at level 200) : mem_scope.
Notation "'let*' ' p := m 'in' k" := (bind m (fun x => let 'p := x in k))
  (at level 10, p pattern, m at level 100, k at level 200) : mem_scope.
Notation "m ;; k" := (bind m (fun _ => k))
  (at level 100, k at level 200, right associativity) : mem_scope.
Local Open Scope mem_scope.

(** [*(buf + i)] *)
Definition load (i : nat) : M ascii :=
  fun buf =>
    match buf !! i with
    | Some c => Ok (c, buf)
    | None => Fault (OutOfBounds i)
    end.

(** [*(buf + i) = c] *)
Definition store (i : nat) (c : ascii) : M unit :=
  fun buf =>
    match buf !! i with
    | Some _ => Ok (tt, <[i := c]> buf)
    | None => Fault (OutOfBounds i)
    end.

(** [while ( *line && isspace( *line)) line++;] over the characters from
    [line] on. *)
Fixpoint skip_space_in (rest : list ascii) (line : nat) : outcome nat :=
  match rest with
  | c :: rest' =>
      if negb (char_eqb c NUL) && isspace c
      then skip_space_in rest' (S line)
      else Ok line
  | [] => Fault (OutOfBounds line)
  end.

Definition skip_space (line : nat) : M nat :=
  fun buf =>
    match skip_space_in (drop line buf) line with
    | Ok l => Ok (l, buf)
    | Fault f => Fault f
    | OutOfFuel => OutOfFuel
    end.

(** The C string that starts at [line]: the characters up to, and
    without, the first terminator. *)
Fixpoint c_str_in (rest : list ascii) (line : nat) : outcome (list ascii) :=
  match rest with
  | c :: rest' =>
      if char_eqb c NUL then Ok []
      else match c_str_in rest' (S line) with
           | Ok s => Ok (c :: s)
           | e => e
           end
  | [] => Fault (OutOfBounds line)
  end.

Definition c_str (line : nat) : M (list ascii) :=
  fun buf =>
    match c_str_in (drop line buf) line with
    | Ok s => Ok (s, buf)
    | Fault f => Fault f
    | OutOfFuel => OutOfFuel
    end.

(** A line as the caller passes it: the text in an array of exactly its
    size, terminator last. *)
Definition line_buffer (text : string) : buffer := cs text ++ [NUL].

(* ================================================================== *)
(** ** The tokenizer *)

(** What [parse_next_pair] prints on stderr. *)
Inductive diagnostic : Type :=
  | ExpectedValueAfter (letter : ascii)
  | NotFollowedByNumber (letter : ascii) (text : list ascii).

(** What [parse_next_pair] hands back: [Null] for a NULL return, with the
    diagnostic it printed if any; [Pair] for the outputs [*letter],
    [*value] and the returned remaining line. *)
Inductive token : Type :=
  | Null (d : option diagnostic)
  | Pair (letter : ascii) (value : float) (remaining : nat).

(** A [const char *]: NULL or a position in the line buffer. *)
Definition ptr : Type := option nat.

Definition parse_next_pair (line : ptr) : M token :=
  match line with
  | None => ret (Null None)
  | Some line =>
      let* line := skip_space line in
      let* c := load line in
      if char_eqb c NUL || char_eqb c ";" || char_eqb c "%"
      then ret (Null None)
      else
        let letter := toupper c in
        let line := S line in
        let* c := load line in
        if char_eqb c NUL
        then ret (Null (Some (ExpectedValueAfter letter)))
        else if char_eqb letter "*"
        then ret (Null None)
        else
          let* line := skip_space line in
          let* c1 := load (line + 1) in
          let repair_x :=
            if char_eqb c1 "x" || char_eqb c1 "X" then Some (line + 1)%nat
            else None in
          match repair_x with Some r => store r NUL | None => ret tt end ;;
          let* number := c_str line in
          let '(value, consumed) := strtof number in
          match repair_x with Some r => store r "X" | None => ret tt end ;;
          if (consumed =? 0)%nat
          then
            let* text := c_str line in
            ret (Null (Some (NotFollowedByNumber letter text)))
          else
            let* line := skip_space (line + consumed) in
            ret (Pair letter value line)
  end.

Definition run {A} (m : M A) (text : string) : outcome (A * buffer) :=
  m (line_buffer text).

(** [(int) value] *)
Definition int_cast (value : float) : M Z :=
  match F32.to_int value with
  | Some n => ret n
  | None => raise (IntCastUndefined value)
  end.

(* ================================================================== *)
(** ** Axes, callbacks and the parser object *)

(** Modelled from the spec: the axis enumeration of gcode-parser.h, which
    the C file includes.  Seven logical axes X, Y, Z, E, A, B, C, each a
    small integer index, in that order; [GCODE_NUM_AXES] counts them. *)
Definition GCODE_NUM_AXES : nat := 7.
Abbreviation GCodeParserAxes := (fin GCODE_NUM_AXES).
Definition AXIS_X : GCodeParserAxes := 0%fin.
Definition AXIS_Y : GCodeParserAxes := 1%fin.
Definition AXIS_Z : GCodeParserAxes := 2%fin.
Definition AXIS_E : GCodeParserAxes := 3%fin.
Definition AXIS_A : GCodeParserAxes := 4%fin.
Definition AXIS_B : GCodeParserAxes := 5%fin.
Definition AXIS_C : GCodeParserAxes := 6%fin.

(** [typedef float AxesRegister[GCODE_NUM_AXES];] *)
Abbreviation AxesRegister := (vec float GCODE_NUM_AXES).

(** [1 << a] *)
Definition bit (a : GCodeParserAxes) : Z := Z.shiftl 1 (Z.of_nat (fin_to_nat a)).

Definition kAllAxesBitmap : Z :=
  Z.lor (Z.lor (Z.lor (Z.lor (Z.lor (Z.lor
    (bit AXIS_X) (bit AXIS_Y)) (bit AXIS_Z))
    (bit AXIS_E)) (bit AXIS_A)) (bit AXIS_B)) (bit AXIS_C).

Section Parser.

(** What lives behind the [void *userdata] that every callback
    receives.  A callback is a function of it and of its arguments; it
    returns what it leaves behind. *)
Context {U : Type}.

(** Modelled from the spec: [struct GCodeParserCb] of gcode-parser.h, a
    table of function pointers, any of which the caller may leave NULL.
    The argument types are the ones of the calls in the C file.  The
    [unprocessed] callback is shown the remaining line (a position in
    the line buffer, which it may read but, the pointer being to
    [const], not write) and returns where to go on, or NULL.  It is
    code like any other and may go wrong on the way, as the stand-in of
    this file can: its result is an [outcome]. *)
Record GCodeParserCb : Type := {
  coordinated_move : option (U -> AxesRegister -> U);
  rapid_move : option (U -> AxesRegister -> U);
  go_home : option (U -> Z -> U);
  set_feedrate : option (U -> float -> U);
  set_fanspeed : option (U -> float -> U);
  set_temperature : option (U -> float -> U);
  wait_temperature : option (U -> U);
  disable_motors : option (U -> U);
  unprocessed :
    option (U -> ascii -> float -> nat -> buffer -> outcome (U * ptr))
}.

(** The table as the parser keeps it: [gcodep_new] has put a stand-in
    in every slot that was NULL, so every slot can be called. *)
Record callback_table : Type := {
  cb_coordinated_move : U -> AxesRegister -> U;
  cb_rapid_move : U -> AxesRegister -> U;
  cb_go_home : U -> Z -> U;
  cb_set_feedrate : U -> float -> U;
  cb_set_fanspeed : U -> float -> U;
  cb_set_temperature : U -> float -> U;
  cb_wait_temperature : U -> U;
  cb_disable_motors : U -> U;
  cb_unprocessed : U -> ascii -> float -> nat -> buffer -> outcome (U * ptr)
}.

(** [struct GCodeParser] *)
Record GCodeParser : Type := {
  callbacks : callback_table;
  cb_userdata : U;
  provided_axes : Z;
  unit_to_mm_factor : float;          (* metric: 1.0; imperial 25.4 *)
  axis_is_absolute : vec Z GCODE_NUM_AXES;
  current_feedrate : float;
  relative_zero : AxesRegister;       (* reference, set by G92 commands *)
  axes_pos : AxesRegister
}.

(** Assignments to one field. *)
Definition with_userdata (p : GCodeParser) (u : U) : GCodeParser :=
  {| callbacks := callbacks p; cb_userdata := u;
     provided_axes := provided_axes p;
     unit_to_mm_factor := unit_to_mm_factor p;
     axis_is_absolute := axis_is_absolute p;
     current_feedrate := current_feedrate p;
     relative_zero := relative_zero p; axes_pos := axes_pos p |}.

Definition with_unit_to_mm_factor (p : GCodeParser) (f : float) : GCodeParser :=
  {| callbacks := callbacks p; cb_userdata := cb_userdata p;
     provided_axes := provided_axes p;
     unit_to_mm_factor := f;
     axis_is_absolute := axis_is_absolute p;
     current_feedrate := current_feedrate p;
     relative_zero := relative_zero p; axes_pos := axes_pos p |}.

Definition with_axis_is_absolute (p : GCodeParser) (v : vec Z GCODE_NUM_AXES)
  : GCodeParser :=
  {| callbacks := callbacks p; cb_userdata := cb_userdata p;
     provided_axes := provided_axes p;
     unit_to_mm_factor := unit_to_mm_factor p;
     axis_is_absolute := v;
     current_feedrate := current_feedrate p;
     relative_zero := relative_zero p; axes_pos := axes_pos p |}.

Definition with_current_feedrate (p : GCodeParser) (f : float) : GCodeParser :=
  {| callbacks := callbacks p; cb_userdata := cb_userdata p;
     provided_axes := provided_axes p;
     unit_to_mm_factor := unit_to_mm_factor p;
     axis_is_absolute := axis_is_absolute p;
     current_feedrate := f;
     relative_zero := relative_zero p; axes_pos := axes_pos p |}.

Definition with_relative_zero (p : GCodeParser) (r : AxesRegister) : GCodeParser :=
  {| callbacks := callbacks p; cb_userdata := cb_userdata p;
     provided_axes := provided_axes p;
     unit_to_mm_factor := unit_to_mm_factor p;
     axis_is_absolute := axis_is_absolute p;
     current_feedrate := current_feedrate p;
     relative_zero := r; axes_pos := axes_pos p |}.

Definition with_axes_pos (p : GCodeParser) (r : AxesRegister) : GCodeParser :=
  {| callbacks := callbacks p; cb_userdata := cb_userdata p;
     provided_axes := provided_axes p;
     unit_to_mm_factor := unit_to_mm_factor p;
     axis_is_absolute := axis_is_absolute p;
     current_feedrate := current_feedrate p;
     relative_zero := relative_zero p; axes_pos := r |}.

(** The stand-ins print a line on stderr, which is outside the model,
    and touch nothing.  All but the last print what they are given as
    it is. *)
Definition dummy_set_feedrate (user : U) (f : float) : U := user.
Definition dummy_set_temperature (user : U) (f : float) : U := user.
Definition dummy_set_fanspeed (user : U) (speed : float) : U := user.
Definition dummy_wait_temperature (user : U) : U := user.
Definition dummy_disable_motors (user : U) : U := user.
Definition dummy_move (user : U) (axes : AxesRegister) : U := user.
Definition dummy_go_home (user : U) (flags : Z) : U := user.

(** [dummy_unprocessed] computes [(int) value] for its message, and the
    [%s] of the message reads [remaining] up to its terminator; then it
    returns NULL. *)
Definition dummy_unprocessed (user : U) (letter : ascii) (value : float)
    (remaining : nat) (buf : buffer) : outcome (U * ptr) :=
  match (int_cast value ;; c_str remaining) buf with
  | Ok _ => Ok (user, None)
  | Fault f => Fault f
  | OutOfFuel => OutOfFuel
  end.

Definition set_all_axis_to_absolute (p : GCodeParser) (value : Z) : GCodeParser :=
  with_axis_is_absolute p (vreplicate GCODE_NUM_AXES value).

(** [25.4f] *)
Definition inch : float := F32.of_decimal false 254 (-1).
(** [1.0f] *)
Definition one : float := F32.of_Z 1.

Definition gcodep_new (callbacks : option GCodeParserCb) (userdata : U)
  : GCodeParser :=
  let slot {A} (get : GCodeParserCb -> option A) : option A :=
    match callbacks with Some cb => get cb | None => None end in
  let coordinated := default dummy_move (slot coordinated_move) in
  let result :=
    {| callbacks :=
         {| cb_go_home := default dummy_go_home (slot go_home);
            cb_set_feedrate := default dummy_set_feedrate (slot set_feedrate);
            cb_set_fanspeed := default dummy_set_fanspeed (slot set_fanspeed);
            cb_set_temperature :=
              default dummy_set_temperature (slot set_temperature);
            cb_wait_temperature :=
              default dummy_wait_temperature (slot wait_temperature);
            cb_disable_motors :=
              default dummy_disable_motors (slot disable_motors);
            cb_coordinated_move := coordinated;
            cb_rapid_move := default coordinated (slot rapid_move);
            cb_unprocessed := default dummy_unprocessed (slot unprocessed) |};
       cb_userdata := userdata;
       provided_axes := 0;
       unit_to_mm_factor := one;
       axis_is_absolute := vreplicate GCODE_NUM_AXES 0;
       current_feedrate := F32.zero;
       relative_zero := vreplicate GCODE_NUM_AXES F32.zero;
       axes_pos := vreplicate GCODE_NUM_AXES F32.zero |} in
  set_all_axis_to_absolute result 1.

End Parser.

Arguments GCodeParserCb U : clear implicits.
Arguments callback_table U : clear implicits.
Arguments GCodeParser U : clear implicits.

(* ================================================================== *)
(** ** The command handlers *)

(** The loops of the handlers move forward in the line at every turn, so
    the size of the buffer bounds the number of their iterations. *)
Definition bounded {A} (loop : nat -> M A) : M A :=
  fun buf => loop (S (length buf)) buf.

Section Handlers.

Context {U : Type}.
Implicit Types (p : GCodeParser U).

(** The [switch (axis)] of [handle_home]: the flags and [done]. *)
Definition home_switch (axis : ascii) (homing_flags : Z) : Z * bool :=
  match axis with
  | "X"%char => (Z.lor homing_flags (bit AXIS_X), false)
  | "Y"%char => (Z.lor homing_flags (bit AXIS_Y), false)
  | "Z"%char => (Z.lor homing_flags (bit AXIS_Z), false)
  | "E"%char => (Z.lor homing_flags (bit AXIS_E), false)
  | "A"%char => (Z.lor homing_flags (bit AXIS_A), false)
  | "B"%char => (Z.lor homing_flags (bit AXIS_B), false)
  | "C"%char => (Z.lor homing_flags (bit AXIS_C), false)
  | _ => (homing_flags, true)  (* Possibly start of new command. *)
  end.

Fixpoint handle_home_loop (fuel : nat) (homing_flags : Z) (line : nat)
  : M (Z * nat) :=
  match fuel with
  | O => out_of_fuel
  | S fuel =>
      let* tok := parse_next_pair (Some line) in
      match tok with
      | Null _ => ret (homing_flags, line)
      | Pair axis dummy remaining_line =>
          let '(homing_flags, done) := home_switch axis homing_flags in
          if done : bool then ret (homing_flags, line)
          else handle_home_loop fuel homing_flags remaining_line
      end
  end.

Definition handle_home p (line : nat) : M (GCodeParser U * nat) :=
  let p := with_axes_pos p (vreplicate GCODE_NUM_AXES F32.zero) in
  let p := with_relative_zero p (vreplicate GCODE_NUM_AXES F32.zero) in
  let* '(homing_flags, line) :=
    bounded (fun fuel => handle_home_loop fuel 0 line) in
  let flags := if negb (homing_flags =? 0) then homing_flags
               else kAllAxesBitmap in
  ret (with_userdata p (cb_go_home (callbacks p) (cb_userdata p) flags), line).

(** The [switch (axis)] of [handle_rebase]: the parser and [done]. *)
Definition rebase_switch p (axis : ascii) (unit_value : float)
  : GCodeParser U * bool :=
  let rebase (a : GCodeParserAxes) :=
    with_relative_zero p
      (vinsert a (F32.sub (axes_pos p !!! a) unit_value) (relative_zero p)) in
  match axis with
  | "X"%char => (rebase AXIS_X, false)
  | "Y"%char => (rebase AXIS_Y, false)
  | "Z"%char => (rebase AXIS_Z, false)
  | "E"%char => (rebase AXIS_E, false)
  | "A"%char => (rebase AXIS_A, false)
  | "B"%char => (rebase AXIS_B, false)
  | "C"%char => (rebase AXIS_C, false)
  | _ => (p, true)  (* Possibly start of new command. *)
  end.

Fixpoint handle_rebase_loop (fuel : nat) p (line : nat)
  : M (GCodeParser U * nat) :=
  match fuel with
  | O => out_of_fuel
  | S fuel =>
      let* tok := parse_next_pair (Some line) in
      match tok with
      | Null _ => ret (p, line)
      | Pair axis value remaining_line =>
          let unit_value := F32.mul value (unit_to_mm_factor p) in
          let '(p, done) := rebase_switch p axis unit_value in
          if done : bool then ret (p, line)
          else handle_rebase_loop fuel p remaining_line
      end
  end.

Definition handle_rebase p (line : nat) : M (GCodeParser U * nat) :=
  bounded (fun fuel => handle_rebase_loop fuel p line).

Definition set_S_param (userdata : U) (value_setter : U -> float -> U)
    (line : nat) : M (U * nat) :=
  let* tok := parse_next_pair (Some line) in
  match tok with
  | Pair letter value remaining_line =>
      if char_eqb letter "S"
      then ret (value_setter userdata value, remaining_line)
      else ret (userdata, line)
  | Null _ => ret (userdata, line)
  end.

(** The [switch (axis)] of [handle_move]: the parser, [update_axis]
    ([None] for -1) and [done]. *)
Definition move_switch p (axis : ascii) (unit_value : float)
  : GCodeParser U * option GCodeParserAxes * bool :=
  match axis with
  | "F"%char =>
      (if F32.neqb (current_feedrate p) unit_value
       then with_current_feedrate
              (with_userdata p
                 (cb_set_feedrate (callbacks p) (cb_userdata p) unit_value))
              unit_value
       else p, None, false)
  | "X"%char => (p, Some AXIS_X, false)
  | "Y"%char => (p, Some AXIS_Y, false)
  | "Z"%char => (p, Some AXIS_Z, false)
  | "E"%char => (p, Some AXIS_E, false)
  | "A"%char => (p, Some AXIS_A, false)
  | "B"%char => (p, Some AXIS_B, false)
  | "C"%char => (p, Some AXIS_C, false)
  | _ => (p, None, true)  (* Possibly start of new command. *)
  end.

Fixpoint handle_move_loop (fuel : nat) p (any_change : bool) (line : nat)
  : M (GCodeParser U * bool * nat) :=
  match fuel with
  | O => out_of_fuel
  | S fuel =>
      let* tok := parse_next_pair (Some line) in
      match tok with
      | Null _ => ret (p, any_change, line)
      | Pair axis value remaining_line =>
          let unit_value := F32.mul value (unit_to_mm_factor p) in
          let '(p, update_axis, done) := move_switch p axis unit_value in
          let '(p, any_change) :=
            match update_axis with
            | Some update_axis =>
                (with_axes_pos p
                   (vinsert update_axis
                      (if negb (axis_is_absolute p !!! update_axis =? 0)
                       then F32.add (relative_zero p !!! update_axis) unit_value
                       else F32.add (axes_pos p !!! update_axis) unit_value)
                      (axes_pos p)),
                 true)
            | None => (p, any_change)
            end in
          if done : bool then ret (p, any_change, line)
          else handle_move_loop fuel p any_change remaining_line
      end
  end.

Definition handle_move p (fun_move : U -> AxesRegister -> U) (line : nat)
  : M (GCodeParser U * nat) :=
  let* '(p, any_change, line) :=
    bounded (fun fuel => handle_move_loop fuel p false line) in
  ret (if any_change : bool
       then with_userdata p (fun_move (cb_userdata p) (axes_pos p))
       else p,
       line).

(** [p->callbacks.unprocessed(p->cb_userdata, letter, value, line)] *)
Definition call_unprocessed p (letter : ascii) (value : float) (line : nat)
  : M (GCodeParser U * ptr) :=
  fun buf =>
    match cb_unprocessed (callbacks p) (cb_userdata p) letter value line buf
    with
    | Ok (u, next) => Ok ((with_userdata p u, next), buf)
    | Fault f => Fault f
    | OutOfFuel => OutOfFuel
    end.

(** The body of the loop of [gcodep_parse_line], for one word that
    [parse_next_pair] has delivered; [line] is what remains after it. *)
Definition parse_word p (letter : ascii) (value : float) (line : nat)
  : M (GCodeParser U * ptr) :=
  let cb := callbacks p in
  let at_line (r : GCodeParser U * nat) : GCodeParser U * ptr :=
    (fst r, Some (snd r)) in
  if char_eqb letter "G" then
    let* n := int_cast value in
    match n with
    | 0 => let* r := handle_move p (cb_rapid_move cb) line in ret (at_line r)
    | 1 => let* r := handle_move p (cb_coordinated_move cb) line in
           ret (at_line r)
    | 20 => ret (with_unit_to_mm_factor p inch, Some line)
    | 21 => ret (with_unit_to_mm_factor p one, Some line)
    | 28 => let* r := handle_home p line in ret (at_line r)
    | 90 => ret (set_all_axis_to_absolute p 1, Some line)
    | 91 => ret (set_all_axis_to_absolute p 0, Some line)
    | 92 => let* r := handle_rebase p line in ret (at_line r)
    | _ => call_unprocessed p letter value line
    end
  else if char_eqb letter "M" then
    let* n := int_cast value in
    match n with
    | 82 => ret (with_axis_is_absolute p
                   (vinsert AXIS_E 1 (axis_is_absolute p)), Some line)
    | 83 => ret (with_axis_is_absolute p
                   (vinsert AXIS_E 0 (axis_is_absolute p)), Some line)
    | 84 => ret (with_userdata p (cb_disable_motors cb (cb_userdata p)),
                 Some line)
    | 104 =>
        let* '(u, line) :=
          set_S_param (cb_userdata p) (cb_set_temperature cb) line in
        ret (with_userdata p u, Some line)
    | 106 =>
        let* '(u, line) :=
          set_S_param (cb_userdata p) (cb_set_fanspeed cb) line in
        ret (with_userdata p u, Some line)
    | 107 => ret (with_userdata p
                    (cb_set_fanspeed cb (cb_userdata p) F32.zero), Some line)
    | 109 =>
        let* '(u, line) :=
          set_S_param (cb_userdata p) (cb_set_temperature cb) line in
        ret (with_userdata p (cb_wait_temperature cb u), Some line)
    | 116 => ret (with_userdata p (cb_wait_temperature cb (cb_userdata p)),
                  Some line)
    | _ => call_unprocessed p letter value line
    end
  else if char_eqb letter "N" then
    (* Line number? Yeah, ignore for now :) *)
    ret (p, Some line)
  else call_unprocessed p letter value line.

(** [gcodep_parse_line].  Its loop goes on from wherever the
    [unprocessed] callback says, which need not be further down the
    line, so nothing bounds it: [fuel] is the number of top-level words
    it may take. *)
Fixpoint gcodep_parse_line (fuel : nat) p (line : ptr) : M (GCodeParser U) :=
  match fuel with
  | O => out_of_fuel
  | S fuel =>
      let* tok := parse_next_pair line in
      match tok with
      | Null _ => ret p
      | Pair letter value line =>
          let* '(p, line) := parse_word p letter value line in
          gcodep_parse_line fuel p line
      end
  end.

End Handlers.

(* ================================================================== *)
(** ** Observing the calls

    A set of callbacks that write down every call, in order, in the user
    data.  The [unprocessed] callback answers as [answer] tells it to. *)

Inductive action : Type :=
  | coordinated_move_call (axes : AxesRegister)
  | rapid_move_call (axes : AxesRegister)
  | go_home_call (flags : Z)
  | set_feedrate_call (f : float)
  | set_fanspeed_call (speed : float)
  | set_temperature_call (f : float)
  | wait_temperature_call
  | disable_motors_call
  | unprocessed_call (letter : ascii) (value : float) (remaining : list ascii).

(** The text a [const char *] shows to whoever reads it. *)
Fixpoint text_in (rest : list ascii) : list ascii :=
  match rest with
  | c :: rest' => if char_eqb c NUL then [] else c :: text_in rest'
  | [] => []
  end.

Definition text_at (buf : buffer) (line : nat) : list ascii :=
  text_in (drop line buf).

Abbreviation log := (list action).

Definition recording (answer : log -> ascii -> float -> nat -> buffer -> ptr)
  : GCodeParserCb log :=
  {| coordinated_move := Some (fun u axes => u ++ [coordinated_move_call axes]);
     rapid_move := Some (fun u axes => u ++ [rapid_move_call axes]);
     go_home := Some (fun u flags => u ++ [go_home_call flags]);
     set_feedrate := Some (fun u f => u ++ [set_feedrate_call f]);
     set_fanspeed := Some (fun u f => u ++ [set_fanspeed_call f]);
     set_temperature := Some (fun u f => u ++ [set_temperature_call f]);
     wait_temperature := Some (fun u => u ++ [wait_temperature_call]);
     disable_motors := Some (fun u => u ++ [disable_motors_call]);
     unprocessed :=
       Some (fun u letter value remaining buf =>
               Ok (u ++ [unprocessed_call letter value (text_at buf remaining)],
                   answer u letter value remaining buf)) |}.

(** The answers of two simple collaborators: one stops the line, the
    other skips the word. *)
Definition stop : log -> ascii -> float -> nat -> buffer -> ptr :=
  fun _ _ _ _ _ => None.
Definition skip : log -> ascii -> float -> nat -> buffer -> ptr :=
  fun _ _ _ remaining _ => Some remaining.

(** A fresh parser that records. *)
Definition recorder (answer : log -> ascii -> float -> nat -> buffer -> ptr)
  : GCodeParser log :=
  gcodep_new (Some (recording answer)) [].

(** One line, handed over in a buffer of its own. *)
Definition interpret {U} (p : GCodeParser U) (text : string)
  : outcome (GCodeParser U * buffer) :=
  gcodep_parse_line (S (String.length text)) p (Some 0%nat) (line_buffer text).

(** Several lines, one after the other, on the same parser: [None] if
    one of them does not come to an end. *)
Fixpoint session {U} (p : GCodeParser U) (lines : list string)
  : option (GCodeParser U) :=
  match lines with
  | [] => Some p
  | text :: lines' =>
      match interpret p text with
      | Ok (p', _) => session p' lines'
      | _ => None
      end
  end.

(* ================================================================== *)
(** ** The words a handler consumes

    The handlers for G0/G1, G28 and G92 share one pattern: take words as
    long as the letter is one of the command's own, and leave the first
    other word, or whatever is not a word, where it is.  [take_words]
    says this once; the handlers' loops are compared with it below. *)

Abbreviation word := (ascii * float)%type.

Definition axis_of_letter (c : ascii) : option GCodeParserAxes :=
  match c with
  | "X"%char => Some AXIS_X
  | "Y"%char => Some AXIS_Y
  | "Z"%char => Some AXIS_Z
  | "E"%char => Some AXIS_E
  | "A"%char => Some AXIS_A
  | "B"%char => Some AXIS_B
  | "C"%char => Some AXIS_C
  | _ => None
  end.

Definition is_axis_letter (c : ascii) : bool := bool_decide (is_Some (axis_of_letter c)).

Definition is_move_letter (c : ascii) : bool :=
  char_eqb c "F" || is_axis_letter c.

Fixpoint take_words (accept : ascii -> bool) (fuel : nat) (line : nat)
  : M (list word * nat) :=
  match fuel with
  | O => out_of_fuel
  | S fuel =>
      let* tok := parse_next_pair (Some line) in
      match tok with
      | Pair letter value remaining =>
          if accept letter then
            let* '(ws, rest) := take_words accept fuel remaining in
            ret ((letter, value) :: ws, rest)
          else ret ([], line)
      | Null _ => ret ([], line)
      end
  end.

(** The words from [line] on that a handler accepting [accept] takes, and
    the line that it leaves. *)
Definition words (accept : ascii -> bool) (line : nat) : M (list word * nat) :=
  bounded (fun fuel => take_words accept fuel line).

(** The axes that the words name, as a bitmask. *)
Definition name_axis (flags : Z) (w : word) : Z :=
  match axis_of_letter (fst w) with
  | Some a => Z.lor flags (bit a)
  | None => flags
  end.

Definition named_axes (ws : list word) : Z := fold_left name_axis ws 0.

(** What [go_home] is told: the named axes, or all of them if none was. *)
Definition home_flags (ws : list word) : Z :=
  match ws with
  | [] => kAllAxesBitmap
  | _ => named_axes ws
  end.

(** The result of a computation, seen through [f]. *)
Definition on_result {A B} (f : A -> B) (r : outcome (A * buffer))
  : outcome (B * buffer) :=
  match r with
  | Ok (a, buf) => Ok (f a, buf)
  | Fault e => Fault e
  | OutOfFuel => OutOfFuel
  end.

Section WordEffects.

Context {U : Type}.
Implicit Types (p : GCodeParser U).

(** G28 on the parser: both registers zeroed, one call of [go_home]. *)
Definition homed p (flags : Z) : GCodeParser U :=
  let p := with_axes_pos p (vreplicate GCODE_NUM_AXES F32.zero) in
  let p := with_relative_zero p (vreplicate GCODE_NUM_AXES F32.zero) in
  with_userdata p (cb_go_home (callbacks p) (cb_userdata p) flags).

(** One word of G92: the origin of the axis moves so that the current
    position reads as the stated value. *)
Definition rebase_word p (w : word) : GCodeParser U :=
  match axis_of_letter (fst w) with
  | Some a =>
      with_relative_zero p
        (vinsert a
           (F32.sub (axes_pos p !!! a)
              (F32.mul (unit_to_mm_factor p) (snd w)))
           (relative_zero p))
  | None => p
  end.

(** An F word: the feedrate is stored, and announced, when it differs
    from the stored one. *)
Definition feed_word p (value : float) : GCodeParser U :=
  let f := F32.mul (unit_to_mm_factor p) value in
  if F32.neqb (current_feedrate p) f
  then with_current_feedrate
         (with_userdata p (cb_set_feedrate (callbacks p) (cb_userdata p) f)) f
  else p.

(** An axis word: the new position of the axis. *)
Definition axis_word p (a : GCodeParserAxes) (value : float) : GCodeParser U :=
  let scaled := F32.mul (unit_to_mm_factor p) value in
  with_axes_pos p
    (vinsert a
       (if bool_decide (axis_is_absolute p !!! a ≠ 0)
        then F32.add (relative_zero p !!! a) scaled
        else F32.add (axes_pos p !!! a) scaled)
       (axes_pos p)).

(** One word of G0/G1. *)
Definition move_word p (w : word) : GCodeParser U :=
  if char_eqb (fst w) "F" then feed_word p (snd w)
  else match axis_of_letter (fst w) with
       | Some a => axis_word p a (snd w)
       | None => p
       end.

(** G0/G1 on the parser, given the words: their effects in order, then
    one call of the move callback if an axis was among them. *)
Definition moved p (fun_move : U -> AxesRegister -> U) (ws : list word)
  : GCodeParser U :=
  let p' := fold_left move_word ws p in
  if existsb (fun w => is_axis_letter (fst w)) ws
  then with_userdata p' (fun_move (cb_userdata p') (axes_pos p'))
  else p'.

End WordEffects.

(** The codes with a handler. *)
Definition G_codes : list Z := [0; 1; 20; 21; 28; 90; 91; 92].
Definition M_codes : list Z := [82; 83; 84; 104; 106; 107; 109; 116].

(** A character that can stand as the letter of a word: not the end of
    the line, not white space, not the start of a comment or a checksum. *)
Definition is_letter (c : ascii) : bool :=
  negb (char_eqb c NUL || char_eqb c ";" || char_eqb c "%")
  && negb (isspace c) && negb (char_eqb (toupper c) "*").






(** A word that the top level has no handler for. *)
Definition unhandled (letter : ascii) (value : float) : Prop :=
  (letter ≠ "G"%char ∧ letter ≠ "M"%char ∧ letter ≠ "N"%char)
  ∨ (letter = "G"%char ∧ ∃ n, F32.to_int value = Some n ∧ n ∉ G_codes)
  ∨ (letter = "M"%char ∧ ∃ n, F32.to_int value = Some n ∧ n ∉ M_codes).

(** The parts of the parser that the spec calls the Machine State. *)
Definition machine_state {U} (p : GCodeParser U)
  : float * vec Z GCODE_NUM_AXES * AxesRegister * AxesRegister * float :=
  (unit_to_mm_factor p, axis_is_absolute p, relative_zero p, axes_pos p,
   current_feedrate p).

(* ================================================================== *)
(** ** What one top-level word can do

    The body of the top-level loop, read as a list of cases: for a word
    that [parse_next_pair] has delivered, [parse_word] either runs one of
    the three handlers with a loop, changes one field, calls one
    callback, takes an S parameter, does nothing (N), or asks the
    [unprocessed] callback. *)

Inductive word_effect {U} (p : GCodeParser U) (line : nat) (buf : buffer)
  : GCodeParser U -> ptr -> buffer -> Prop :=
  | effect_move fun_move ws rest buf' :
      fun_move = cb_rapid_move (callbacks p)
      \/ fun_move = cb_coordinated_move (callbacks p) ->
      words is_move_letter line buf = Ok ((ws, rest), buf') ->
      word_effect p line buf (moved p fun_move ws) (Some rest) buf'
  | effect_home ws rest buf' :
      words is_axis_letter line buf = Ok ((ws, rest), buf') ->
      word_effect p line buf (homed p (home_flags ws)) (Some rest) buf'
  | effect_rebase ws rest buf' :
      words is_axis_letter line buf = Ok ((ws, rest), buf') ->
      word_effect p line buf (fold_left rebase_word ws p) (Some rest) buf'
  | effect_unit f :
      f = inch \/ f = one ->
      word_effect p line buf (with_unit_to_mm_factor p f) (Some line) buf
  | effect_mode v :
      v = 0 \/ v = 1 ->
      word_effect p line buf (set_all_axis_to_absolute p v) (Some line) buf
  | effect_mode_E v :
      v = 0 \/ v = 1 ->
      word_effect p line buf
        (with_axis_is_absolute p (vinsert AXIS_E v (axis_is_absolute p)))
        (Some line) buf
  | effect_call u :
      u = cb_disable_motors (callbacks p) (cb_userdata p)
      \/ u = cb_wait_temperature (callbacks p) (cb_userdata p)
      \/ u = cb_set_fanspeed (callbacks p) (cb_userdata p) F32.zero ->
      word_effect p line buf (with_userdata p u) (Some line) buf
  | effect_S setter wait u rest buf' :
      setter = cb_set_temperature (callbacks p)
      \/ setter = cb_set_fanspeed (callbacks p) ->
      wait = id \/ wait = cb_wait_temperature (callbacks p) ->
      set_S_param (cb_userdata p) setter line buf = Ok ((u, rest), buf') ->
      word_effect p line buf (with_userdata p (wait u)) (Some rest) buf'
  | effect_none :
      word_effect p line buf p (Some line) buf
  | effect_unprocessed letter value u next :
      cb_unprocessed (callbacks p) (cb_userdata p) letter value line buf
      = Ok (u, next) ->
      word_effect p line buf (with_userdata p u) next buf.

(** The caller's buffer after the parser has been over it: as long as it
    was, and the same but for an [x] here and there that reads [X]. *)
Definition patched (buf buf' : buffer) : Prop :=
  length buf' = length buf
  /\ forall i, buf' !! i = buf !! i
               \/ (buf !! i = Some "x"%char /\ buf' !! i = Some "X"%char).

(** The buffer holds a C string whose terminator is at index [t]. *)
Definition terminated_at (buf : buffer) (t : nat) : Prop :=
  buf !! t = Some NUL
  /\ forall i c, (i < t)%nat -> buf !! i = Some c -> char_eqb c NUL = false.

(** An [unprocessed] callback that returns, and never a place before the
    one it was given. *)
Definition never_goes_back {U} (cb : callback_table U) : Prop :=
  forall u letter value line buf,
    match cb_unprocessed cb u letter value line buf with
    | Ok (_, Some next) => (line <= next)%nat
    | Ok (_, None) => True
    | Fault _ => True
    | OutOfFuel => False
    end.

(** An [unprocessed] callback that stays in the rest of the line that it
    was given.  It returns NULL or a place there: not before it, and not
    behind the terminator.  And it makes no access outside the array
    where the line has its terminator: if it goes wrong there, then by a
    cast of a number that has no [int] value, as the stand-in can. *)
Definition stays_in_line {U} (cb : callback_table U) : Prop :=
  forall u letter value line buf,
    match cb_unprocessed cb u letter value line buf with
    | Ok (_, next) =>
        forall n, next = Some n ->
          (line <= n)%nat
          /\ forall t, terminated_at buf t -> (line <= t)%nat -> (n <= t)%nat
    | Fault f =>
        forall t, terminated_at buf t -> (line <= t)%nat ->
          exists v, f = IntCastUndefined v /\ F32.to_int v = None
    | OutOfFuel => False
    end.

(** The units and modes that the commands can set. *)
Definition settings_ok {U} (p : GCodeParser U) : Prop :=
  (unit_to_mm_factor p = one \/ unit_to_mm_factor p = inch)
  /\ forall a, axis_is_absolute p !!! a = 0 \/ axis_is_absolute p !!! a = 1.

(** The value of the last of the words that names the axis [a]. *)
Definition last_value (a : GCodeParserAxes) (ws : list word) : option float :=
  fold_left (fun r w => if bool_decide (axis_of_letter (fst w) = Some a)
                        then Some (snd w) else r) ws None.

(* ================================================================== *)
(** * Properties *)

(** ** The libc model and the tokenizer on small inputs *)

Example strtof_0 : strtof (cs "0") = (S754_zero false, 1%nat).
Proof. reflexivity. Qed.

Example strtof_28 : strtof (cs "28 X") = (S754_finite false 14680064 (-19), 2%nat).
Proof. vm_compute. reflexivity. Qed.

Example strtof_tenth : strtof (cs "0.1") = (S754_finite false 13421773 (-27), 3%nat).
Proof. vm_compute. reflexivity. Qed.

Example strtof_hex : strtof (cs "0x1Fp1 ") = (F32.of_Z 62, 6%nat).
Proof. vm_compute. reflexivity. Qed.

Example strtof_0xg : strtof (cs "0xg") = (F32.zero, 1%nat).
Proof. vm_compute. reflexivity. Qed.

Example strtof_fail : strtof (cs "Y5") = (F32.zero, 0%nat).
Proof. vm_compute. reflexivity. Qed.

Example tokenize_G28_X :
  run (parse_next_pair (Some 0%nat)) "G28 X"
  = Ok (Pair "G" (F32.of_Z 28) 4%nat, line_buffer "G28 X").
Proof. vm_compute. reflexivity. Qed.

Example tokenize_X_alone :
  run (parse_next_pair (Some 4%nat)) "G28 X"
  = Ok (Null (Some (ExpectedValueAfter "X")), line_buffer "G28 X").
Proof. vm_compute. reflexivity. Qed.

Example tokenize_G0X1 :
  run (parse_next_pair (Some 0%nat)) "G0X1"
  = Ok (Pair "G" F32.zero 2%nat, line_buffer "G0X1").
Proof. vm_compute. reflexivity. Qed.

Example tokenize_J0x1 :
  run (parse_next_pair (Some 0%nat)) "J0x1"
  = Ok (Pair "J" F32.zero 2%nat, line_buffer "J0X1").
Proof. vm_compute. reflexivity. Qed.

Example tokenize_G_space :
  run (parse_next_pair (Some 0%nat)) "G " = Fault (OutOfBounds 3).
Proof. vm_compute. reflexivity. Qed.

(** ** The buffer monad *)

Lemma bind_Ok {A B} (m : M A) (k : A -> M B) buf a buf' :
  m buf = Ok (a, buf') -> bind m k buf = k a buf'.
Proof. unfold bind. by intros ->. Qed.

Lemma bind_inv {A B} (m : M A) (k : A -> M B) buf r :
  bind m k buf = Ok r ->
  exists a buf', m buf = Ok (a, buf') /\ k a buf' = Ok r.
Proof.
  unfold bind. destruct (m buf) as [[a buf']| |]; [eauto | done | done].
Qed.

Lemma skip_space_in_bounds rest l q :
  skip_space_in rest l = Ok q -> (l <= q < l + length rest)%nat.
Proof.
  revert l. induction rest as [|c rest IH]; intros l; simpl; [done|].
  destruct (negb (char_eqb c NUL) && isspace c).
  - intros H. apply IH in H. lia.
  - intros [= <-]. lia.
Qed.

Lemma skip_space_inv l buf q buf' :
  skip_space l buf = Ok (q, buf') -> buf' = buf /\ (l <= q < length buf)%nat.
Proof.
  unfold skip_space. destruct (skip_space_in _ _) as [q'| |] eqn:E; try done.
  intros [= -> ->]. split; [done|].
  apply skip_space_in_bounds in E. rewrite length_drop in E. lia.
Qed.

Lemma load_inv i buf c buf' :
  load i buf = Ok (c, buf') -> buf' = buf /\ buf !! i = Some c.
Proof. unfold load. destruct (buf !! i); [|done]. by intros [= -> ->]. Qed.

Lemma store_inv i c buf u buf' :
  store i c buf = Ok (u, buf') -> buf' = <[i := c]> buf /\ (i < length buf)%nat.
Proof.
  unfold store. destruct (buf !! i) eqn:E; [|done]. intros [= <- <-].
  split; [done|]. by eapply lookup_lt_Some.
Qed.

Lemma c_str_inv l buf s buf' : c_str l buf = Ok (s, buf') -> buf' = buf.
Proof. unfold c_str. destruct (c_str_in _ _); try done. by intros [= _ ->]. Qed.

Lemma repair_store_length (r : option nat) c buf u buf' :
  match r with Some i => store i c | None => ret tt end buf = Ok (u, buf') ->
  length buf' = length buf.
Proof.
  destruct r as [i|].
  - intros [-> _]%store_inv. by rewrite length_insert.
  - unfold ret. intros ?. by simplify_eq.
Qed.

(** A word takes up at least two characters, and the tokenizer never
    changes the size of the buffer. *)
Lemma parse_next_pair_length line buf t buf' :
  parse_next_pair line buf = Ok (t, buf') -> length buf' = length buf.
Proof.
  destruct line as [l|]; simpl; [|by intros [= _ ->]].
  intros H.
  apply bind_inv in H as (q0 & b & [-> _]%skip_space_inv & H).
  apply bind_inv in H as (c & b & [-> _]%load_inv & H).
  destruct (_ || _); [by injection H as _ ->|].
  apply bind_inv in H as (c' & b & [-> _]%load_inv & H).
  destruct (char_eqb c' NUL); [by injection H as _ ->|].
  destruct (char_eqb _ "*"); [by injection H as _ ->|].
  apply bind_inv in H as (q & b & [-> _]%skip_space_inv & H).
  apply bind_inv in H as (c1 & b & [-> _]%load_inv & H).
  apply bind_inv in H as (u & b1 & H1%repair_store_length & H).
  apply bind_inv in H as (s & b & ->%c_str_inv & H).
  destruct (strtof s) as [v n].
  apply bind_inv in H as (u' & b2 & H2%repair_store_length & H).
  destruct (n =? 0)%nat.
  - apply bind_inv in H as (s' & b & ->%c_str_inv & H). injection H as _ <-. lia.
  - apply bind_inv in H as (r & b & [-> _]%skip_space_inv & H).
    injection H as _ <-. lia.
Qed.

Lemma parse_next_pair_progress l buf c v r buf' :
  parse_next_pair (Some l) buf = Ok (Pair c v r, buf') ->
  (l < r < length buf)%nat.
Proof.
  simpl. intros H.
  apply bind_inv in H as (q0 & b & [-> Hq0]%skip_space_inv & H).
  apply bind_inv in H as (c0 & b & [-> _]%load_inv & H).
  destruct (_ || _); [done|].
  apply bind_inv in H as (c' & b & [-> _]%load_inv & H).
  destruct (char_eqb c' NUL); [done|].
  destruct (char_eqb _ "*"); [done|].
  apply bind_inv in H as (q & b & [-> Hq]%skip_space_inv & H).
  apply bind_inv in H as (c1 & b & [-> _]%load_inv & H).
  apply bind_inv in H as (u & b1 & H1%repair_store_length & H).
  apply bind_inv in H as (s & b & ->%c_str_inv & H).
  destruct (strtof s) as [v' n].
  apply bind_inv in H as (u' & b2 & H2%repair_store_length & H).
  destruct (n =? 0)%nat eqn:En.
  - by apply bind_inv in H as (s' & b & ->%c_str_inv & H).
  - apply bind_inv in H as (r' & b & [-> Hr]%skip_space_inv & H).
    injection H as _ _ ->. apply Nat.eqb_neq in En. lia.
Qed.

(** ** No loop of the handlers runs out of fuel *)

Lemma bind_fuel {A B} (m : M A) (k : A -> M B) buf :
  m buf <> OutOfFuel ->
  (forall a buf', m buf = Ok (a, buf') -> k a buf' <> OutOfFuel) ->
  bind m k buf <> OutOfFuel.
Proof.
  unfold bind. destruct (m buf) as [[a buf']| |]; [auto | done | done].
Qed.

Lemma skip_space_fuel l buf : skip_space l buf <> OutOfFuel.
Proof.
  unfold skip_space.
  assert (forall rest l, skip_space_in rest l <> OutOfFuel) as H.
  { induction rest as [|c rest IH]; intros k; simpl; [done|].
    destruct (_ && _); [apply IH | done]. }
  specialize (H (drop l buf) l). by destruct (skip_space_in _ _).
Qed.

Lemma load_fuel i buf : load i buf <> OutOfFuel.
Proof. unfold load. by destruct (buf !! i). Qed.

Lemma store_fuel i c buf : store i c buf <> OutOfFuel.
Proof. unfold store. by destruct (buf !! i). Qed.

Lemma c_str_fuel l buf : c_str l buf <> OutOfFuel.
Proof.
  unfold c_str.
  assert (forall rest l, c_str_in rest l <> OutOfFuel) as H.
  { induction rest as [|c rest IH]; intros k; simpl; [done|].
    destruct (char_eqb c NUL); [done|].
    specialize (IH (S k)). by destruct (c_str_in rest (S k)). }
  specialize (H (drop l buf) l). by destruct (c_str_in _ _).
Qed.

Lemma parse_next_pair_fuel line buf : parse_next_pair line buf <> OutOfFuel.
Proof.
  destruct line as [l|]; simpl; [|done].
  apply bind_fuel; [apply skip_space_fuel|]. intros q0 b _.
  apply bind_fuel; [apply load_fuel|]. intros c b0 _.
  destruct (_ || _); [done|].
  apply bind_fuel; [apply load_fuel|]. intros c' b1 _.
  destruct (char_eqb c' NUL); [done|]. destruct (char_eqb _ "*"); [done|].
  apply bind_fuel; [apply skip_space_fuel|]. intros q b2 _.
  apply bind_fuel; [apply load_fuel|]. intros c1 b3 _.
  apply bind_fuel; [case_match; [apply store_fuel|done]|].
  intros _ b4 _.
  apply bind_fuel; [apply c_str_fuel|]. intros s b5 _.
  destruct (strtof s) as [v n].
  apply bind_fuel; [case_match; [apply store_fuel|done]|].
  intros _ b6 _.
  destruct (n =? 0)%nat.
  - apply bind_fuel; [apply c_str_fuel|]. done.
  - apply bind_fuel; [apply skip_space_fuel|]. done.
Qed.

Arguments parse_next_pair : simpl never.
Arguments home_switch : simpl never.
Arguments rebase_switch : simpl never.
Arguments move_switch : simpl never.

Lemma take_words_fuel accept fuel line buf :
  (length buf - line < fuel)%nat ->
  take_words accept fuel line buf <> OutOfFuel.
Proof.
  revert line buf. induction fuel as [|fuel IH]; intros line buf Hlt; [lia|].
  simpl. apply bind_fuel; [apply parse_next_pair_fuel|].
  intros [d|c v r] buf' Htok; [done|].
  destruct (accept c); [|done].
  apply bind_fuel; [|intros [ws rest] b ?; done].
  apply IH. pose proof (parse_next_pair_progress _ _ _ _ _ _ Htok).
  pose proof (parse_next_pair_length _ _ _ _ Htok). lia.
Qed.

Lemma words_fuel accept line buf : words accept line buf <> OutOfFuel.
Proof. unfold words, bounded. apply take_words_fuel. lia. Qed.

(** The letters of the words taken are all accepted. *)
Lemma take_words_accepted accept fuel line buf ws rest buf' :
  take_words accept fuel line buf = Ok ((ws, rest), buf') ->
  Forall (fun w => accept (fst w) = true) ws.
Proof.
  revert line buf ws. induction fuel as [|fuel IH]; intros line buf ws; [done|].
  simpl. intros H. apply bind_inv in H as ([d|c v r] & b & Htok & H).
  { unfold ret in H. simplify_eq. constructor. }
  destruct (accept c) eqn:Hc; [|unfold ret in H; simplify_eq; constructor].
  apply bind_inv in H as ([ws' rest'] & b' & Hrec & H).
  unfold ret in H. simplify_eq. constructor; [done|]. by eapply IH.
Qed.

(** ** Arithmetic *)

Lemma mul_comm (x y : float) : F32.mul x y = F32.mul y x.
Proof.
  unfold F32.mul.
  destruct x as [sx|sx| |sx mx ex], y as [sy|sy| |sy my ey]; simpl;
    rewrite ?(xorb_comm sx sy); try reflexivity.
  by rewrite (Pos.mul_comm mx my), (Z.add_comm ex ey).
Qed.

Lemma nonzero_test (x : Z) : negb (x =? 0) = bool_decide (x ≠ 0).
Proof. case_bool_decide; destruct (Z.eqb_spec x 0); simpl; congruence. Qed.

(** ** The handlers' loops against [take_words] *)

Lemma home_switch_spec c flags :
  home_switch c flags
  = if is_axis_letter c then (name_axis flags (c, F32.zero), false)
    else (flags, true).
Proof. destruct c as [[] [] [] [] [] [] [] []]; reflexivity. Qed.

Lemma handle_home_loop_spec fuel flags line buf :
  handle_home_loop fuel flags line buf
  = match take_words is_axis_letter fuel line buf with
    | Ok ((ws, rest), buf') => Ok ((fold_left name_axis ws flags, rest), buf')
    | Fault f => Fault f
    | OutOfFuel => OutOfFuel
    end.
Proof.
  revert flags line buf. induction fuel as [|fuel IH]; intros flags line buf; [done|].
  simpl. unfold bind.
  destruct (parse_next_pair (Some line) buf) as [[[d|c v r] b]| |]; try done.
  rewrite home_switch_spec. destruct (is_axis_letter c); [|done].
  rewrite IH.
  by destruct (take_words _ _ _ _) as [[[ws rest] b']| |].
Qed.

Lemma rebase_switch_spec {U} (p : GCodeParser U) c v :
  rebase_switch p c (F32.mul v (unit_to_mm_factor p))
  = if is_axis_letter c then (rebase_word p (c, v), false) else (p, true).
Proof.
  unfold rebase_switch, rebase_word. rewrite (mul_comm v).
  destruct c as [[] [] [] [] [] [] [] []]; reflexivity.
Qed.

Lemma handle_rebase_loop_spec {U} fuel (p : GCodeParser U) line buf :
  handle_rebase_loop fuel p line buf
  = match take_words is_axis_letter fuel line buf with
    | Ok ((ws, rest), buf') => Ok ((fold_left rebase_word ws p, rest), buf')
    | Fault f => Fault f
    | OutOfFuel => OutOfFuel
    end.
Proof.
  revert p line buf. induction fuel as [|fuel IH]; intros p line buf; [done|].
  simpl. unfold bind.
  destruct (parse_next_pair (Some line) buf) as [[[d|c v r] b]| |]; try done.
  rewrite rebase_switch_spec. destruct (is_axis_letter c); [|done].
  rewrite IH.
  by destruct (take_words _ _ _ _) as [[[ws rest] b']| |].
Qed.

Lemma move_switch_spec {U} (p : GCodeParser U) c v :
  move_switch p c (F32.mul v (unit_to_mm_factor p))
  = if char_eqb c "F" then (feed_word p v, None, false)
    else match axis_of_letter c with
         | Some a => (p, Some a, false)
         | None => (p, None, true)
         end.
Proof.
  unfold move_switch, feed_word. rewrite (mul_comm v).
  destruct c as [[] [] [] [] [] [] [] []]; reflexivity.
Qed.

Lemma is_axis_letter_Some c a : axis_of_letter c = Some a -> is_axis_letter c = true.
Proof. unfold is_axis_letter. intros ->. done. Qed.

Lemma is_axis_letter_None c : axis_of_letter c = None -> is_axis_letter c = false.
Proof. unfold is_axis_letter. intros ->. done. Qed.

Lemma move_word_axis {U} (p : GCodeParser U) c a v :
  axis_of_letter c = Some a -> move_word p (c, v) = axis_word p a v.
Proof.
  unfold move_word. simpl. intros H. rewrite H.
  destruct (char_eqb c "F") eqn:HF; [|done].
  apply Ascii.eqb_eq in HF as ->. done.
Qed.

Lemma handle_move_loop_spec {U} fuel (p : GCodeParser U) any line buf :
  handle_move_loop fuel p any line buf
  = match take_words is_move_letter fuel line buf with
    | Ok ((ws, rest), buf') =>
        Ok ((fold_left move_word ws p,
             any || existsb (fun w => is_axis_letter (fst w)) ws, rest), buf')
    | Fault f => Fault f
    | OutOfFuel => OutOfFuel
    end.
Proof.
  revert p any line buf.
  induction fuel as [|fuel IH]; intros p any line buf; [done|].
  simpl. unfold bind.
  destruct (parse_next_pair (Some line) buf) as [[[d|c v r] b]| |];
    try done; [unfold ret; simpl; by rewrite orb_false_r|].
  rewrite move_switch_spec. unfold is_move_letter at 1.
  destruct (char_eqb c "F") eqn:HF.
  - apply Ascii.eqb_eq in HF as ->. simpl. rewrite IH.
    by destruct (take_words _ _ _ _) as [[[ws rest] b']| |].
  - destruct (axis_of_letter c) as [a|] eqn:Ha.
    + rewrite (is_axis_letter_Some _ _ Ha). simpl. rewrite IH.
      destruct (take_words _ _ _ _) as [[[ws rest] b']| |]; try done.
      unfold ret. simpl. rewrite (is_axis_letter_Some _ _ Ha).
      rewrite (move_word_axis _ _ _ _ Ha). unfold axis_word.
      simpl. by rewrite nonzero_test, (mul_comm v), orb_true_r.
    + rewrite (is_axis_letter_None _ Ha). unfold ret. simpl.
      by rewrite orb_false_r.
Qed.

(** ** The handlers against the words they take *)

Lemma bit_nonzero (a : GCodeParserAxes) : bit a <> 0.
Proof. unfold bit. rewrite Z.shiftl_eq_0_iff by lia. done. Qed.

Lemma fold_name_axis_zero ws flags :
  Forall (fun w => is_axis_letter (fst w) = true) ws ->
  fold_left name_axis ws flags = 0 -> flags = 0 /\ ws = [].
Proof.
  intros Hall. revert flags.
  induction Hall as [|w ws Hw _ IH]; intros flags; simpl; [done|].
  intros [H _]%IH. exfalso. revert H. unfold name_axis, is_axis_letter in *.
  destruct (axis_of_letter w.1) as [a|]; [|done].
  intros [_ H]%Z.lor_eq_0_iff. by apply bit_nonzero in H.
Qed.

Lemma home_flags_test ws :
  Forall (fun w => is_axis_letter (fst w) = true) ws ->
  (if negb (named_axes ws =? 0) then named_axes ws else kAllAxesBitmap)
  = home_flags ws.
Proof.
  intros Hall. destruct (Z.eqb_spec (named_axes ws) 0) as [H0|Hne]; simpl.
  - by apply fold_name_axis_zero in H0 as [_ ->].
  - destruct ws; [by destruct Hne|done].
Qed.

Lemma handle_home_spec {U} (p : GCodeParser U) line buf :
  handle_home p line buf
  = on_result (fun r => (homed p (home_flags (fst r)), snd r))
      (words is_axis_letter line buf).
Proof.
  unfold handle_home, words, bounded, bind. rewrite handle_home_loop_spec.
  destruct (take_words _ _ _ _) as [[[ws rest] b']| |] eqn:E; try done.
  apply take_words_accepted in E. simpl. unfold ret, homed. simpl.
  fold (named_axes ws). by rewrite home_flags_test.
Qed.

Lemma handle_rebase_spec {U} (p : GCodeParser U) line buf :
  handle_rebase p line buf
  = on_result (fun r => (fold_left rebase_word (fst r) p, snd r))
      (words is_axis_letter line buf).
Proof.
  unfold handle_rebase, words, bounded. rewrite handle_rebase_loop_spec.
  unfold on_result. by destruct (take_words _ _ _ _) as [[[ws rest] b']| |].
Qed.

Lemma handle_move_spec {U} (p : GCodeParser U) fun_move line buf :
  handle_move p fun_move line buf
  = on_result (fun r => (moved p fun_move (fst r), snd r))
      (words is_move_letter line buf).
Proof.
  unfold handle_move, words, bounded, bind. rewrite handle_move_loop_spec.
  by destruct (take_words _ _ _ _) as [[[ws rest] b']| |].
Qed.

Arguments handle_home : simpl never.
Arguments handle_rebase : simpl never.
Arguments handle_move : simpl never.
Arguments set_S_param : simpl never.

(** ** The top-level loop, one word at a time *)

Lemma gcodep_parse_line_step {U} fuel (p : GCodeParser U) line buf :
  gcodep_parse_line (S fuel) p line buf
  = match parse_next_pair line buf with
    | Ok (Null _, buf') => Ok (p, buf')
    | Ok (Pair letter value rest, buf') =>
        match parse_word p letter value rest buf' with
        | Ok ((p', next), buf'') => gcodep_parse_line fuel p' next buf''
        | Fault f => Fault f
        | OutOfFuel => OutOfFuel
        end
    | Fault f => Fault f
    | OutOfFuel => OutOfFuel
    end.
Proof.
  simpl. unfold bind.
  destruct (parse_next_pair line buf) as [[[d|c v r] b]| |]; try done.
  by destruct (parse_word p c v r b) as [[[p' next] b']| |].
Qed.

Lemma gcodep_parse_line_NULL {U} fuel (p : GCodeParser U) buf :
  gcodep_parse_line (S fuel) p None buf = Ok (p, buf).
Proof. done. Qed.

(** More fuel than needed changes nothing. *)
Lemma gcodep_parse_line_more {U} fuel k (p : GCodeParser U) line buf r :
  gcodep_parse_line fuel p line buf = Ok r ->
  gcodep_parse_line (fuel + k) p line buf = Ok r.
Proof.
  revert p line buf. induction fuel as [|fuel IH]; intros p line buf; [done|].
  rewrite Nat.add_succ_l, !gcodep_parse_line_step.
  destruct (parse_next_pair line buf) as [[[d|c v rest] b]| |]; try done.
  destruct (parse_word p c v rest b) as [[[p' next] b']| |]; try done.
  apply IH.
Qed.

Lemma parse_word_G {U} (p : GCodeParser U) value n line buf :
  F32.to_int value = Some n ->
  parse_word p "G" value line buf
  = match n with
    | 0 => on_result (fun r => (fst r, Some (snd r)))
             (handle_move p (cb_rapid_move (callbacks p)) line buf)
    | 1 => on_result (fun r => (fst r, Some (snd r)))
             (handle_move p (cb_coordinated_move (callbacks p)) line buf)
    | 20 => Ok ((with_unit_to_mm_factor p inch, Some line), buf)
    | 21 => Ok ((with_unit_to_mm_factor p one, Some line), buf)
    | 28 => on_result (fun r => (fst r, Some (snd r))) (handle_home p line buf)
    | 90 => Ok ((set_all_axis_to_absolute p 1, Some line), buf)
    | 91 => Ok ((set_all_axis_to_absolute p 0, Some line), buf)
    | 92 => on_result (fun r => (fst r, Some (snd r))) (handle_rebase p line buf)
    | _ => call_unprocessed p "G" value line buf
    end.
Proof.
  intros Hn. unfold parse_word, int_cast. rewrite Hn. simpl. unfold bind at 1.
  unfold ret at 1.
  repeat (case_match; try reflexivity);
    unfold bind; by destruct (_ p _ buf) as [[[? ?] ?]| |]
    || by destruct (_ p _ _ buf) as [[[? ?] ?]| |].
Qed.

(** ** Characters *)

Lemma isspace_not_NUL c : isspace c = true -> char_eqb c NUL = false.
Proof. destruct c as [[] [] [] [] [] [] [] []]; done. Qed.

Lemma isdigit_not_space c : isdigit c = true -> isspace c = false.
Proof. destruct c as [[] [] [] [] [] [] [] []]; done. Qed.

Lemma isdigit_not_NUL c : isdigit c = true -> char_eqb c NUL = false.
Proof. destruct c as [[] [] [] [] [] [] [] []]; done. Qed.

(** A one-character string is a number exactly when it is a digit. *)
Lemma strtof_digit d :
  isdigit d = true -> strtof [d] = (F32.of_Z (digit_value d), 1%nat).
Proof.
  destruct d as [[] [] [] [] [] [] [] []]; intros H; try discriminate H;
    vm_compute; reflexivity.
Qed.

Lemma strtof_not_digit c : isdigit c = false -> strtof [c] = (F32.zero, 0%nat).
Proof.
  destruct c as [[] [] [] [] [] [] [] []]; intros H; try discriminate H;
    vm_compute; reflexivity.
Qed.

(** ** Reading a buffer of a known shape *)

Lemma load_at l1 c l2 i :
  i = length l1 -> load i (l1 ++ c :: l2) = Ok (c, l1 ++ c :: l2).
Proof. intros ->. unfold load. by rewrite list_lookup_middle. Qed.

Lemma store_at l1 c c' l2 i :
  i = length l1 -> store i c' (l1 ++ c :: l2) = Ok (tt, l1 ++ c' :: l2).
Proof.
  intros ->. unfold store. rewrite list_lookup_middle by done.
  by rewrite insert_app_r_alt, Nat.sub_diag by lia.
Qed.

Lemma load_past_end (buf : buffer) i :
  (length buf <= i)%nat -> load i buf = Fault (OutOfBounds i).
Proof. intros H. unfold load. by rewrite lookup_ge_None_2. Qed.

Lemma skip_space_in_spaces ws c rest l :
  Forall (fun c => isspace c = true) ws ->
  negb (char_eqb c NUL) && isspace c = false ->
  skip_space_in (ws ++ c :: rest) l = Ok (l + length ws)%nat.
Proof.
  intros Hws Hc. revert l. induction Hws as [|w ws Hw _ IH]; intros l; simpl.
  - rewrite Hc. f_equal. lia.
  - rewrite Hw, (isspace_not_NUL _ Hw). simpl. rewrite IH. f_equal. lia.
Qed.

Lemma skip_space_at l1 ws c l2 i :
  i = length l1 ->
  Forall (fun c => isspace c = true) ws ->
  negb (char_eqb c NUL) && isspace c = false ->
  skip_space i (l1 ++ ws ++ c :: l2)
  = Ok ((i + length ws)%nat, l1 ++ ws ++ c :: l2).
Proof.
  intros -> Hws Hc. unfold skip_space.
  by rewrite drop_app_length, skip_space_in_spaces.
Qed.

Lemma c_str_in_text s rest l :
  Forall (fun c => char_eqb c NUL = false) s ->
  c_str_in (s ++ NUL :: rest) l = Ok s.
Proof.
  intros Hs. revert l. induction Hs as [|c s Hc _ IH]; intros l; simpl; [done|].
  by rewrite Hc, IH.
Qed.

Lemma c_str_at l1 s l2 i :
  i = length l1 ->
  Forall (fun c => char_eqb c NUL = false) s ->
  c_str i (l1 ++ s ++ NUL :: l2) = Ok (s, l1 ++ s ++ NUL :: l2).
Proof.
  intros -> Hs. unfold c_str. by rewrite drop_app_length, c_str_in_text.
Qed.

(** A digit and then an [x]: the number is the digit, the [x] is left as
    an [X], and the line goes on from there. *)
Lemma parse_next_pair_digit_x pre sp0 c sp1 d x tail :
  Forall (fun c => isspace c = true) sp0 ->
  Forall (fun c => isspace c = true) sp1 ->
  is_letter c = true ->
  isdigit d = true ->
  x = "x"%char \/ x = "X"%char ->
  parse_next_pair (Some (length pre)) (pre ++ sp0 ++ c :: sp1 ++ d :: x :: tail)
  = Ok (Pair (toupper c) (F32.of_Z (digit_value d))
          (length (pre ++ sp0 ++ c :: sp1 ++ [d])),
        pre ++ sp0 ++ c :: sp1 ++ d :: "X"%char :: tail).
Proof.
  intros Hsp0 Hsp1 Hc Hd Hx. unfold is_letter in Hc.
  apply andb_prop in Hc as [[Hc1 Hc2]%andb_prop Hc3].
  apply negb_true_iff in Hc1, Hc2, Hc3.
  assert (char_eqb c NUL = false) as HcN.
  { by apply orb_false_elim in Hc1 as [[? _]%orb_false_elim _]. }
  unfold parse_next_pair.
  erewrite bind_Ok by (apply skip_space_at; [done|done|by rewrite Hc2, andb_false_r]).
  rewrite (app_assoc pre sp0).
  erewrite bind_Ok by (apply load_at; by rewrite length_app).
  rewrite Hc1.
  (* the character after the letter *)
  assert (exists c', load (S (length pre + length sp0))
                       ((pre ++ sp0) ++ c :: sp1 ++ d :: x :: tail)
                     = Ok (c', (pre ++ sp0) ++ c :: sp1 ++ d :: x :: tail)
                     /\ char_eqb c' NUL = false) as (c' & Hload & Hc').
  { replace ((pre ++ sp0) ++ c :: sp1 ++ d :: x :: tail)
      with (((pre ++ sp0) ++ [c]) ++ sp1 ++ d :: x :: tail)
      by (by rewrite <- !app_assoc).
    destruct Hsp1 as [|s sp1 Hs _]; simpl.
    - exists d. split; [|by apply isdigit_not_NUL].
      apply load_at. rewrite !length_app. simpl. lia.
    - exists s. split; [|by apply isspace_not_NUL].
      apply load_at. rewrite !length_app. simpl. lia. }
  erewrite bind_Ok by exact Hload. rewrite Hc', Hc3.
  replace ((pre ++ sp0) ++ c :: sp1 ++ d :: x :: tail)
    with (((pre ++ sp0) ++ [c]) ++ sp1 ++ d :: x :: tail)
    by (by rewrite <- !app_assoc).
  erewrite bind_Ok
    by (apply skip_space_at;
        [rewrite !length_app; simpl; lia | done
        | by rewrite (isdigit_not_space _ Hd), andb_false_r]).
  replace (((pre ++ sp0) ++ [c]) ++ sp1 ++ d :: x :: tail)
    with ((((pre ++ sp0) ++ [c]) ++ sp1 ++ [d]) ++ x :: tail)
    by (by rewrite <- !app_assoc).
  erewrite bind_Ok by (apply load_at; rewrite !length_app; simpl; lia).
  assert (char_eqb x "x" || char_eqb x "X" = true) as ->
    by (by destruct Hx as [-> | ->]).
  erewrite bind_Ok by (apply store_at; rewrite !length_app; simpl; lia).
  replace ((((pre ++ sp0) ++ [c]) ++ sp1 ++ [d]) ++ NUL :: tail)
    with ((((pre ++ sp0) ++ [c]) ++ sp1) ++ [d] ++ NUL :: tail)
    by (by rewrite <- !app_assoc).
  erewrite bind_Ok
    by (apply c_str_at;
        [rewrite !length_app; simpl; lia
        | constructor; [by apply isdigit_not_NUL | constructor]]).
  rewrite (strtof_digit _ Hd). cbv beta iota.
  replace ((((pre ++ sp0) ++ [c]) ++ sp1) ++ [d] ++ NUL :: tail)
    with ((((pre ++ sp0) ++ [c]) ++ sp1 ++ [d]) ++ NUL :: tail)
    by (by rewrite <- !app_assoc).
  erewrite bind_Ok by (apply store_at; rewrite !length_app; simpl; lia).
  change (1 =? 0)%nat with false. cbv beta iota.
  erewrite bind_Ok
    by (apply (skip_space_at _ []);
        [rewrite !length_app; simpl; lia | constructor | done]).
  unfold ret. f_equal. f_equal.
  - f_equal. rewrite !length_app. simpl. rewrite !length_app. simpl. lia.
  - by rewrite <- !app_assoc.
Qed.


(** ** Parsing again what was parsed

    The only trace that [parse_next_pair] leaves in the buffer is an [X]
    where an [x] or [X] was, one place after the start of the number.
    Parsing from the same place again therefore gives the same token and
    leaves the buffer as it is. *)

Lemma skip_space_in_agree r1 r2 l q :
  skip_space_in r1 l = Ok q ->
  (forall i, (i <= q - l)%nat -> r2 !! i = r1 !! i) ->
  skip_space_in r2 l = Ok q.
Proof.
  revert r2 l. induction r1 as [|c r1 IH]; intros r2 l; simpl; [done|].
  intros H Hagree.
  destruct r2 as [|c2 r2]; [by specialize (Hagree 0%nat ltac:(lia))|].
  pose proof (Hagree 0%nat ltac:(lia)) as H0. simpl in H0.
  injection H0 as ->. simpl.
  destruct (negb (char_eqb c NUL) && isspace c); [|done].
  pose proof (skip_space_in_bounds _ _ _ H).
  apply IH; [done|]. intros i Hi. apply (Hagree (S i)). lia.
Qed.

Lemma skip_space_insert l buf q j c :
  skip_space l buf = Ok (q, buf) -> (q < j)%nat ->
  skip_space l (<[j := c]> buf) = Ok (q, <[j := c]> buf).
Proof.
  unfold skip_space. intros H Hj.
  destruct (skip_space_in (drop l buf) l) as [q'| |] eqn:E; try done.
  injection H as ->.
  erewrite skip_space_in_agree; [done | exact E |].
  intros i Hi. pose proof (skip_space_in_bounds _ _ _ E).
  rewrite !lookup_drop. apply list_lookup_insert_ne. lia.
Qed.

Lemma load_insert i buf c j c' :
  load i buf = Ok (c, buf) -> i <> j ->
  load i (<[j := c']> buf) = Ok (c, <[j := c']> buf).
Proof.
  unfold load. intros H Hne. rewrite list_lookup_insert_ne by done.
  destruct (buf !! i); [|done]. by injection H as ->.
Qed.

Lemma load_insert_same i (buf : buffer) c c' :
  buf !! i = Some c ->
  load i (<[i := c']> buf) = Ok (c', <[i := c']> buf).
Proof.
  intros H. unfold load. rewrite list_lookup_insert_eq; [done|].
  by eapply lookup_lt_Some.
Qed.

Lemma store_insert_same i (buf : buffer) c c' c'' :
  buf !! i = Some c ->
  store i c'' (<[i := c']> buf) = Ok (tt, <[i := c'']> buf).
Proof.
  intros H. unfold store.
  rewrite list_lookup_insert_eq by (by eapply lookup_lt_Some).
  by rewrite list_insert_insert_eq.
Qed.

Lemma parse_next_pair_again line buf t buf' :
  parse_next_pair line buf = Ok (t, buf') ->
  parse_next_pair line buf' = Ok (t, buf').
Proof.
  destruct line as [l|]; [|unfold parse_next_pair, ret; intros; by simplify_eq].
  unfold parse_next_pair. intros H.
  apply bind_inv in H as (q0 & b & Hq0 & H).
  pose proof Hq0 as [-> Bq0]%skip_space_inv.
  apply bind_inv in H as (c & b & Hc & H).
  pose proof Hc as [-> _]%load_inv.
  destruct (char_eqb c NUL || char_eqb c ";" || char_eqb c "%") eqn:Ec.
  { unfold ret in H. simplify_eq.
    erewrite bind_Ok by done. erewrite bind_Ok by done. by rewrite Ec. }
  apply bind_inv in H as (c' & b & Hc' & H).
  pose proof Hc' as [-> _]%load_inv.
  destruct (char_eqb c' NUL) eqn:Ec'.
  { unfold ret in H. simplify_eq.
    erewrite bind_Ok by done. erewrite bind_Ok by done. rewrite Ec.
    erewrite bind_Ok by done. by rewrite Ec'. }
  destruct (char_eqb (toupper c) "*") eqn:Estar.
  { unfold ret in H. simplify_eq.
    erewrite bind_Ok by done. erewrite bind_Ok by done. rewrite Ec.
    erewrite bind_Ok by done. by rewrite Ec', Estar. }
  apply bind_inv in H as (q & b & Hq & H).
  pose proof Hq as [-> Bq]%skip_space_inv.
  apply bind_inv in H as (c1 & b & Hc1 & H).
  pose proof Hc1 as [-> Lc1]%load_inv.
  destruct (char_eqb c1 "x" || char_eqb c1 "X") eqn:Ex.
  - (* the buffer was patched at [q + 1] *)
    apply bind_inv in H as (u & b1 & Hs1 & H).
    pose proof Hs1 as [-> _]%store_inv.
    apply bind_inv in H as (s & b & Hs & H).
    pose proof Hs as ->%c_str_inv.
    destruct (strtof s) as [v n] eqn:Ev.
    apply bind_inv in H as (u' & b2 & Hs2 & H).
    pose proof Hs2 as [-> _]%store_inv.
    rewrite list_insert_insert_eq in H, Hs2.
    assert (buf' = <[(q + 1)%nat := "X"%char]> buf) as ->.
    { destruct (n =? 0)%nat.
      - apply bind_inv in H as (s' & b & ->%c_str_inv & H).
        unfold ret in H. by simplify_eq.
      - apply bind_inv in H as (r & b & [-> _]%skip_space_inv & H).
        unfold ret in H. by simplify_eq. }
    erewrite bind_Ok by (apply skip_space_insert; [done | lia]).
    erewrite bind_Ok by (apply load_insert; [done | lia]).
    rewrite Ec.
    erewrite bind_Ok by (apply load_insert; [done | lia]).
    rewrite Ec', Estar.
    erewrite bind_Ok by (apply skip_space_insert; [done | lia]).
    erewrite bind_Ok by (by eapply load_insert_same).
    change (char_eqb "X" "x" || char_eqb "X" "X") with true. cbv beta iota.
    erewrite bind_Ok by (by eapply store_insert_same).
    erewrite bind_Ok by done. rewrite Ev.
    erewrite bind_Ok by done. done.
  - (* nothing was written *)
    apply bind_inv in H as (u & b1 & Hs1 & H). injection Hs1 as _ <-.
    apply bind_inv in H as (s & b & Hs & H).
    pose proof Hs as ->%c_str_inv.
    destruct (strtof s) as [v n] eqn:Ev.
    apply bind_inv in H as (u' & b2 & Hs2 & H). injection Hs2 as _ <-.
    assert (buf' = buf) as ->.
    { destruct (n =? 0)%nat.
      - apply bind_inv in H as (s' & b & ->%c_str_inv & H).
        unfold ret in H. by simplify_eq.
      - apply bind_inv in H as (r & b & [-> _]%skip_space_inv & H).
        unfold ret in H. by simplify_eq. }
    erewrite bind_Ok by done. erewrite bind_Ok by done. rewrite Ec.
    erewrite bind_Ok by done. rewrite Ec', Estar.
    erewrite bind_Ok by done. erewrite bind_Ok by done. rewrite Ex.
    erewrite bind_Ok by done. erewrite bind_Ok by done. rewrite Ev.
    erewrite bind_Ok by done. done.
Qed.

(** Where a handler stops, there is no word of its own: the line ends,
    the next word is malformed, or its letter is not one it accepts.  The
    top level finds there what the handler found. *)
Lemma take_words_stop accept fuel line buf ws rest buf' :
  take_words accept fuel line buf = Ok ((ws, rest), buf') ->
  exists t, parse_next_pair (Some rest) buf' = Ok (t, buf')
            /\ match t with
               | Null _ => True
               | Pair c _ _ => accept c = false
               end.
Proof.
  revert line buf ws. induction fuel as [|fuel IH]; intros line buf ws; [done|].
  simpl. intros H. apply bind_inv in H as (t & b & Htok & H).
  destruct t as [d|c v r].
  { unfold ret in H. simplify_eq. exists (Null d).
    split; [by eapply parse_next_pair_again|done]. }
  destruct (accept c) eqn:Hc.
  - apply bind_inv in H as ([ws' rest'] & b' & Hrec & H).
    unfold ret in H. simplify_eq. by eapply IH.
  - unfold ret in H. simplify_eq. exists (Pair c v r).
    split; [by eapply parse_next_pair_again|done].
Qed.

(** ** Bitmasks of axes *)

Lemma testbit_bit (a b : GCodeParserAxes) :
  Z.testbit (bit b) (Z.of_nat (fin_to_nat a)) = bool_decide (b = a).
Proof.
  unfold bit. rewrite Z.shiftl_1_l, Z.pow2_bits_eqb by lia.
  case_bool_decide as H.
  - subst. apply Z.eqb_refl.
  - apply Z.eqb_neq. intros E. apply H, (inj fin_to_nat), (inj Z.of_nat), E.
Qed.

Lemma fold_name_axis_bits ws flags (a : GCodeParserAxes) :
  Z.testbit (fold_left name_axis ws flags) (Z.of_nat (fin_to_nat a))
  = Z.testbit flags (Z.of_nat (fin_to_nat a))
    || existsb (fun w => bool_decide (axis_of_letter (fst w) = Some a)) ws.
Proof.
  revert flags. induction ws as [|w ws IH]; intros flags; simpl.
  - by rewrite orb_false_r.
  - rewrite IH, orb_assoc. f_equal. unfold name_axis.
    destruct (axis_of_letter w.1) as [b|].
    + rewrite Z.lor_spec, testbit_bit. f_equal.
      apply bool_decide_ext. split; congruence.
    + by rewrite bool_decide_eq_false_2, orb_false_r.
Qed.

Lemma named_axes_bits ws (a : GCodeParserAxes) :
  Z.testbit (named_axes ws) (Z.of_nat (fin_to_nat a))
  = existsb (fun w => bool_decide (axis_of_letter (fst w) = Some a)) ws.
Proof. unfold named_axes. by rewrite fold_name_axis_bits, Z.testbit_0_l. Qed.

Lemma words_accepted accept line buf ws rest buf' :
  words accept line buf = Ok ((ws, rest), buf') ->
  Forall (fun w => accept (fst w) = true) ws.
Proof. apply take_words_accepted. Qed.

Lemma words_stop accept line buf ws rest buf' :
  words accept line buf = Ok ((ws, rest), buf') ->
  exists t, parse_next_pair (Some rest) buf' = Ok (t, buf')
            /\ match t with
               | Null _ => True
               | Pair c _ _ => accept c = false
               end.
Proof. apply take_words_stop. Qed.

(** ** C1: G28 *)

(** C1, as the claim states it, fails on the line [G28 X]: the [X] has no
    value after it, the tokenizer reports the error and hands nothing
    back, so that no axis is named and [go_home] gets the bitmask of all
    seven axes, not the X bit alone. *)
Lemma C1_G28_X_homes_all_axes :
  cb_userdata <$> session (recorder stop) ["G28 X"%string]
  = Some [go_home_call kAllAxesBitmap]
  /\ cb_userdata <$> session (recorder stop) ["G28 X"%string]
     <> Some [go_home_call (bit AXIS_X)].
Proof. split; [vm_compute; reflexivity | vm_compute; discriminate]. Qed.

(** C1, amended.  A G word whose code is 28 zeroes [axes_pos] and
    [relative_zero] for all seven axes whatever follows, takes the words
    that follow as long as their letter is an axis letter, their values
    ignored, and calls [go_home] once: with the bits of the axes named,
    or with all seven bits if no word was taken.  It stops where the next
    word has another letter, or is no word at all, and leaves it there.
    The line [G28 X0] homes X alone and still zeroes every axis. *)
Theorem C1_home_resets_and_homes_named_axes {U} (p : GCodeParser U)
    (value : float) (line : nat) (buf : buffer) :
  F32.to_int value = Some 28 ->
  parse_word p "G" value line buf
  = on_result (fun r => (homed p (home_flags (fst r)), Some (snd r)))
      (words is_axis_letter line buf)
  /\ words is_axis_letter line buf <> OutOfFuel
  /\ (forall flags,
        axes_pos (homed p flags) = vreplicate GCODE_NUM_AXES F32.zero
        /\ relative_zero (homed p flags) = vreplicate GCODE_NUM_AXES F32.zero
        /\ cb_userdata (homed p flags)
           = cb_go_home (callbacks p) (cb_userdata p) flags
        /\ unit_to_mm_factor (homed p flags) = unit_to_mm_factor p
        /\ axis_is_absolute (homed p flags) = axis_is_absolute p
        /\ current_feedrate (homed p flags) = current_feedrate p)
  /\ (forall ws rest buf',
        words is_axis_letter line buf = Ok ((ws, rest), buf') ->
        Forall (fun w => is_axis_letter (fst w) = true) ws
        /\ (forall a : GCodeParserAxes,
              Z.testbit (named_axes ws) (Z.of_nat (fin_to_nat a))
              = existsb (fun w => bool_decide (axis_of_letter (fst w) = Some a)) ws)
        /\ (ws = [] -> home_flags ws = kAllAxesBitmap)
        /\ (ws <> [] -> home_flags ws = named_axes ws /\ named_axes ws <> 0)
        /\ exists t, parse_next_pair (Some rest) buf' = Ok (t, buf')
                     /\ match t with
                        | Null _ => True
                        | Pair c _ _ => is_axis_letter c = false
                        end)
  /\ (fun q => (cb_userdata q, relative_zero q, axes_pos q))
       <$> session (recorder stop)
             ["G1 X5 Y6"; "G92 Z2"; "G28 X0"]%string
     = Some ([coordinated_move_call
                (vinsert AXIS_Y (F32.of_Z 6)
                   (vinsert AXIS_X (F32.of_Z 5)
                      (vreplicate GCODE_NUM_AXES F32.zero)));
              go_home_call (bit AXIS_X)],
             vreplicate GCODE_NUM_AXES F32.zero,
             vreplicate GCODE_NUM_AXES F32.zero).
Proof.
  intros Hcode. split; [|split; [|split; [|split]]].
  - rewrite (parse_word_G _ _ _ _ _ Hcode), handle_home_spec.
    by destruct (words is_axis_letter line buf) as [[[ws rest] b]| |].
  - apply words_fuel.
  - done.
  - intros ws rest buf' Hws. split; [|split; [|split; [|split]]].
    + by eapply words_accepted.
    + apply named_axes_bits.
    + by intros ->.
    + intros Hne. split; [by destruct ws|].
      intros H0. apply fold_name_axis_zero in H0 as [_ ?]; [done|].
      by eapply words_accepted.
    + by eapply words_stop.
  - vm_compute. reflexivity.
Qed.

(** An instance of C1: the words after [G28] in [G28 X0 y1 J5]. *)
Lemma C1_home_witness :
  F32.to_int (F32.of_Z 28) = Some 28
  /\ parse_word (recorder stop) "G" (F32.of_Z 28) 4 (line_buffer "G28 X0 y1 J5")
     = Ok ((homed (recorder stop) (Z.lor (bit AXIS_X) (bit AXIS_Y)), Some 10%nat),
           line_buffer "G28 X0 y1 J5").
Proof.
  split; [reflexivity|].
  destruct (C1_home_resets_and_homes_named_axes (recorder stop) (F32.of_Z 28)
              4 (line_buffer "G28 X0 y1 J5") eq_refl) as [-> _].
  vm_compute. reflexivity.
Defined.

(** ** C2: words without a handler *)

Lemma parse_word_M {U} (p : GCodeParser U) value n line buf :
  F32.to_int value = Some n ->
  parse_word p "M" value line buf
  = let cb := callbacks p in
    let after_S (wait : U -> U) (r : U * nat) : GCodeParser U * ptr :=
      (with_userdata p (wait (fst r)), Some (snd r)) in
    match n with
    | 82 => Ok ((with_axis_is_absolute p
                   (vinsert AXIS_E 1 (axis_is_absolute p)), Some line), buf)
    | 83 => Ok ((with_axis_is_absolute p
                   (vinsert AXIS_E 0 (axis_is_absolute p)), Some line), buf)
    | 84 => Ok ((with_userdata p (cb_disable_motors cb (cb_userdata p)),
                 Some line), buf)
    | 104 => on_result (after_S id)
               (set_S_param (cb_userdata p) (cb_set_temperature cb) line buf)
    | 106 => on_result (after_S id)
               (set_S_param (cb_userdata p) (cb_set_fanspeed cb) line buf)
    | 107 => Ok ((with_userdata p (cb_set_fanspeed cb (cb_userdata p) F32.zero),
                  Some line), buf)
    | 109 => on_result (after_S (cb_wait_temperature cb))
               (set_S_param (cb_userdata p) (cb_set_temperature cb) line buf)
    | 116 => Ok ((with_userdata p (cb_wait_temperature cb (cb_userdata p)),
                  Some line), buf)
    | _ => call_unprocessed p "M" value line buf
    end.
Proof.
  intros Hn. unfold parse_word, int_cast. rewrite Hn. simpl. unfold bind at 1.
  unfold ret at 1.
  repeat (case_match; try reflexivity);
    unfold bind; by destruct (set_S_param _ _ _ buf) as [[[? ?] ?]| |].
Qed.

Lemma parse_word_unhandled {U} (p : GCodeParser U) letter value line buf :
  unhandled letter value ->
  parse_word p letter value line buf = call_unprocessed p letter value line buf.
Proof.
  intros [(HG & HM & HN)|[(-> & n & Hn & Hnot)|(-> & n & Hn & Hnot)]].
  - unfold parse_word.
    apply Ascii.eqb_neq in HG, HM, HN. unfold char_eqb. by rewrite HG, HM, HN.
  - rewrite (parse_word_G _ _ _ _ _ Hn).
    repeat (case_match; try reflexivity); subst; exfalso; apply Hnot;
      unfold G_codes; by repeat constructor.
  - rewrite (parse_word_M _ _ _ _ _ Hn). cbv zeta.
    repeat (case_match; try reflexivity); subst; exfalso; apply Hnot;
      unfold M_codes; by repeat constructor.
Qed.

(** C2, as the claim states it, fails on the line [J5 K6]: the callback
    is called for [J] with the text [K6], what remains after the word,
    not with the text [J5 K6] that remained before the word was
    consumed. *)
Lemma C2_callback_gets_the_text_after_the_word :
  cb_userdata <$> session (recorder skip) ["J5 K6"%string]
  = Some [unprocessed_call "J" (F32.of_Z 5) (cs "K6");
          unprocessed_call "K" (F32.of_Z 6) []]
  /\ head <$> (cb_userdata <$> session (recorder skip) ["J5 K6"%string])
     <> Some (Some (unprocessed_call "J" (F32.of_Z 5) (cs "J5 K6"))).
Proof. split; [vm_compute; reflexivity | vm_compute; discriminate]. Qed.

(** C2, amended.  For a top-level word whose letter is not G, M or N,
    and for a G or M word whose code has no handler, the [unprocessed]
    callback is called with the letter, the value and the line that
    remains after the word, which starts further down than the word did.
    The loop goes on from what the callback returns; when that is NULL,
    the line is done. *)
Theorem C2_unprocessed_word_goes_to_the_callback {U} (fuel : nat)
    (p : GCodeParser U) (line : ptr) (buf : buffer)
    (letter : ascii) (value : float) (rest : nat) (buf' : buffer)
    (u : U) (next : ptr) :
  parse_next_pair line buf = Ok (Pair letter value rest, buf') ->
  unhandled letter value ->
  cb_unprocessed (callbacks p) (cb_userdata p) letter value rest buf'
  = Ok (u, next) ->
  (forall l, line = Some l -> (l < rest)%nat)
  /\ parse_word p letter value rest buf' = Ok ((with_userdata p u, next), buf')
  /\ gcodep_parse_line (S fuel) p line buf
     = gcodep_parse_line fuel (with_userdata p u) next buf'
  /\ (next = None ->
      gcodep_parse_line (S (S fuel)) p line buf = Ok (with_userdata p u, buf')).
Proof.
  intros Htok Hun Hcb.
  assert (parse_word p letter value rest buf' = Ok ((with_userdata p u, next), buf'))
    as Hword.
  { rewrite parse_word_unhandled by done. unfold call_unprocessed.
    by rewrite Hcb. }
  assert (gcodep_parse_line (S fuel) p line buf
          = gcodep_parse_line fuel (with_userdata p u) next buf') as Hstep.
  { intros. by rewrite gcodep_parse_line_step, Htok, Hword. }
  split; [|split; [done|split; [done|]]].
  - intros l ->. by eapply parse_next_pair_progress.
  - intros ->. by rewrite gcodep_parse_line_step, Htok, Hword.
Qed.

(** An instance of C2: the word [J5] of the line [J5 K6]. *)
Lemma C2_unprocessed_witness :
  parse_word (recorder skip) "J" (F32.of_Z 5) 3 (line_buffer "J5 K6")
  = Ok ((with_userdata (recorder skip)
           [unprocessed_call "J" (F32.of_Z 5) (cs "K6")], Some 3%nat),
        line_buffer "J5 K6").
Proof.
  refine (proj1 (proj2 (C2_unprocessed_word_goes_to_the_callback 0
    (recorder skip) (Some 0%nat) (line_buffer "J5 K6") "J" (F32.of_Z 5) 3
    (line_buffer "J5 K6") _ _ _ _ _))).
  - vm_compute. reflexivity.
  - left. repeat split; discriminate.
  - vm_compute. reflexivity.
Defined.

(** ** C3: G0 and G1 *)

Lemma move_word_callbacks {U} (q : GCodeParser U) w :
  callbacks (move_word q w) = callbacks q.
Proof.
  unfold move_word, feed_word, axis_word.
  destruct (char_eqb w.1 "F"); [by destruct (F32.neqb _ _)|].
  by destruct (axis_of_letter w.1).
Qed.

Lemma fold_move_word_callbacks {U} ws (q : GCodeParser U) :
  callbacks (fold_left move_word ws q) = callbacks q.
Proof.
  revert q. induction ws as [|w ws IH]; intros q; simpl; [done|].
  by rewrite IH, move_word_callbacks.
Qed.

(** Recorded, the words of a move leave [set_feedrate] calls only. *)
Lemma fold_move_word_recorded answer ws (q : GCodeParser log) :
  callbacks q = callbacks (recorder answer) ->
  exists fs, cb_userdata (fold_left move_word ws q)
             = cb_userdata q ++ (set_feedrate_call <$> fs).
Proof.
  revert q. induction ws as [|w ws IH]; intros q Hq; simpl.
  - exists []. by rewrite app_nil_r.
  - destruct (IH (move_word q w)) as [fs Hfs];
      [by rewrite move_word_callbacks|].
    rewrite Hfs. unfold move_word, feed_word, axis_word.
    destruct (char_eqb w.1 "F").
    + destruct (F32.neqb _ _); [|by exists fs].
      exists (F32.mul (unit_to_mm_factor q) w.2 :: fs).
      simpl. rewrite Hq. simpl. by rewrite <- app_assoc.
    + exists fs. by destruct (axis_of_letter w.1).
Qed.

(** C3.  A G word whose code is 0 or 1 takes the words that follow as
    long as their letter is F or an axis letter, in any order, and stops
    at the first other letter.  Each axis word sets the position of its
    axis to [relative_zero + unit_scale * value] when the axis is in
    absolute mode and to [position + unit_scale * value] otherwise, and
    touches nothing else.  After the words the move callback,
    [rapid_move] for G0 and [coordinated_move] for G1, is called once
    with the whole position register if an axis word was among them, and
    not at all otherwise. *)
Theorem C3_move_updates_axes_then_moves_once {U} (p : GCodeParser U)
    (value : float) (n : Z) (line : nat) (buf : buffer) :
  F32.to_int value = Some n ->
  n = 0 \/ n = 1 ->
  let fun_move := if n =? 0 then cb_rapid_move (callbacks p)
                  else cb_coordinated_move (callbacks p) in
  parse_word p "G" value line buf
  = on_result (fun r => (moved p fun_move (fst r), Some (snd r)))
      (words is_move_letter line buf)
  /\ words is_move_letter line buf <> OutOfFuel
  /\ (forall ws rest buf',
        words is_move_letter line buf = Ok ((ws, rest), buf') ->
        Forall (fun w => is_move_letter (fst w) = true) ws
        /\ exists t, parse_next_pair (Some rest) buf' = Ok (t, buf')
                     /\ match t with
                        | Null _ => True
                        | Pair c _ _ => is_move_letter c = false
                        end)
  /\ (forall ws,
        let p' := fold_left move_word ws p in
        moved p fun_move ws
        = if existsb (fun w => is_axis_letter (fst w)) ws
          then with_userdata p' (fun_move (cb_userdata p') (axes_pos p'))
          else p')
  /\ (forall (q : GCodeParser U) c a v,
        axis_of_letter c = Some a ->
        let scaled := F32.mul (unit_to_mm_factor q) v in
        let q' := move_word q (c, v) in
        axes_pos q' !!! a
        = (if bool_decide (axis_is_absolute q !!! a ≠ 0)
           then F32.add (relative_zero q !!! a) scaled
           else F32.add (axes_pos q !!! a) scaled)
        /\ (forall b, b <> a -> axes_pos q' !!! b = axes_pos q !!! b)
        /\ relative_zero q' = relative_zero q
        /\ axis_is_absolute q' = axis_is_absolute q
        /\ unit_to_mm_factor q' = unit_to_mm_factor q
        /\ current_feedrate q' = current_feedrate q
        /\ cb_userdata q' = cb_userdata q)
  /\ (forall answer (q : GCodeParser log) ws,
        callbacks q = callbacks (recorder answer) ->
        let q' := fold_left move_word ws q in
        let any := existsb (fun w => is_axis_letter (fst w)) ws in
        exists fs,
          cb_userdata (moved q (cb_rapid_move (callbacks q)) ws)
          = cb_userdata q ++ (set_feedrate_call <$> fs)
            ++ (if any then [rapid_move_call (axes_pos q')] else [])
          /\ cb_userdata (moved q (cb_coordinated_move (callbacks q)) ws)
             = cb_userdata q ++ (set_feedrate_call <$> fs)
               ++ (if any then [coordinated_move_call (axes_pos q')] else []))
  /\ cb_userdata <$> session (recorder stop)
                       ["G1 F100"; "G1 y2 X1"; "G91"; "G0 Z-1 X0.5"]%string
     = Some [set_feedrate_call (F32.of_Z 100);
             coordinated_move_call
               (vinsert AXIS_X (F32.of_Z 1)
                  (vinsert AXIS_Y (F32.of_Z 2)
                     (vreplicate GCODE_NUM_AXES F32.zero)));
             rapid_move_call
               (vinsert AXIS_X (F32.of_decimal false 15 (-1))
                  (vinsert AXIS_Z (F32.of_Z (-1))
                     (vinsert AXIS_Y (F32.of_Z 2)
                        (vreplicate GCODE_NUM_AXES F32.zero))))].
Proof.
  intros Hcode Hn fun_move.
  split; [|split; [|split; [|split; [|split; [|split]]]]].
  - rewrite (parse_word_G _ _ _ _ _ Hcode). subst fun_move.
    destruct Hn as [-> | ->]; simpl; rewrite handle_move_spec;
      by destruct (words is_move_letter line buf) as [[[ws rest] b]| |].
  - apply words_fuel.
  - intros ws rest buf' Hws. split; [by eapply words_accepted|].
    by eapply words_stop.
  - done.
  - intros q c a v Ha scaled q'. subst q'. rewrite (move_word_axis _ _ _ _ Ha).
    unfold axis_word. simpl. rewrite vlookup_insert.
    repeat split; try done. intros b Hb. by rewrite vlookup_insert_ne.
  - intros answer q ws Hq q' any.
    destruct (fold_move_word_recorded answer ws q Hq) as [fs Hfs].
    exists fs. unfold moved. fold q'. fold any.
    pose proof (fold_move_word_callbacks ws q) as Hcb. fold q' in Hcb, Hfs.
    destruct any; simpl; rewrite ?Hfs, ?Hq, ?app_nil_r; simpl;
      by rewrite <- ?app_assoc.
  - vm_compute. reflexivity.
Qed.

(** An instance of C3: the words after [G1] in [G1 y2 X1]. *)
Lemma C3_move_witness :
  F32.to_int (F32.of_Z 1) = Some 1
  /\ (1 = 0 \/ 1 = 1)
  /\ parse_word (recorder stop) "G" (F32.of_Z 1) 3 (line_buffer "G1 y2 X1")
     = Ok ((moved (recorder stop) (cb_coordinated_move (callbacks (recorder stop)))
              [("Y"%char, F32.of_Z 2); ("X"%char, F32.of_Z 1)], Some 8%nat),
           line_buffer "G1 y2 X1").
Proof.
  split; [reflexivity|]. split; [by right|].
  destruct (C3_move_updates_axes_then_moves_once (recorder stop) (F32.of_Z 1) 1
              3 (line_buffer "G1 y2 X1") eq_refl (or_intror eq_refl)) as [-> _].
  vm_compute. reflexivity.
Defined.

(** ** C4: [G0X1] *)

(** C4, as the claim states it, fails on the line [G-x5]: the first
    character of the field is a sign and the character after it is an
    [x], so the text of the number is cut off there and is the sign
    alone.  That is no number: the tokenizer reports [G] as not followed
    by one and gives the line up, instead of handing back a G word and
    going on at the [x].  No callback is called.  The same happens with
    a point, as in [G.X5]. *)
Lemma C4_sign_before_x_gives_up_the_line :
  parse_next_pair (Some 0%nat) (line_buffer "G-x5")
  = Ok (Null (Some (NotFollowedByNumber "G" (cs "-X5"))), line_buffer "G-X5")
  /\ (forall v r b,
        parse_next_pair (Some 0%nat) (line_buffer "G-x5") <> Ok (Pair "G" v r, b))
  /\ cb_userdata <$> session (recorder skip) ["G-x5"%string] = Some []
  /\ cb_userdata <$> session (recorder skip) ["G.X5"%string] = Some [].
Proof.
  assert (parse_next_pair (Some 0%nat) (line_buffer "G-x5")
          = Ok (Null (Some (NotFollowedByNumber "G" (cs "-X5"))),
                line_buffer "G-X5")) as H by (by vm_compute).
  split; [done|]. split; [|split; by vm_compute].
  intros v r b. by rewrite H.
Qed.

(** C4, amended.  When the number of a word starts with a digit and the next
    character is [x] or [X], the number is that digit alone: the
    tokenizer hands back the letter and the digit's value, and the
    remaining line starts at the [x], which now reads [X].  So [G0X1] is
    the word G0 and then the word X1, a rapid move to X=1. *)
Theorem C4_number_ends_before_x (pre sp0 : buffer) (c : ascii)
    (sp1 : buffer) (d x : ascii) (tail : buffer) :
  Forall (fun c => isspace c = true) sp0 ->
  Forall (fun c => isspace c = true) sp1 ->
  is_letter c = true ->
  isdigit d = true ->
  x = "x"%char \/ x = "X"%char ->
  let resume := length (pre ++ sp0 ++ c :: sp1 ++ [d]) in
  let buf' := pre ++ sp0 ++ c :: sp1 ++ d :: "X"%char :: tail in
  parse_next_pair (Some (length pre)) (pre ++ sp0 ++ c :: sp1 ++ d :: x :: tail)
  = Ok (Pair (toupper c) (F32.of_Z (digit_value d)) resume, buf')
  /\ buf' !! resume = Some "X"%char
  /\ parse_next_pair (Some 0%nat) (line_buffer "G0X1")
     = Ok (Pair "G" (F32.of_Z 0) 2, line_buffer "G0X1")
  /\ parse_next_pair (Some 2%nat) (line_buffer "G0X1")
     = Ok (Pair "X" (F32.of_Z 1) 4, line_buffer "G0X1")
  /\ cb_userdata <$> session (recorder stop) ["G0X1"%string]
     = Some [rapid_move_call
               (vinsert AXIS_X (F32.of_Z 1) (vreplicate GCODE_NUM_AXES F32.zero))].
Proof.
  intros Hsp0 Hsp1 Hc Hd Hx resume buf'.
  split; [by apply parse_next_pair_digit_x|].
  split; [|by vm_compute].
  subst resume buf'.
  replace (pre ++ sp0 ++ c :: sp1 ++ d :: "X"%char :: tail)
    with ((pre ++ sp0 ++ c :: sp1 ++ [d]) ++ "X"%char :: tail).
  - by rewrite list_lookup_middle.
  - rewrite <- !app_assoc. simpl. by rewrite <- !app_assoc.
Qed.

(** An instance of C4: the word [g 7] before [x2], after two blanks. *)
Lemma C4_number_ends_before_x_witness :
  parse_next_pair (Some 3%nat) (cs "N1   g 7x2" ++ [NUL])
  = Ok (Pair "G" (F32.of_Z 7) 8, cs "N1   g 7X2" ++ [NUL]).
Proof.
  refine (proj1 (C4_number_ends_before_x (cs "N1 ") (cs "  ") "g" (cs " ")
                   "7" "x" (cs "2" ++ [NUL]) _ _ _ _ _)).
  - by repeat constructor.
  - by repeat constructor.
  - reflexivity.
  - reflexivity.
  - by left.
Defined.

(** ** C9: the read past the terminator *)

Lemma bind_Fault {A B} (m : M A) (k : A -> M B) buf f :
  m buf = Fault f -> bind m k buf = Fault f.
Proof. unfold bind. by intros ->. Qed.

(** C9.  When the letter of a word is followed by white space and then
    by the end of the line, the tokenizer stands on the terminator when
    it tests [*(line+1)]: it reads one character past the terminator.
    With the text in an array of its own size that is outside the array
    ([G ] with its terminator has indices 0 to 2, index 3 is read).  With
    a larger array the character after the terminator decides what
    happens: an [x] there is even overwritten. *)
Theorem C9_reads_one_past_the_terminator (pre sp0 : buffer) (c : ascii)
    (sp1 : buffer) :
  Forall (fun c => isspace c = true) sp0 ->
  Forall (fun c => isspace c = true) sp1 ->
  sp1 <> [] ->
  is_letter c = true ->
  let text := pre ++ sp0 ++ c :: sp1 in
  (text ++ [NUL]) !! length text = Some NUL
  /\ parse_next_pair (Some (length pre)) (text ++ [NUL])
     = Fault (OutOfBounds (length text + 1))
  /\ parse_next_pair (Some 0%nat) (line_buffer "G ") = Fault (OutOfBounds 3)
  /\ parse_next_pair (Some 0%nat) (cs "G " ++ [NUL; "x"%char])
     = Ok (Null (Some (NotFollowedByNumber "G" [])),
           cs "G " ++ [NUL; "X"%char]).
Proof.
  intros Hsp0 Hsp1 Hne Hc text.
  split; [by rewrite list_lookup_middle|]. split; [|by vm_compute].
  unfold is_letter in Hc.
  apply andb_prop in Hc as [[Hc1 Hc2]%andb_prop Hc3].
  apply negb_true_iff in Hc1, Hc2, Hc3.
  subst text. unfold parse_next_pair. rewrite <- !app_assoc. simpl.
  erewrite bind_Ok
    by (apply skip_space_at; [done|done|by rewrite Hc2, andb_false_r]).
  rewrite (app_assoc pre sp0).
  erewrite bind_Ok by (apply load_at; by rewrite length_app).
  rewrite Hc1.
  destruct Hsp1 as [|s sp1 Hs Hsp1]; [done|].
  replace ((pre ++ sp0) ++ c :: (s :: sp1) ++ [NUL])
    with (((pre ++ sp0) ++ [c]) ++ s :: sp1 ++ [NUL])
    by (by rewrite <- !app_assoc).
  erewrite bind_Ok by (apply load_at; rewrite !length_app; simpl; lia).
  rewrite (isspace_not_NUL _ Hs), Hc3.
  erewrite bind_Ok
    by (apply (skip_space_at _ (s :: sp1));
        [rewrite !length_app; simpl; lia | by constructor | done]).
  replace (length (pre ++ sp0 ++ c :: s :: sp1) + 1)%nat
    with (S (length pre + length sp0) + length (s :: sp1) + 1)%nat
    by (rewrite !length_app; simpl; lia).
  apply bind_Fault, load_past_end.
  rewrite !length_app. simpl. rewrite ?length_app. simpl. lia.
Qed.

(** An instance of C9: the line [M104 S ] read from its fifth character. *)
Lemma C9_reads_one_past_the_terminator_witness :
  parse_next_pair (Some 4%nat) (line_buffer "M104 S ") = Fault (OutOfBounds 8).
Proof.
  refine (proj1 (proj2 (C9_reads_one_past_the_terminator (cs "M104") (cs " ")
                          "S" (cs " ") _ _ _ _))).
  - by repeat constructor.
  - by repeat constructor.
  - done.
  - reflexivity.
Defined.

(** ** C10: the [x] that comes back as [X] *)

(** C10.  The workaround writes a terminator over the character after
    the first digit when that is an [x] or [X], and afterwards writes [X]
    there whatever it was.  A lower-case [x] in the caller's buffer has
    become [X]: the remaining line that is passed on differs from the
    text that came in.  On the line [J0x1] the [unprocessed] callback is
    shown [X1], and the caller's buffer ends up as [J0X1]. *)
Theorem C10_lower_case_x_becomes_upper_case (pre sp0 : buffer) (c : ascii)
    (sp1 : buffer) (d : ascii) (tail : buffer) :
  Forall (fun c => isspace c = true) sp0 ->
  Forall (fun c => isspace c = true) sp1 ->
  is_letter c = true ->
  isdigit d = true ->
  let buf := pre ++ sp0 ++ c :: sp1 ++ d :: "x"%char :: tail in
  let buf' := pre ++ sp0 ++ c :: sp1 ++ d :: "X"%char :: tail in
  let resume := length (pre ++ sp0 ++ c :: sp1 ++ [d]) in
  parse_next_pair (Some (length pre)) buf
  = Ok (Pair (toupper c) (F32.of_Z (digit_value d)) resume, buf')
  /\ buf !! resume = Some "x"%char
  /\ buf' !! resume = Some "X"%char
  /\ buf' <> buf
  /\ text_at (line_buffer "J0x1") 2 = cs "x1"
  /\ cb_userdata <$> session (recorder stop) ["J0x1"%string]
     = Some [unprocessed_call "J" (F32.of_Z 0) (cs "X1")]
  /\ snd <$> (match interpret (recorder stop) "J0x1" with
              | Ok r => Some r
              | _ => None
              end)
     = Some (line_buffer "J0X1").
Proof.
  intros Hsp0 Hsp1 Hc Hd buf buf' resume.
  assert (forall y, (pre ++ sp0 ++ c :: sp1 ++ d :: y :: tail) !! resume = Some y)
    as Hat.
  { intros y. subst resume.
    replace (pre ++ sp0 ++ c :: sp1 ++ d :: y :: tail)
      with ((pre ++ sp0 ++ c :: sp1 ++ [d]) ++ y :: tail).
    - by rewrite list_lookup_middle.
    - rewrite <- !app_assoc. simpl. by rewrite <- !app_assoc. }
  split; [apply parse_next_pair_digit_x; auto|].
  split; [apply Hat|]. split; [apply Hat|]. split; [|by vm_compute].
  intros E. pose proof (Hat "X"%char) as H1. pose proof (Hat "x"%char) as H2.
  fold buf in H2. fold buf' in H1. rewrite E in H1. congruence.
Qed.

(** An instance of C10: the line [J0x1] itself. *)
Lemma C10_lower_case_x_witness :
  parse_next_pair (Some 0%nat) (line_buffer "J0x1")
  = Ok (Pair "J" (F32.of_Z 0) 2, line_buffer "J0X1").
Proof.
  refine (proj1 (C10_lower_case_x_becomes_upper_case [] [] "J" [] "0"
                   (cs "1" ++ [NUL]) _ _ _ _)).
  - constructor.
  - constructor.
  - reflexivity.
  - reflexivity.
Defined.

(** ** C5: malformed words *)


Lemma words_at_Null accept line buf d buf' :
  parse_next_pair (Some line) buf = Ok (Null d, buf') ->
  words accept line buf = Ok (([], line), buf').
Proof. intros H. unfold words, bounded. simpl. by erewrite bind_Ok by done. Qed.








(** ** Whole lines on any parser *)

Lemma interpret_G1_F100_X1 {U} (q : GCodeParser U) :
  interpret q "G1 F100 X1"
  = Ok (moved q (cb_coordinated_move (callbacks q))
          [("F"%char, F32.of_Z 100); ("X"%char, F32.of_Z 1)],
        line_buffer "G1 F100 X1").
Proof.
  unfold interpret. simpl String.length. rewrite gcodep_parse_line_step.
  assert (parse_next_pair (Some 0%nat) (line_buffer "G1 F100 X1")
          = Ok (Pair "G" (F32.of_Z 1) 3, line_buffer "G1 F100 X1")) as ->
    by (by vm_compute).
  rewrite (parse_word_G _ _ 1) by (by vm_compute). rewrite handle_move_spec.
  assert (words is_move_letter 3 (line_buffer "G1 F100 X1")
          = Ok (([("F"%char, F32.of_Z 100); ("X"%char, F32.of_Z 1)], 10%nat),
                line_buffer "G1 F100 X1")) as -> by (by vm_compute).
  cbn [on_result fst snd]. rewrite gcodep_parse_line_step.
  assert (parse_next_pair (Some 10%nat) (line_buffer "G1 F100 X1")
          = Ok (Null None, line_buffer "G1 F100 X1")) as -> by (by vm_compute).
  done.
Qed.

Lemma interpret_G92_X5 {U} (q : GCodeParser U) :
  interpret q "G92 X5"
  = Ok (rebase_word q ("X"%char, F32.of_Z 5), line_buffer "G92 X5").
Proof.
  unfold interpret. simpl String.length. rewrite gcodep_parse_line_step.
  assert (parse_next_pair (Some 0%nat) (line_buffer "G92 X5")
          = Ok (Pair "G" (F32.of_Z 92) 4, line_buffer "G92 X5")) as ->
    by (by vm_compute).
  rewrite (parse_word_G _ _ 92) by (by vm_compute). rewrite handle_rebase_spec.
  assert (words is_axis_letter 4 (line_buffer "G92 X5")
          = Ok (([("X"%char, F32.of_Z 5)], 6%nat), line_buffer "G92 X5")) as ->
    by (by vm_compute).
  cbn [on_result fst snd fold_left]. rewrite gcodep_parse_line_step.
  assert (parse_next_pair (Some 6%nat) (line_buffer "G92 X5")
          = Ok (Null None, line_buffer "G92 X5")) as -> by (by vm_compute).
  done.
Qed.

Lemma interpret_G1_X5 {U} (q : GCodeParser U) :
  interpret q "G1 X5"
  = Ok (moved q (cb_coordinated_move (callbacks q)) [("X"%char, F32.of_Z 5)],
        line_buffer "G1 X5").
Proof.
  unfold interpret. simpl String.length. rewrite gcodep_parse_line_step.
  assert (parse_next_pair (Some 0%nat) (line_buffer "G1 X5")
          = Ok (Pair "G" (F32.of_Z 1) 3, line_buffer "G1 X5")) as ->
    by (by vm_compute).
  rewrite (parse_word_G _ _ 1) by (by vm_compute). rewrite handle_move_spec.
  assert (words is_move_letter 3 (line_buffer "G1 X5")
          = Ok (([("X"%char, F32.of_Z 5)], 5%nat), line_buffer "G1 X5")) as ->
    by (by vm_compute).
  cbn [on_result fst snd]. rewrite gcodep_parse_line_step.
  assert (parse_next_pair (Some 5%nat) (line_buffer "G1 X5")
          = Ok (Null None, line_buffer "G1 X5")) as -> by (by vm_compute).
  done.
Qed.

Lemma moved_F_then_X {U} (q : GCodeParser U) fun_move v w :
  moved q fun_move [("F"%char, v); ("X"%char, w)]
  = let q' := axis_word (feed_word q v) AXIS_X w in
    with_userdata q' (fun_move (cb_userdata q') (axes_pos q')).
Proof. reflexivity. Qed.

(** ** C6: the feedrate *)

(** C6.  An F word among the parameters of G0/G1 is compared, scaled,
    with the stored feedrate: when they differ ([!=] on floats) the new
    value is stored and [set_feedrate] is called with it; when they do
    not, the parser is left as it is and nothing is called.  So of two
    lines [G1 F100 X1] in a row, on a parser whose feedrate was not 100
    units, the first calls [set_feedrate] once, before its move, and the
    second calls the move callback only. *)
Theorem C6_feedrate_is_announced_when_it_changes {U} (p : GCodeParser U)
    (fuel : nat) (any_change : bool) (line : nat) (buf : buffer)
    (value : float) (rest : nat) (buf' : buffer) :
  parse_next_pair (Some line) buf = Ok (Pair "F" value rest, buf') ->
  let f := F32.mul (unit_to_mm_factor p) value in
  handle_move_loop (S fuel) p any_change line buf
  = handle_move_loop fuel (feed_word p value) any_change rest buf'
  /\ (F32.neqb (current_feedrate p) f = true ->
      feed_word p value
      = with_current_feedrate
          (with_userdata p (cb_set_feedrate (callbacks p) (cb_userdata p) f)) f)
  /\ (F32.neqb (current_feedrate p) f = false -> feed_word p value = p)
  /\ (forall q : GCodeParser U,
        let f100 := F32.mul (unit_to_mm_factor q) (F32.of_Z 100) in
        F32.neqb (current_feedrate q) f100 = true ->
        F32.eqb f100 f100 = true ->
        exists q1 q2,
          session q ["G1 F100 X1"%string] = Some q1
          /\ session q1 ["G1 F100 X1"%string] = Some q2
          /\ cb_userdata q1
             = cb_coordinated_move (callbacks q)
                 (cb_set_feedrate (callbacks q) (cb_userdata q) f100)
                 (axes_pos q1)
          /\ cb_userdata q2
             = cb_coordinated_move (callbacks q) (cb_userdata q1) (axes_pos q2)
          /\ current_feedrate q1 = f100
          /\ current_feedrate q2 = f100)
  /\ cb_userdata <$> session (recorder stop) ["G1 F100 X1"%string]
     = Some [set_feedrate_call (F32.of_Z 100);
             coordinated_move_call
               (vinsert AXIS_X (F32.of_Z 1) (vreplicate GCODE_NUM_AXES F32.zero))]
  /\ cb_userdata <$> session (recorder stop)
                       ["G1 F100 X1"; "G1 F100 X1"]%string
     = Some [set_feedrate_call (F32.of_Z 100);
             coordinated_move_call
               (vinsert AXIS_X (F32.of_Z 1) (vreplicate GCODE_NUM_AXES F32.zero));
             coordinated_move_call
               (vinsert AXIS_X (F32.of_Z 1) (vreplicate GCODE_NUM_AXES F32.zero))].
Proof.
  intros Htok f.
  split; [|split; [|split; [|split; [|split; by vm_compute]]]].
  - cbn [handle_move_loop]. erewrite bind_Ok by exact Htok. cbv beta iota.
    by rewrite move_switch_spec.
  - unfold feed_word. fold f. by intros ->.
  - unfold feed_word. fold f. by intros ->.
  - intros q f100 Hne Heq.
    set (qa := with_current_feedrate
                 (with_userdata q
                    (cb_set_feedrate (callbacks q) (cb_userdata q) f100)) f100).
    set (qb := axis_word qa AXIS_X (F32.of_Z 1)).
    set (q1 := with_userdata qb
                 (cb_coordinated_move (callbacks q) (cb_userdata qb) (axes_pos qb))).
    set (qc := axis_word q1 AXIS_X (F32.of_Z 1)).
    set (q2 := with_userdata qc
                 (cb_coordinated_move (callbacks q) (cb_userdata qc) (axes_pos qc))).
    assert (feed_word q (F32.of_Z 100) = qa) as Hqa.
    { unfold feed_word. fold f100. by rewrite Hne. }
    assert (feed_word q1 (F32.of_Z 100) = q1) as Hq1.
    { unfold feed_word.
      change (unit_to_mm_factor q1) with (unit_to_mm_factor q).
      change (current_feedrate q1) with f100. fold f100.
      unfold F32.neqb. by rewrite Heq. }
    exists q1, q2. unfold session.
    rewrite !interpret_G1_F100_X1, !moved_F_then_X, Hqa, Hq1. done.
Qed.

(** An instance of C6: the word [F100] of the line [G1 F100 X1]. *)
Lemma C6_feedrate_witness :
  handle_move_loop 3 (recorder stop) false 3 (line_buffer "G1 F100 X1")
  = handle_move_loop 2 (feed_word (recorder stop) (F32.of_Z 100)) false 8
      (line_buffer "G1 F100 X1").
Proof.
  refine (proj1 (C6_feedrate_is_announced_when_it_changes (recorder stop) 2
                   false 3 (line_buffer "G1 F100 X1") (F32.of_Z 100) 8
                   (line_buffer "G1 F100 X1") _)).
  by vm_compute.
Defined.

(** ** C7: G92 *)

Lemma rebase_word_position {U} ws (q : GCodeParser U) :
  let q' := fold_left rebase_word ws q in
  axes_pos q' = axes_pos q
  /\ cb_userdata q' = cb_userdata q
  /\ callbacks q' = callbacks q
  /\ unit_to_mm_factor q' = unit_to_mm_factor q
  /\ axis_is_absolute q' = axis_is_absolute q
  /\ current_feedrate q' = current_feedrate q.
Proof.
  revert q. induction ws as [|w ws IH]; intros q; simpl; [done|].
  destruct (IH (rebase_word q w)) as (-> & -> & -> & -> & -> & ->).
  unfold rebase_word. by destruct (axis_of_letter w.1).
Qed.

(** C7, as the claim states it, fails from the position X = 1e-8: [G92
    X5] puts the origin of X at 1e-8 - 5, which in single precision is
    -5, and the absolute [G1 X5] that follows moves X to -5 + 5 = 0, not
    back to 1e-8. *)
Lemma C7_rebase_then_move_changes_X :
  (fun q => axes_pos q !!! AXIS_X) <$> session (recorder stop) ["G1 X1e-8"%string]
  = Some (F32.of_decimal false 1 (-8))
  /\ (fun q => (axis_is_absolute q !!! AXIS_X, axes_pos q !!! AXIS_X))
       <$> session (recorder stop) ["G1 X1e-8"; "G92 X5"; "G1 X5"]%string
     = Some (1, F32.zero)
  /\ F32.eqb (F32.of_decimal false 1 (-8)) F32.zero = false.
Proof. by vm_compute. Qed.

(** C7, amended.  A G word whose code is 92 takes the axis words that
    follow; each sets [relative_zero] of its axis to [position -
    unit_scale * value]; the position, the user data (no callback is
    called) and the rest of the parser stay as they are.  After [G92 X5],
    an absolute [G1 X5] leaves X at [(x - unit_scale * 5) + unit_scale *
    5], computed in single precision, where x is what X was before the
    G92: that is x again whenever the two operations are exact, as from
    x = 3 in metric units. *)
Theorem C7_rebase_moves_the_origin_only {U} (p : GCodeParser U)
    (value : float) (line : nat) (buf : buffer) :
  F32.to_int value = Some 92 ->
  parse_word p "G" value line buf
  = on_result (fun r => (fold_left rebase_word (fst r) p, Some (snd r)))
      (words is_axis_letter line buf)
  /\ words is_axis_letter line buf <> OutOfFuel
  /\ (forall ws rest buf',
        words is_axis_letter line buf = Ok ((ws, rest), buf') ->
        Forall (fun w => is_axis_letter (fst w) = true) ws
        /\ exists t, parse_next_pair (Some rest) buf' = Ok (t, buf')
                     /\ match t with
                        | Null _ => True
                        | Pair c _ _ => is_axis_letter c = false
                        end)
  /\ (forall (q : GCodeParser U) c a v,
        axis_of_letter c = Some a ->
        let q' := rebase_word q (c, v) in
        relative_zero q' !!! a
        = F32.sub (axes_pos q !!! a) (F32.mul (unit_to_mm_factor q) v)
        /\ (forall b, b <> a -> relative_zero q' !!! b = relative_zero q !!! b))
  /\ (forall ws,
        let p' := fold_left rebase_word ws p in
        axes_pos p' = axes_pos p
        /\ cb_userdata p' = cb_userdata p
        /\ unit_to_mm_factor p' = unit_to_mm_factor p
        /\ axis_is_absolute p' = axis_is_absolute p
        /\ current_feedrate p' = current_feedrate p)
  /\ (axis_is_absolute p !!! AXIS_X <> 0 ->
      let x := axes_pos p !!! AXIS_X in
      let u := F32.mul (unit_to_mm_factor p) (F32.of_Z 5) in
      exists p1 p2,
        session p ["G92 X5"%string] = Some p1
        /\ session p1 ["G1 X5"%string] = Some p2
        /\ axes_pos p1 = axes_pos p
        /\ axes_pos p2 !!! AXIS_X = F32.add (F32.sub x u) u
        /\ (F32.add (F32.sub x u) u = x -> axes_pos p2 = axes_pos p))
  /\ F32.add (F32.sub (F32.of_Z 3) (F32.mul one (F32.of_Z 5)))
       (F32.mul one (F32.of_Z 5))
     = F32.of_Z 3
  /\ (fun q => (relative_zero q !!! AXIS_X, axes_pos q !!! AXIS_X))
       <$> session (recorder stop) ["G1 X3"; "G92 X5"; "G1 X5"]%string
     = Some (F32.of_Z (-2), F32.of_Z 3).
Proof.
  intros Hcode.
  split; [|split; [|split; [|split; [|split; [|split; [|by vm_compute]]]]]].
  - rewrite (parse_word_G _ _ _ _ _ Hcode), handle_rebase_spec.
    by destruct (words is_axis_letter line buf) as [[[ws rest] b]| |].
  - apply words_fuel.
  - intros ws rest buf' Hws. split; [by eapply words_accepted|].
    by eapply words_stop.
  - intros q c a v Ha q'. subst q'. unfold rebase_word. simpl. rewrite Ha.
    simpl. rewrite vlookup_insert. split; [done|].
    intros b Hb. by rewrite vlookup_insert_ne.
  - intros ws p'. subst p'.
    by destruct (rebase_word_position ws p) as (-> & -> & _ & -> & -> & ->).
  - intros Habs x u.
    set (p1 := rebase_word p ("X"%char, F32.of_Z 5)).
    exists p1, (moved p1 (cb_coordinated_move (callbacks p1))
                  [("X"%char, F32.of_Z 5)]).
    unfold session. rewrite interpret_G92_X5. fold p1. rewrite interpret_G1_X5.
    split; [done|]. split; [done|]. split; [done|].
    unfold moved. cbn [existsb fst fold_left].
    change (is_axis_letter "X") with true. cbn [orb].
    change (move_word p1 ("X"%char, F32.of_Z 5))
      with (axis_word p1 AXIS_X (F32.of_Z 5)).
    unfold axis_word. cbn [axes_pos with_userdata with_axes_pos].
    change (axis_is_absolute p1) with (axis_is_absolute p).
    rewrite bool_decide_eq_true_2 by done.
    change (unit_to_mm_factor p1) with (unit_to_mm_factor p). fold u.
    change (axes_pos p1) with (axes_pos p).
    change (relative_zero p1 !!! AXIS_X)
      with (vinsert AXIS_X (F32.sub x u) (relative_zero p) !!! AXIS_X).
    rewrite !vlookup_insert. split; [done|].
    intros ->. apply vec_eq. intros i.
    destruct (decide (i = AXIS_X)) as [->|Hi].
    + by rewrite vlookup_insert.
    + by rewrite vlookup_insert_ne.
Qed.

(** An instance of C7: the words after [G92] in [G92 X5 y1]. *)
Lemma C7_rebase_witness :
  F32.to_int (F32.of_Z 92) = Some 92
  /\ parse_word (recorder stop) "G" (F32.of_Z 92) 4 (line_buffer "G92 X5 y1")
     = Ok ((fold_left rebase_word
              [("X"%char, F32.of_Z 5); ("Y"%char, F32.of_Z 1)] (recorder stop),
            Some 9%nat),
           line_buffer "G92 X5 y1").
Proof.
  split; [reflexivity|].
  destruct (C7_rebase_moves_the_origin_only (recorder stop) (F32.of_Z 92) 4
              (line_buffer "G92 X5 y1") eq_refl) as [-> _].
  by vm_compute.
Defined.

(** ** C8: the code of a G or M word *)

(** [F32.to_int] drops the fraction: the magnitude of the result is the
    largest integer that is not above the magnitude of the float, and
    the sign is the float's. *)
Lemma to_int_truncates s m e n :
  F32.to_int (S754_finite s m e) = Some n ->
  exists k, n = cond_Zopp s k
            /\ k * 2 ^ Z.max 0 (- e) <= Zpos m * 2 ^ Z.max 0 e
               < (k + 1) * 2 ^ Z.max 0 (- e).
Proof.
  unfold F32.to_int, F32.trunc. destruct (Z.leb_spec 0 e) as [He|He].
  - destruct (_ && _); [|done]. intros [= <-].
    exists (Z.shiftl (Z.pos m) e). split; [done|].
    rewrite Z.shiftl_mul_pow2, (Z.max_l 0 (- e)), (Z.max_r 0 e) by lia.
    change (2 ^ 0) with 1. lia.
  - destruct (_ && _); [|done]. intros [= <-].
    exists (Z.shiftr (Z.pos m) (- e)). split; [done|].
    rewrite Z.shiftr_div_pow2, (Z.max_r 0 (- e)), (Z.max_l 0 e) by lia.
    change (2 ^ 0) with 1. rewrite Z.mul_1_r.
    assert (0 < 2 ^ (- e)) as Hpos by (apply Z.pow_pos_nonneg; lia).
    pose proof (Z.mul_div_le (Z.pos m) (2 ^ (- e)) Hpos).
    pose proof (Z.mul_succ_div_gt (Z.pos m) (2 ^ (- e)) Hpos).
    lia.
Qed.

(** C8.  The code of a G or M word is the value cast to [int], which
    drops the fraction.  A word whose code is one of the handled ones
    does what the word with the plain integer does, so the fraction makes
    no difference; with any other code the word goes to the
    [unprocessed] callback, value untouched.  The value 0.9 has code 0:
    a G word with it runs the handler of G0, and the line [G0.9 X1] is a
    rapid move to X=1. *)
Theorem C8_code_is_the_truncated_value {U} (p : GCodeParser U)
    (letter : ascii) (value : float) (n : Z) (line : nat) (buf : buffer) :
  letter = "G"%char \/ letter = "M"%char ->
  F32.to_int value = Some n ->
  let codes := if char_eqb letter "G" then G_codes else M_codes in
  (n ∈ codes ->
   parse_word p letter value line buf = parse_word p letter (F32.of_Z n) line buf)
  /\ (n ∉ codes ->
      parse_word p letter value line buf
      = call_unprocessed p letter value line buf)
  /\ match value with
     | S754_zero _ => n = 0
     | S754_finite s m e =>
         exists k, n = cond_Zopp s k
                   /\ k * 2 ^ Z.max 0 (- e) <= Zpos m * 2 ^ Z.max 0 e
                      < (k + 1) * 2 ^ Z.max 0 (- e)
     | _ => False
     end
  /\ strtof (cs "0.9") = (F32.of_decimal false 9 (-1), 3%nat)
  /\ F32.to_int (F32.of_decimal false 9 (-1)) = Some 0
  /\ parse_word p "G" (F32.of_decimal false 9 (-1)) line buf
     = on_result (fun r => (fst r, Some (snd r)))
         (handle_move p (cb_rapid_move (callbacks p)) line buf)
  /\ cb_userdata <$> session (recorder stop) ["G0.9 X1"%string]
     = Some [rapid_move_call
               (vinsert AXIS_X (F32.of_Z 1) (vreplicate GCODE_NUM_AXES F32.zero))].
Proof.
  intros Hletter Hn codes.
  split; [|split; [|split; [|split; [|split; [|split]]]]];
    [| | | by vm_compute | by vm_compute | | by vm_compute].
  - intros Hin. subst codes.
    destruct Hletter as [-> | ->]; simpl in Hin.
    + unfold G_codes in Hin.
      repeat (apply elem_of_cons in Hin as [->|Hin];
              [rewrite (parse_word_G _ _ _ _ _ Hn);
               by erewrite (parse_word_G _ (F32.of_Z _)) by (by vm_compute)|]).
      by apply elem_of_nil in Hin.
    + unfold M_codes in Hin.
      repeat (apply elem_of_cons in Hin as [->|Hin];
              [rewrite (parse_word_M _ _ _ _ _ Hn);
               by erewrite (parse_word_M _ (F32.of_Z _)) by (by vm_compute)|]).
      by apply elem_of_nil in Hin.
  - intros Hnot. apply parse_word_unhandled. subst codes. right.
    destruct Hletter as [-> | ->]; [left|right]; split; eauto.
  - destruct value as [s|s| |s m e]; try done.
    + unfold F32.to_int in Hn. simpl in Hn. by injection Hn.
    + by apply to_int_truncates.
  - by rewrite (parse_word_G _ _ 0) by (by vm_compute).
Qed.

(** An instance of C8: the value 28.7 has code 28, and homes. *)
Lemma C8_code_witness :
  F32.to_int (F32.of_decimal false 287 (-1)) = Some 28
  /\ parse_word (recorder stop) "G" (F32.of_decimal false 287 (-1)) 5
       (line_buffer "G28.7 X0")
     = parse_word (recorder stop) "G" (F32.of_Z 28) 5 (line_buffer "G28.7 X0").
Proof.
  split; [by vm_compute|].
  refine (proj1 (C8_code_is_the_truncated_value (recorder stop) "G"
                   (F32.of_decimal false 287 (-1)) 28 5
                   (line_buffer "G28.7 X0") (or_introl eq_refl) _) _).
  - by vm_compute.
  - unfold G_codes. by repeat constructor.
Defined.

(* ================================================================== *)
(** * More of the parser

    The rest of the file: the S parameter of the M codes, the unit and
    mode commands, what a line can and cannot do to the caller's buffer
    and to the parser, and when the loops are safe and come to an end. *)

(** ** One word, by cases *)

Lemma set_S_param_spec {U} (u : U) setter line buf :
  set_S_param u setter line buf
  = match parse_next_pair (Some line) buf with
    | Ok (Pair c v r, b) =>
        if char_eqb c "S" then Ok ((setter u v, r), b) else Ok ((u, line), b)
    | Ok (Null _, b) => Ok ((u, line), b)
    | Fault f => Fault f
    | OutOfFuel => OutOfFuel
    end.
Proof.
  unfold set_S_param, bind.
  destruct (parse_next_pair (Some line) buf) as [[[d|c v r] b]| |]; try done.
  by destruct (char_eqb c "S").
Qed.

Lemma on_result_Ok {A B} (f : A -> B) r b buf' :
  on_result f r = Ok (b, buf') ->
  exists a, r = Ok (a, buf') /\ b = f a.
Proof.
  destruct r as [[a buf0]| |]; simpl; try done. intros [= <- <-]. eauto.
Qed.

Lemma call_unprocessed_inv {U} (p : GCodeParser U) letter value line buf
    p' next buf' :
  call_unprocessed p letter value line buf = Ok ((p', next), buf') ->
  exists u,
    cb_unprocessed (callbacks p) (cb_userdata p) letter value line buf
    = Ok (u, next)
    /\ p' = with_userdata p u /\ buf' = buf.
Proof.
  unfold call_unprocessed.
  destruct (cb_unprocessed _ _ _ _ _ _) as [[u nx]| |]; try done.
  intros [= <- <- <-]. by exists u.
Qed.

Lemma parse_word_effect {U} (p : GCodeParser U) letter value line buf p' next buf' :
  parse_word p letter value line buf = Ok ((p', next), buf') ->
  word_effect p line buf p' next buf'.
Proof.
  intros H.
  destruct (char_eqb letter "G") eqn:EG; [|destruct (char_eqb letter "M") eqn:EM].
  - apply Ascii.eqb_eq in EG as ->.
    destruct (F32.to_int value) as [n|] eqn:En;
      [|unfold parse_word, int_cast in H; simpl in H; by rewrite En in H].
    rewrite (parse_word_G _ _ _ _ _ En) in H.
    repeat case_match;
      try (rewrite ?handle_move_spec, ?handle_home_spec, ?handle_rebase_spec in H;
           apply on_result_Ok in H as ([q l] & H & [= -> ->]);
           apply on_result_Ok in H as ([ws rest] & H & [= -> ->]); simpl;
           first [ by eapply effect_move; eauto
                 | by eapply effect_home
                 | by eapply effect_rebase ]);
      try (apply call_unprocessed_inv in H as (u & Ecb & -> & ->);
           by eapply effect_unprocessed);
      try (injection H as <- <- <-;
           first [ apply effect_unit; by auto | apply effect_mode; by auto ]).
  - apply Ascii.eqb_eq in EM as ->.
    destruct (F32.to_int value) as [n|] eqn:En;
      [|unfold parse_word, int_cast in H; simpl in H; by rewrite En in H].
    rewrite (parse_word_M _ _ _ _ _ En) in H. cbv zeta in H.
    repeat case_match;
      try (apply on_result_Ok in H as ([u l] & H & [= -> ->]); simpl;
           first
             [ exact (effect_S p line buf _ id u l buf'
                        (or_introl eq_refl) (or_introl eq_refl) H)
             | exact (effect_S p line buf _ id u l buf'
                        (or_intror eq_refl) (or_introl eq_refl) H)
             | exact (effect_S p line buf _ (cb_wait_temperature (callbacks p))
                        u l buf' (or_introl eq_refl) (or_intror eq_refl) H) ]);
      try (apply call_unprocessed_inv in H as (u & Ecb & -> & ->);
           by eapply effect_unprocessed);
      try (injection H as <- <- <-;
           first [ apply effect_mode_E; by auto | apply effect_call; by auto ]).
  - unfold parse_word in H. rewrite EG, EM in H.
    destruct (char_eqb letter "N").
    + injection H as <- <- <-. apply effect_none.
    + apply call_unprocessed_inv in H as (u & Ecb & -> & ->).
      by eapply effect_unprocessed.
Qed.

(** What holds from one state of the loop to the next, holds from the
    start of a line to its end. *)
Lemma gcodep_parse_line_ind {U}
    (R : GCodeParser U * buffer -> GCodeParser U * buffer -> Prop) :
  (forall s, R s s) ->
  (forall s1 s2 s3, R s1 s2 -> R s2 s3 -> R s1 s3) ->
  (forall p line buf t buf',
      parse_next_pair line buf = Ok (t, buf') -> R (p, buf) (p, buf')) ->
  (forall p line buf p' next buf',
      word_effect p line buf p' next buf' -> R (p, buf) (p', buf')) ->
  forall fuel p line buf p' buf',
    gcodep_parse_line fuel p line buf = Ok (p', buf') -> R (p, buf) (p', buf').
Proof.
  intros Hrefl Htrans Htok Hword.
  induction fuel as [|fuel IH]; intros p line buf p' buf'; [done|].
  rewrite gcodep_parse_line_step.
  destruct (parse_next_pair line buf) as [[[d|c v r] b]| |] eqn:E; try done.
  - intros [= <- <-]. by eapply Htok.
  - destruct (parse_word p c v r b) as [[[q nx] b']| |] eqn:E'; try done.
    intros H. eapply Htrans; [by eapply Htok|].
    eapply Htrans; [|by eapply IH]. eapply Hword. by eapply parse_word_effect.
Qed.

(** ** The caller's buffer *)

Lemma patched_refl buf : patched buf buf.
Proof. split; [done|]. intros i. by left. Qed.

Lemma patched_trans b1 b2 b3 : patched b1 b2 -> patched b2 b3 -> patched b1 b3.
Proof.
  intros [L12 H12] [L23 H23]. split; [congruence|]. intros i.
  destruct (H12 i) as [E12|[E1 E2]], (H23 i) as [E23|[E2' E3]].
  - left. congruence.
  - right. split; congruence.
  - right. split; congruence.
  - congruence.
Qed.

Lemma patched_insert (buf : buffer) j c :
  buf !! j = Some c -> c = "x"%char \/ c = "X"%char ->
  patched buf (<[j := "X"%char]> buf).
Proof.
  intros Hj Hc. split; [by rewrite length_insert|]. intros i.
  destruct (decide (i = j)) as [->|Hne].
  - rewrite list_lookup_insert_eq by (by eapply lookup_lt_Some).
    destruct Hc as [-> | ->]; [by right | left; by rewrite Hj].
  - left. by rewrite list_lookup_insert_ne.
Qed.

(** The tokenizer leaves the buffer as it is or with an [X] over an [x]
    or [X]. *)
Lemma parse_next_pair_buffer line buf t buf' :
  parse_next_pair line buf = Ok (t, buf') ->
  buf' = buf
  \/ exists j c, buf !! j = Some c /\ (c = "x"%char \/ c = "X"%char)
                 /\ buf' = <[j := "X"%char]> buf.
Proof.
  destruct line as [l|]; [|unfold parse_next_pair, ret; intros; left; by simplify_eq].
  unfold parse_next_pair. intros H.
  apply bind_inv in H as (q0 & b & [-> _]%skip_space_inv & H).
  apply bind_inv in H as (c & b & [-> _]%load_inv & H).
  destruct (_ || _); [left; unfold ret in H; by simplify_eq|].
  apply bind_inv in H as (c' & b & [-> _]%load_inv & H).
  destruct (char_eqb c' NUL); [left; unfold ret in H; by simplify_eq|].
  destruct (char_eqb _ "*"); [left; unfold ret in H; by simplify_eq|].
  apply bind_inv in H as (q & b & [-> _]%skip_space_inv & H).
  apply bind_inv in H as (c1 & b & [-> Lc1]%load_inv & H).
  destruct (char_eqb c1 "x" || char_eqb c1 "X") eqn:Ex.
  - apply bind_inv in H as (u & b1 & [-> _]%store_inv & H).
    apply bind_inv in H as (s & b & ->%c_str_inv & H).
    destruct (strtof s) as [v n].
    apply bind_inv in H as (u' & b2 & [-> _]%store_inv & H).
    rewrite list_insert_insert_eq in H.
    right. exists (q + 1)%nat, c1. split; [done|]. split.
    { apply orb_prop in Ex as [E|E]; apply Ascii.eqb_eq in E; auto. }
    destruct (n =? 0)%nat.
    + apply bind_inv in H as (s' & b & ->%c_str_inv & H).
      unfold ret in H. by simplify_eq.
    + apply bind_inv in H as (r & b & [-> _]%skip_space_inv & H).
      unfold ret in H. by simplify_eq.
  - left.
    apply bind_inv in H as (u & b1 & Hs1 & H). injection Hs1 as _ <-.
    apply bind_inv in H as (s & b & ->%c_str_inv & H).
    destruct (strtof s) as [v n].
    apply bind_inv in H as (u' & b2 & Hs2 & H). injection Hs2 as _ <-.
    destruct (n =? 0)%nat.
    + apply bind_inv in H as (s' & b & ->%c_str_inv & H).
      unfold ret in H. by simplify_eq.
    + apply bind_inv in H as (r & b & [-> _]%skip_space_inv & H).
      unfold ret in H. by simplify_eq.
Qed.

Lemma parse_next_pair_patched line buf t buf' :
  parse_next_pair line buf = Ok (t, buf') -> patched buf buf'.
Proof.
  intros [->|(j & c & Hj & Hc & ->)]%parse_next_pair_buffer.
  - apply patched_refl.
  - by eapply patched_insert.
Qed.

Lemma take_words_patched accept fuel line buf ws rest buf' :
  take_words accept fuel line buf = Ok ((ws, rest), buf') -> patched buf buf'.
Proof.
  revert line buf ws. induction fuel as [|fuel IH]; intros line buf ws; [done|].
  simpl. intros H. apply bind_inv in H as (t & b & Htok & H).
  apply parse_next_pair_patched in Htok.
  destruct t as [d|c v r]; [unfold ret in H; by simplify_eq|].
  destruct (accept c); [|unfold ret in H; by simplify_eq].
  apply bind_inv in H as ([ws' rest'] & b' & Hrec & H).
  unfold ret in H. simplify_eq. eapply patched_trans; [done|by eapply IH].
Qed.

Lemma set_S_param_inv {U} (u : U) setter line buf u' rest buf' :
  set_S_param u setter line buf = Ok ((u', rest), buf') ->
  exists t, parse_next_pair (Some line) buf = Ok (t, buf')
            /\ ((exists v, t = Pair "S" v rest /\ u' = setter u v)
                \/ ((forall v r, t <> Pair "S" v r) /\ u' = u /\ rest = line)).
Proof.
  rewrite set_S_param_spec.
  destruct (parse_next_pair (Some line) buf) as [[[d|c v r] b]| |]; try done.
  - intros [= <- <- <-]. eexists. split; [done|]. right. by repeat split.
  - destruct (char_eqb c "S") eqn:ES.
    + apply Ascii.eqb_eq in ES as ->. intros [= <- <- <-].
      eexists. split; [done|]. left. eauto.
    + intros [= <- <- <-]. eexists. split; [done|]. right.
      repeat split; try done. intros v' r' [= -> _ _]. done.
Qed.

Lemma word_effect_patched {U} (p : GCodeParser U) line buf p' next buf' :
  word_effect p line buf p' next buf' -> patched buf buf'.
Proof.
  intros []; try apply patched_refl; try by eapply take_words_patched.
  match goal with H : set_S_param _ _ _ _ = _ |- _ =>
    apply set_S_param_inv in H as (t & Ht & _) end.
  by eapply parse_next_pair_patched.
Qed.

Lemma patched_no_x buf buf' :
  patched buf buf' -> "x"%char ∉ buf -> buf' = buf.
Proof.
  intros [Hlen H] Hx. apply list_eq. intros i.
  destruct (H i) as [E|[E _]]; [done|].
  exfalso. apply Hx. by eapply list_elem_of_lookup_2.
Qed.

Lemma gcodep_parse_line_patched {U} fuel (p p' : GCodeParser U) line buf buf' :
  gcodep_parse_line fuel p line buf = Ok (p', buf') -> patched buf buf'.
Proof.
  apply (gcodep_parse_line_ind (fun s s' => patched (snd s) (snd s'))).
  - intros s. apply patched_refl.
  - intros s1 s2 s3. apply patched_trans.
  - intros q l b t b' Ht. by eapply parse_next_pair_patched.
  - intros q l b q' nx b' He. by eapply word_effect_patched.
Qed.

(** X1.  Whatever the line and the callbacks, the buffer that the caller
    handed to [gcodep_parse_line] comes back with the same size and the
    same characters, except that a lower-case [x] may have become [X].
    A line without a lower-case [x] comes back untouched. *)
Theorem X1_line_only_turns_x_into_X {U} (fuel : nat) (p p' : GCodeParser U)
    (line : ptr) (buf buf' : buffer) :
  gcodep_parse_line fuel p line buf = Ok (p', buf') ->
  length buf' = length buf
  /\ (forall i, buf' !! i = buf !! i
                \/ (buf !! i = Some "x"%char /\ buf' !! i = Some "X"%char))
  /\ ("x"%char ∉ buf -> buf' = buf).
Proof.
  intros Hp%gcodep_parse_line_patched.
  split; [apply Hp|]. split; [apply Hp|]. by apply patched_no_x.
Qed.

(** An instance of X1: the line [G1 x2 y0x3]. *)
Lemma X1_line_only_turns_x_into_X_witness :
  exists q : GCodeParser log,
    gcodep_parse_line 9 (recorder skip) (Some 0%nat) (line_buffer "G1 x2 y0x3")
    = Ok (q, line_buffer "G1 x2 y0X3")
    /\ length (line_buffer "G1 x2 y0X3") = length (line_buffer "G1 x2 y0x3").
Proof.
  eexists. split; [by vm_compute|].
  refine (proj1 (X1_line_only_turns_x_into_X 9 (recorder skip) _ (Some 0%nat)
                   (line_buffer "G1 x2 y0x3") (line_buffer "G1 x2 y0X3") _)).
  by vm_compute.
Defined.

(** ** The line comes to an end *)

(** A word takes up at least two characters: its letter and one of its
    number. *)
Lemma parse_next_pair_two l buf c v r buf' :
  parse_next_pair (Some l) buf = Ok (Pair c v r, buf') -> (l + 2 <= r)%nat.
Proof.
  unfold parse_next_pair. intros H.
  apply bind_inv in H as (q0 & b & [-> Hq0]%skip_space_inv & H).
  apply bind_inv in H as (c0 & b & [-> _]%load_inv & H).
  destruct (_ || _); [done|].
  apply bind_inv in H as (c' & b & [-> _]%load_inv & H).
  destruct (char_eqb c' NUL); [done|].
  destruct (char_eqb _ "*"); [done|].
  apply bind_inv in H as (q & b & [-> Hq]%skip_space_inv & H).
  apply bind_inv in H as (c1 & b & [-> _]%load_inv & H).
  apply bind_inv in H as (u & b1 & H1%repair_store_length & H).
  apply bind_inv in H as (s & b & ->%c_str_inv & H).
  destruct (strtof s) as [v' n].
  apply bind_inv in H as (u' & b2 & H2%repair_store_length & H).
  destruct (n =? 0)%nat eqn:En.
  - by apply bind_inv in H as (s' & b & ->%c_str_inv & H).
  - apply bind_inv in H as (r' & b & [-> Hr]%skip_space_inv & H).
    injection H as _ _ ->. apply Nat.eqb_neq in En. lia.
Qed.

Lemma take_words_rest accept fuel line buf ws rest buf' :
  take_words accept fuel line buf = Ok ((ws, rest), buf') ->
  (line + 2 * length ws <= rest)%nat.
Proof.
  revert line buf ws. induction fuel as [|fuel IH]; intros line buf ws; [done|].
  simpl. intros H. apply bind_inv in H as (t & b & Htok & H).
  destruct t as [d|c v r]; [unfold ret in H; simplify_eq; simpl; lia|].
  destruct (accept c); [|unfold ret in H; simplify_eq; simpl; lia].
  apply bind_inv in H as ([ws' rest'] & b' & Hrec & H).
  unfold ret in H. simplify_eq. apply IH in Hrec.
  apply parse_next_pair_two in Htok. simpl. lia.
Qed.

Lemma moved_callbacks {U} (p : GCodeParser U) fun_move ws :
  callbacks (moved p fun_move ws) = callbacks p.
Proof.
  unfold moved. destruct (existsb _ _); simpl; apply fold_move_word_callbacks.
Qed.

Lemma fold_move_word_provided_axes {U} ws (q : GCodeParser U) :
  provided_axes (fold_left move_word ws q) = provided_axes q.
Proof.
  revert q. induction ws as [|w ws IH]; intros q; simpl; [done|].
  rewrite IH. unfold move_word, feed_word, axis_word.
  destruct (char_eqb w.1 "F"); [by destruct (F32.neqb _ _)|].
  by destruct (axis_of_letter w.1).
Qed.

Lemma fold_rebase_word_provided_axes {U} ws (q : GCodeParser U) :
  provided_axes (fold_left rebase_word ws q) = provided_axes q.
Proof.
  revert q. induction ws as [|w ws IH]; intros q; simpl; [done|].
  rewrite IH. unfold rebase_word. by destruct (axis_of_letter w.1).
Qed.

Lemma word_effect_callbacks {U} (p : GCodeParser U) line buf p' next buf' :
  word_effect p line buf p' next buf' ->
  callbacks p' = callbacks p /\ provided_axes p' = provided_axes p.
Proof.
  intros []; try done.
  - split; [apply moved_callbacks|].
    unfold moved. destruct (existsb _ _); simpl;
      apply fold_move_word_provided_axes.
  - split; [apply rebase_word_position|apply fold_rebase_word_provided_axes].
Qed.

Lemma word_effect_next {U} (p : GCodeParser U) line buf p' n buf' :
  word_effect p line buf p' (Some n) buf' ->
  never_goes_back (callbacks p) ->
  (line <= n)%nat.
Proof.
  intros He Hcb. inversion He; subst; try lia;
    try (match goal with H : words _ _ _ = _ |- _ =>
           apply take_words_rest in H; lia end).
  - match goal with H : set_S_param _ _ _ _ = _ |- _ =>
      apply set_S_param_inv in H as (t & Ht & [(v & -> & _)|(_ & _ & ->)]) end;
      [apply parse_next_pair_progress in Ht|]; lia.
  - match goal with H : cb_unprocessed _ _ _ _ _ _ = _ |- _ =>
      pose proof (Hcb (cb_userdata p) letter value line buf') as Hc;
      by rewrite H in Hc end.
Qed.

Lemma on_result_fuel {A B} (f : A -> B) r :
  r <> OutOfFuel -> on_result f r <> OutOfFuel.
Proof. by destruct r as [[a b]| |]. Qed.

Lemma handle_move_fuel {U} (p : GCodeParser U) fm line buf :
  handle_move p fm line buf <> OutOfFuel.
Proof. rewrite handle_move_spec. apply on_result_fuel, words_fuel. Qed.

Lemma handle_home_fuel {U} (p : GCodeParser U) line buf :
  handle_home p line buf <> OutOfFuel.
Proof. rewrite handle_home_spec. apply on_result_fuel, words_fuel. Qed.

Lemma handle_rebase_fuel {U} (p : GCodeParser U) line buf :
  handle_rebase p line buf <> OutOfFuel.
Proof. rewrite handle_rebase_spec. apply on_result_fuel, words_fuel. Qed.

Lemma set_S_param_fuel {U} (u : U) setter line buf :
  set_S_param u setter line buf <> OutOfFuel.
Proof.
  rewrite set_S_param_spec.
  pose proof (parse_next_pair_fuel (Some line) buf).
  destruct (parse_next_pair (Some line) buf) as [[[d|c v r] b]| |]; try done.
  by destruct (char_eqb c "S").
Qed.

Lemma call_unprocessed_fuel {U} (p : GCodeParser U) letter value line buf :
  never_goes_back (callbacks p) ->
  call_unprocessed p letter value line buf <> OutOfFuel.
Proof.
  intros Hcb. pose proof (Hcb (cb_userdata p) letter value line buf) as Hc.
  unfold call_unprocessed.
  by destruct (cb_unprocessed _ _ _ _ _ _) as [[u next]| |].
Qed.

Lemma parse_word_fuel {U} (p : GCodeParser U) letter value line buf :
  never_goes_back (callbacks p) ->
  parse_word p letter value line buf <> OutOfFuel.
Proof.
  intros Hun%(call_unprocessed_fuel p letter value line buf).
  destruct (char_eqb letter "G") eqn:EG; [|destruct (char_eqb letter "M") eqn:EM].
  - apply Ascii.eqb_eq in EG as ->.
    destruct (F32.to_int value) as [n|] eqn:En;
      [|unfold parse_word, int_cast; simpl; by rewrite En].
    rewrite (parse_word_G _ _ _ _ _ En).
    repeat case_match; try done;
      apply on_result_fuel;
      first [apply handle_move_fuel|apply handle_home_fuel|apply handle_rebase_fuel].
  - apply Ascii.eqb_eq in EM as ->.
    destruct (F32.to_int value) as [n|] eqn:En;
      [|unfold parse_word, int_cast; simpl; by rewrite En].
    rewrite (parse_word_M _ _ _ _ _ En). cbv zeta.
    repeat case_match; try done;
      apply on_result_fuel, set_S_param_fuel.
  - unfold parse_word. rewrite EG, EM.
    by destruct (char_eqb letter "N").
Qed.

Lemma gcodep_parse_line_fuel {U} fuel (p : GCodeParser U) line buf :
  never_goes_back (callbacks p) ->
  match line with
  | Some l => (length buf - l < fuel)%nat
  | None => (0 < fuel)%nat
  end ->
  gcodep_parse_line fuel p line buf <> OutOfFuel.
Proof.
  revert p line buf. induction fuel as [|fuel IH]; intros p line buf Hcb Hfuel.
  { destruct line; lia. }
  rewrite gcodep_parse_line_step.
  pose proof (parse_next_pair_fuel line buf) as Hnf.
  destruct (parse_next_pair line buf) as [[[d|c v r] b]| |] eqn:Htok; try done.
  destruct line as [l|]; [|done].
  pose proof (parse_next_pair_progress _ _ _ _ _ _ Htok).
  pose proof (parse_next_pair_length _ _ _ _ Htok) as Hlen.
  pose proof (parse_word_fuel p c v r b Hcb) as Hwf.
  destruct (parse_word p c v r b) as [[[p' next] b']| |] eqn:Hword; try done.
  apply parse_word_effect in Hword.
  destruct (word_effect_callbacks _ _ _ _ _ _ Hword) as [Hcbs _].
  destruct (word_effect_patched _ _ _ _ _ _ Hword) as [Hlen' _].
  apply IH; [by rewrite Hcbs|].
  destruct next as [n|]; [|lia].
  pose proof (word_effect_next _ _ _ _ _ _ Hword Hcb). lia.
Qed.

Lemma stays_in_line_never_goes_back {U} (cb : callback_table U) :
  stays_in_line cb -> never_goes_back cb.
Proof.
  intros Hcb u letter value line buf.
  pose proof (Hcb u letter value line buf) as Hc.
  destruct (cb_unprocessed cb u letter value line buf) as [[u' [n|]]| |];
    try done.
  by apply (Hc n).
Qed.

Lemma stays_in_line_skip : stays_in_line (callbacks (recorder skip)).
Proof.
  intros u letter value line buf n [= <-]. split; [done|]. by intros.
Qed.

Lemma stays_in_line_stop : stays_in_line (callbacks (recorder stop)).
Proof. by intros u letter value line buf n. Qed.

(** X2.  When the [unprocessed] callback returns whenever it is called,
    and never returns a place before the one it was given, the loop of
    [gcodep_parse_line] comes to an end on every line: every word it
    takes moves it forward, and as many turns as the buffer has
    characters are enough, whatever the buffer holds and wherever behind
    its place the callback goes on.  The handlers never move back
    either: they return a place at least two characters further for
    every word they took. *)
Theorem X2_line_comes_to_an_end {U} (p : GCodeParser U) (line : ptr)
    (buf : buffer) (fuel : nat) :
  never_goes_back (callbacks p) ->
  (length buf < fuel)%nat ->
  gcodep_parse_line fuel p line buf <> OutOfFuel
  /\ (forall accept l ws rest buf',
        words accept l buf = Ok ((ws, rest), buf') ->
        (l + 2 * length ws <= rest)%nat).
Proof.
  intros Hcb Hfuel. split.
  - apply gcodep_parse_line_fuel; [done|]. destruct line; lia.
  - intros accept l ws rest buf'. apply take_words_rest.
Qed.

(** An instance of X2: a callback that goes on one character behind the
    place it is shown, which takes it behind the terminator in the end,
    on a line of unknown words. *)
Lemma X2_line_comes_to_an_end_witness :
  gcodep_parse_line 10 (recorder (fun _ _ _ remaining _ => Some (S remaining)))
    (Some 0%nat) (line_buffer "J5 K6 L7")
  <> OutOfFuel.
Proof.
  refine (proj1 (X2_line_comes_to_an_end
                   (recorder (fun _ _ _ remaining _ => Some (S remaining)))
                   (Some 0%nat) (line_buffer "J5 K6 L7") 10 _ _)).
  - intros u letter value line buf. simpl. lia.
  - vm_compute. lia.
Defined.

(** ** One spare byte is enough *)

Lemma terminated_length buf t : terminated_at buf t -> (t < length buf)%nat.
Proof. intros [H _]. by eapply lookup_lt_Some. Qed.

Lemma terminated_insert_after (buf : buffer) t j c :
  terminated_at buf t -> (t < j)%nat -> terminated_at (<[j := c]> buf) t.
Proof.
  intros [H0 Hbefore] Hj. split.
  - rewrite list_lookup_insert_ne by lia. done.
  - intros i d Hi. rewrite list_lookup_insert_ne by lia. by apply Hbefore.
Qed.

Lemma terminated_insert_before (buf : buffer) t j c :
  terminated_at buf t -> (j < t)%nat -> char_eqb c NUL = false ->
  terminated_at (<[j := c]> buf) t.
Proof.
  intros [H0 Hbefore] Hj Hc. split.
  - rewrite list_lookup_insert_ne by lia. done.
  - intros i d Hi. destruct (decide (i = j)) as [->|Hne].
    + rewrite list_lookup_insert_eq by (apply lookup_lt_Some in H0; lia).
      by intros [= <-].
    + rewrite list_lookup_insert_ne by done. by apply Hbefore.
Qed.

Lemma terminated_insert_NUL (buf : buffer) t j :
  terminated_at buf t -> (j <= t)%nat -> terminated_at (<[j := NUL]> buf) j.
Proof.
  intros [H0 Hbefore] Hj. split.
  - rewrite list_lookup_insert_eq; [done|]. apply lookup_lt_Some in H0. lia.
  - intros i d Hi. rewrite list_lookup_insert_ne by lia.
    apply Hbefore. lia.
Qed.

Lemma load_Some (buf : buffer) i c : buf !! i = Some c -> load i buf = Ok (c, buf).
Proof. unfold load. by intros ->. Qed.

Lemma store_Some (buf : buffer) i c :
  (i < length buf)%nat -> store i c buf = Ok (tt, <[i := c]> buf).
Proof.
  intros Hi. unfold store.
  by destruct (lookup_lt_is_Some_2 buf i Hi) as [d ->].
Qed.

Lemma skip_space_total buf t l :
  terminated_at buf t -> (l <= t)%nat ->
  exists q, skip_space l buf = Ok (q, buf) /\ (l <= q <= t)%nat.
Proof.
  intros Ht Hl. remember (t - l)%nat as k eqn:Ek. revert l Hl Ek.
  induction k as [|k IH]; intros l Hl Ek.
  - assert (l = t) as -> by lia. exists t. split; [|lia].
    unfold skip_space. rewrite (drop_S _ NUL) by apply Ht. done.
  - destruct (lookup_lt_is_Some_2 buf l) as [c Hc].
    { apply terminated_length in Ht. lia. }
    unfold skip_space. rewrite (drop_S _ c) by done. simpl.
    destruct (negb (char_eqb c NUL) && isspace c).
    + destruct (IH (S l)) as (q & Hq & Bq); [lia|lia|].
      exists q. split; [|lia]. unfold skip_space in Hq.
      by destruct (skip_space_in (drop (S l) buf) (S l)).
    + exists l. split; [done|lia].
Qed.

Lemma c_str_total buf t l :
  terminated_at buf t -> (l <= t)%nat ->
  exists s, c_str l buf = Ok (s, buf) /\ length s = (t - l)%nat.
Proof.
  intros Ht Hl. remember (t - l)%nat as k eqn:Ek. revert l Hl Ek.
  induction k as [|k IH]; intros l Hl Ek.
  - assert (l = t) as -> by lia. exists []. split; [|done].
    unfold c_str. rewrite (drop_S _ NUL) by apply Ht. done.
  - destruct (lookup_lt_is_Some_2 buf l) as [c Hc].
    { apply terminated_length in Ht. lia. }
    unfold c_str. rewrite (drop_S _ c) by done. simpl.
    destruct Ht as [H0 Hbefore]. rewrite (Hbefore l c) by (done || lia).
    destruct (IH (S l)) as (s & Hs & Ls); [lia|lia|].
    unfold c_str in Hs.
    destruct (c_str_in (drop (S l) buf) (S l)) as [s'| |]; try done.
    injection Hs as ->. exists (c :: s). split; [done|]. simpl. lia.
Qed.

(** [strtof] never claims more characters than it was given. *)
Lemma strtof_consumed s : (snd (strtof s) <= length s)%nat.
Proof.
  unfold strtof, Strtof.strtof.
  destruct (Strtof.span isspace s) as [ws s1].
  destruct (Strtof.sign s1) as [neg s2].
  destruct (Strtof.hexadecimal neg s2) as [[v rest]|]; [simpl; lia|].
  destruct (Strtof.decimal neg s2) as [[v rest]|]; [simpl; lia|].
  destruct (Strtof.infinity neg s2) as [[v rest]|]; [simpl; lia|].
  destruct (Strtof.nan s2) as [[v rest]|]; simpl; lia.
Qed.

(** With the line in an array that has at least one byte behind the
    terminator, the tokenizer stays inside the array, leaves the
    terminator where it is and hands back a place that is not behind
    it. *)
Ltac null_is_safe :=
  split; [done|]; split; [done|]; intros ? ? ? [=].

Lemma parse_next_pair_safe buf t l :
  terminated_at buf t -> (S t < length buf)%nat -> (l <= t)%nat ->
  exists tok buf',
    parse_next_pair (Some l) buf = Ok (tok, buf')
    /\ terminated_at buf' t
    /\ forall c v r, tok = Pair c v r -> (r <= t)%nat.
Proof.
  intros Ht Hslack Hl.
  destruct (skip_space_total buf t l Ht Hl) as (q0 & Hq0 & Bq0).
  unfold parse_next_pair. erewrite bind_Ok by exact Hq0.
  destruct (lookup_lt_is_Some_2 buf q0) as [c Hc]; [lia|].
  erewrite bind_Ok by (by apply load_Some).
  destruct (char_eqb c NUL || char_eqb c ";" || char_eqb c "%") eqn:Ec.
  { exists (Null None), buf. null_is_safe. }
  assert (q0 < t)%nat as Hq0t.
  { destruct (decide (q0 = t)) as [->|]; [|lia].
    destruct Ht as [H0 _]. rewrite H0 in Hc. injection Hc as <-. done. }
  destruct (lookup_lt_is_Some_2 buf (S q0)) as [c' Hc']; [lia|].
  erewrite bind_Ok by (by apply load_Some).
  destruct (char_eqb c' NUL).
  { eexists _, buf. null_is_safe. }
  destruct (char_eqb (toupper c) "*").
  { exists (Null None), buf. null_is_safe. }
  destruct (skip_space_total buf t (S q0) Ht) as (q & Hq & Bq); [lia|].
  erewrite bind_Ok by exact Hq.
  destruct (lookup_lt_is_Some_2 buf (q + 1)) as [c1 Hc1]; [lia|].
  erewrite bind_Ok by (by apply load_Some).
  destruct (char_eqb c1 "x" || char_eqb c1 "X") eqn:Ex.
  - (* the workaround writes at [q + 1] *)
    erewrite bind_Ok by (apply store_Some; lia).
    assert (terminated_at (<[(q + 1)%nat := "X"%char]> buf) t) as Ht2.
    { destruct (decide (q = t)) as [->|Hne].
      - apply terminated_insert_after; [done|lia].
      - apply terminated_insert_before; [done| |done].
        destruct (decide (q + 1 = t)%nat) as [E|]; [|lia].
        destruct Ht as [H0 _]. rewrite E, H0 in Hc1. injection Hc1 as <-.
        done. }
    assert (exists s, c_str q (<[(q + 1)%nat := NUL]> buf)
                      = Ok (s, <[(q + 1)%nat := NUL]> buf)
                      /\ (length s <= 1)%nat
                      /\ (q = t -> s = [])) as (s & Hs & Ls & Hs0).
    { destruct (decide (q = t)) as [->|Hne].
      - destruct (c_str_total (<[(t + 1)%nat := NUL]> buf) t t) as (s & Hs & Ls);
          [apply terminated_insert_after; [done|lia] | lia |].
        exists s. split; [done|]. rewrite Nat.sub_diag in Ls.
        split; [lia|]. intros _. by destruct s.
      - destruct (c_str_total (<[(q + 1)%nat := NUL]> buf) (q + 1) q)
          as (s & Hs & Ls); [apply (terminated_insert_NUL _ t); [done|lia] | lia |].
        exists s. split; [done|]. split; [lia|]. done. }
    erewrite bind_Ok by exact Hs.
    pose proof (strtof_consumed s) as Hn.
    destruct (strtof s) as [v n] eqn:Ev. simpl in Hn.
    erewrite bind_Ok by (apply store_Some; rewrite length_insert; lia).
    rewrite list_insert_insert_eq.
    destruct (n =? 0)%nat eqn:En.
    + destruct (c_str_total _ t q Ht2) as (s' & Hs' & _); [lia|].
      erewrite bind_Ok by exact Hs'. eexists _, _. null_is_safe.
    + apply Nat.eqb_neq in En.
      assert (q <> t) as Hne.
      { intros ->%Hs0. vm_compute in Ev. injection Ev as _ <-. done. }
      assert (q + 1 < t)%nat.
      { destruct (decide (q + 1 = t)%nat) as [E|]; [|lia].
        destruct Ht as [H0 _]. rewrite E, H0 in Hc1. injection Hc1 as <-.
        done. }
      destruct (skip_space_total _ t (q + n) Ht2) as (r & Hr & Br); [lia|].
      erewrite bind_Ok by exact Hr.
      eexists _, _. split; [done|]. split; [done|].
      intros c0 v0 r0 [= _ _ <-]. lia.
  - (* nothing is written *)
    erewrite bind_Ok by done.
    destruct (c_str_total buf t q Ht) as (s & Hs & Ls); [lia|].
    erewrite bind_Ok by exact Hs.
    pose proof (strtof_consumed s) as Hn.
    destruct (strtof s) as [v n] eqn:Ev. simpl in Hn.
    erewrite bind_Ok by done.
    destruct (n =? 0)%nat eqn:En.
    + erewrite bind_Ok by exact Hs. eexists _, _. null_is_safe.
    + destruct (skip_space_total buf t (q + n) Ht) as (r & Hr & Br); [lia|].
      erewrite bind_Ok by exact Hr.
      eexists _, _. split; [done|]. split; [done|].
      intros c0 v0 r0 [= _ _ <-]. lia.
Qed.

Lemma take_words_safe accept fuel buf t l :
  terminated_at buf t -> (S t < length buf)%nat -> (l <= t)%nat ->
  (t - l < fuel)%nat ->
  exists ws rest buf',
    take_words accept fuel l buf = Ok ((ws, rest), buf')
    /\ terminated_at buf' t /\ (rest <= t)%nat.
Proof.
  revert buf l. induction fuel as [|fuel IH]; intros buf l Ht Hslack Hl Hfuel;
    [lia|].
  destruct (parse_next_pair_safe buf t l Ht Hslack Hl) as (tok & b & Htok & Htb & Hr).
  simpl. erewrite bind_Ok by exact Htok.
  destruct tok as [d|c v r]; [by eexists _, _, _|].
  destruct (accept c); [|by eexists _, _, _].
  pose proof (parse_next_pair_progress _ _ _ _ _ _ Htok).
  pose proof (parse_next_pair_length _ _ _ _ Htok) as Hlen.
  assert (r <= t)%nat by (by eapply Hr).
  destruct (IH b r Htb) as (ws & rest & b' & Hrec & Htb' & Hrest);
    [lia | lia | lia |].
  erewrite bind_Ok by exact Hrec. by eexists _, _, _.
Qed.

Lemma words_safe accept buf t l :
  terminated_at buf t -> (S t < length buf)%nat -> (l <= t)%nat ->
  exists ws rest buf',
    words accept l buf = Ok ((ws, rest), buf')
    /\ terminated_at buf' t /\ (rest <= t)%nat.
Proof.
  intros Ht Hslack Hl. unfold words, bounded.
  apply take_words_safe; try done. apply terminated_length in Ht. lia.
Qed.

Lemma handle_move_safe {U} (p : GCodeParser U) fm buf t line :
  terminated_at buf t -> (S t < length buf)%nat -> (line <= t)%nat ->
  exists p' rest buf',
    handle_move p fm line buf = Ok ((p', rest), buf')
    /\ terminated_at buf' t /\ (rest <= t)%nat.
Proof.
  intros Ht Hslack Hl. rewrite handle_move_spec.
  destruct (words_safe is_move_letter buf t line Ht Hslack Hl)
    as (ws & rest & b & -> & Hb & Hrest).
  by eexists _, _, _.
Qed.

Lemma handle_home_safe {U} (p : GCodeParser U) buf t line :
  terminated_at buf t -> (S t < length buf)%nat -> (line <= t)%nat ->
  exists p' rest buf',
    handle_home p line buf = Ok ((p', rest), buf')
    /\ terminated_at buf' t /\ (rest <= t)%nat.
Proof.
  intros Ht Hslack Hl. rewrite handle_home_spec.
  destruct (words_safe is_axis_letter buf t line Ht Hslack Hl)
    as (ws & rest & b & -> & Hb & Hrest).
  by eexists _, _, _.
Qed.

Lemma handle_rebase_safe {U} (p : GCodeParser U) buf t line :
  terminated_at buf t -> (S t < length buf)%nat -> (line <= t)%nat ->
  exists p' rest buf',
    handle_rebase p line buf = Ok ((p', rest), buf')
    /\ terminated_at buf' t /\ (rest <= t)%nat.
Proof.
  intros Ht Hslack Hl. rewrite handle_rebase_spec.
  destruct (words_safe is_axis_letter buf t line Ht Hslack Hl)
    as (ws & rest & b & -> & Hb & Hrest).
  by eexists _, _, _.
Qed.

Lemma set_S_param_safe {U} (u : U) setter buf t line :
  terminated_at buf t -> (S t < length buf)%nat -> (line <= t)%nat ->
  exists u' rest buf',
    set_S_param u setter line buf = Ok ((u', rest), buf')
    /\ terminated_at buf' t /\ (rest <= t)%nat.
Proof.
  intros Ht Hslack Hl. rewrite set_S_param_spec.
  destruct (parse_next_pair_safe buf t line Ht Hslack Hl)
    as (tok & b & -> & Hb & Hr).
  destruct tok as [d|c v r]; [by eexists _, _, _|].
  destruct (char_eqb c "S"); eexists _, _, _; (split; [done|]);
    (split; [done|]); [by eapply Hr|done].
Qed.

Ltac handler_is_safe H :=
  let q := fresh "q" in let r := fresh "r" in let b := fresh "b" in
  let E := fresh "E" in let Hb := fresh "Hb" in let Hr := fresh "Hr" in
  destruct H as (q & r & b & E & Hb & Hr); rewrite E; simpl;
  eexists _, _, _; split; [done|]; split; [done|]; by intros ? [= <-].

Lemma parse_word_safe {U} (p : GCodeParser U) letter value buf t line :
  terminated_at buf t -> (S t < length buf)%nat -> (line <= t)%nat ->
  stays_in_line (callbacks p) ->
  (exists p' next buf',
      parse_word p letter value line buf = Ok ((p', next), buf')
      /\ terminated_at buf' t
      /\ forall n, next = Some n -> (n <= t)%nat)
  \/ (exists v,
        parse_word p letter value line buf = Fault (IntCastUndefined v)
        /\ F32.to_int v = None).
Proof.
  intros Ht Hslack Hl Hcb.
  assert ((exists p' next buf',
              call_unprocessed p letter value line buf = Ok ((p', next), buf')
              /\ terminated_at buf' t
              /\ forall n, next = Some n -> (n <= t)%nat)
          \/ (exists v,
                call_unprocessed p letter value line buf
                = Fault (IntCastUndefined v)
                /\ F32.to_int v = None)) as Hun.
  { pose proof (Hcb (cb_userdata p) letter value line buf) as Hc.
    unfold call_unprocessed.
    destruct (cb_unprocessed _ _ _ _ _ _) as [[u nx]|f|]; [| |done].
    - left. eexists _, _, _. split; [done|]. split; [done|].
      intros n ->. by eapply (Hc n).
    - right. destruct (Hc t Ht Hl) as (v & -> & Hv). by exists v. }
  assert (forall q : GCodeParser U,
             (exists p' next buf',
                 Ok ((q, Some line), buf) = Ok ((p', next), buf')
                 /\ terminated_at buf' t
                 /\ forall n, next = Some n -> (n <= t)%nat)
             \/ (exists v,
                   Ok ((q, Some line), buf) = Fault (IntCastUndefined v)
                   /\ F32.to_int v = None)) as Hsame.
  { intros q. left. eexists _, _, _. split; [done|]. split; [done|].
    by intros ? [= <-]. }
  destruct (char_eqb letter "G") eqn:EG; [|destruct (char_eqb letter "M") eqn:EM].
  - apply Ascii.eqb_eq in EG as ->.
    destruct (F32.to_int value) as [n|] eqn:En;
      [|right; exists value; unfold parse_word, int_cast; simpl; by rewrite En].
    rewrite (parse_word_G _ _ _ _ _ En).
    pose proof (handle_move_safe p (cb_rapid_move (callbacks p)) buf t line
                  Ht Hslack Hl) as H0.
    pose proof (handle_move_safe p (cb_coordinated_move (callbacks p)) buf t line
                  Ht Hslack Hl) as H1.
    pose proof (handle_home_safe p buf t line Ht Hslack Hl) as H28.
    pose proof (handle_rebase_safe p buf t line Ht Hslack Hl) as H92.
    repeat case_match; try apply Hun; try apply Hsame; left;
      first [handler_is_safe H0 | handler_is_safe H1
            | handler_is_safe H28 | handler_is_safe H92].
  - apply Ascii.eqb_eq in EM as ->.
    destruct (F32.to_int value) as [n|] eqn:En;
      [|right; exists value; unfold parse_word, int_cast; simpl; by rewrite En].
    rewrite (parse_word_M _ _ _ _ _ En). cbv zeta.
    pose proof (set_S_param_safe (cb_userdata p) (cb_set_temperature (callbacks p))
                  buf t line Ht Hslack Hl) as HT.
    pose proof (set_S_param_safe (cb_userdata p) (cb_set_fanspeed (callbacks p))
                  buf t line Ht Hslack Hl) as HF.
    repeat case_match; try apply Hun; try apply Hsame; left;
      first [handler_is_safe HT | handler_is_safe HF].
  - unfold parse_word. rewrite EG, EM.
    destruct (char_eqb letter "N"); [apply Hsame|apply Hun].
Qed.

Lemma gcodep_parse_line_safe {U} fuel (p : GCodeParser U) buf t l :
  terminated_at buf t -> (S t < length buf)%nat -> (l <= t)%nat ->
  stays_in_line (callbacks p) ->
  (t - l < fuel)%nat ->
  (exists p' buf',
      gcodep_parse_line fuel p (Some l) buf = Ok (p', buf')
      /\ terminated_at buf' t)
  \/ (exists v,
        gcodep_parse_line fuel p (Some l) buf = Fault (IntCastUndefined v)
        /\ F32.to_int v = None).
Proof.
  revert p buf l.
  induction fuel as [|fuel IH]; intros p buf l Ht Hslack Hl Hcb Hfuel; [lia|].
  rewrite gcodep_parse_line_step.
  destruct (parse_next_pair_safe buf t l Ht Hslack Hl) as (tok & b & Htok & Hb & Hr).
  rewrite Htok. destruct tok as [d|c v r]; [left; by eexists _, _|].
  pose proof (parse_next_pair_two _ _ _ _ _ _ Htok).
  pose proof (parse_next_pair_length _ _ _ _ Htok) as Hlen.
  assert (r <= t)%nat by (by eapply Hr).
  destruct (parse_word_safe p c v b t r Hb) as
    [(p' & next & b' & Hword & Hb' & Hnext)|(v' & Hword & Hv)];
    [lia|done|done| |].
  - rewrite Hword. pose proof Hword as He%parse_word_effect.
    destruct (word_effect_callbacks _ _ _ _ _ _ He) as [Hcbs _].
    destruct (word_effect_patched _ _ _ _ _ _ He) as [Hlen' _].
    destruct next as [n|].
    + pose proof (word_effect_next _ _ _ _ _ _ He
                    (stays_in_line_never_goes_back _ Hcb)).
      apply IH; try done; [lia|by eapply Hnext|by rewrite Hcbs|lia].
    + left. destruct fuel as [|fuel]; [lia|]. by eexists _, _.
  - right. exists v'. by rewrite Hword.
Qed.

(** X3.  When the array that holds the line has at least one byte behind
    the terminator, and the [unprocessed] callback stays in the line, no
    line makes the parser read or write outside the array: from any place
    in the line [gcodep_parse_line] returns, with the terminator where it
    was, unless a number is cast to [int] that the cast is not defined
    for, at a G or M word or in the callback. *)
Theorem X3_a_spare_byte_keeps_the_parser_in_the_array {U} (p : GCodeParser U)
    (buf : buffer) (t l fuel : nat) :
  terminated_at buf t ->
  (S t < length buf)%nat ->
  (l <= t)%nat ->
  stays_in_line (callbacks p) ->
  (length buf < fuel)%nat ->
  (exists p' buf',
      gcodep_parse_line fuel p (Some l) buf = Ok (p', buf')
      /\ terminated_at buf' t /\ length buf' = length buf)
  \/ (exists v,
        gcodep_parse_line fuel p (Some l) buf = Fault (IntCastUndefined v)
        /\ F32.to_int v = None).
Proof.
  intros Ht Hslack Hl Hcb Hfuel.
  destruct (gcodep_parse_line_safe fuel p buf t l Ht Hslack Hl Hcb)
    as [(p' & b' & H & Hb')|Hfault]; [lia| |by right].
  left. exists p', b'. split; [done|]. split; [done|].
  by apply gcodep_parse_line_patched in H as [? _].
Qed.

(** An instance of X3: the line [G1 X ] with an [x] in the byte behind
    its terminator; the parser returns, and that byte reads [X]. *)
Lemma X3_a_spare_byte_witness :
  exists q : GCodeParser log,
    gcodep_parse_line 8 (recorder stop) (Some 0%nat)
      (cs "G1 X " ++ [NUL; "x"%char])
    = Ok (q, cs "G1 X " ++ [NUL; "X"%char]).
Proof.
  destruct (X3_a_spare_byte_keeps_the_parser_in_the_array (recorder stop)
              (cs "G1 X " ++ [NUL; "x"%char]) 5 0 8)
    as [(q & b & H & _)|(v & H & _)].
  - split; [reflexivity|]. intros i c Hi.
    do 5 (destruct i as [|i]; [by intros [= <-]|]). lia.
  - simpl. lia.
  - lia.
  - apply stays_in_line_stop.
  - simpl. lia.
  - exists q. rewrite H. vm_compute in H. by injection H as _ <-.
  - by vm_compute in H.
Defined.

(** ** Where a line ends without a word *)

Lemma parse_next_pair_end pre sp c tail :
  Forall (fun c => isspace c = true) sp ->
  c = NUL \/ c = ";"%char \/ c = "%"%char ->
  parse_next_pair (Some (length pre)) (pre ++ sp ++ c :: tail)
  = Ok (Null None, pre ++ sp ++ c :: tail).
Proof.
  intros Hsp Hc. unfold parse_next_pair.
  erewrite bind_Ok
    by (apply skip_space_at; [done|done|by destruct Hc as [->|[->| ->]]]).
  rewrite (app_assoc pre sp).
  erewrite bind_Ok by (apply load_at; by rewrite length_app).
  by destruct Hc as [->|[->| ->]].
Qed.

(** X4.  An empty line, a line of white space only, and a line that goes
    on with [;] or [%] all end without a word and without a complaint:
    the parser is left as it is, no callback is called, the buffer is not
    written to, and a handler that looks for its parameters there takes
    none.  What stands behind the [;] or [%] plays no part, whatever it
    is.  A NULL line does nothing either. *)
Theorem X4_blank_lines_and_comments_do_nothing {U} (fuel : nat)
    (p : GCodeParser U) (pre sp : buffer) (c : ascii) (tail : buffer) :
  Forall (fun c => isspace c = true) sp ->
  c = NUL \/ c = ";"%char \/ c = "%"%char ->
  let buf := pre ++ sp ++ c :: tail in
  parse_next_pair (Some (length pre)) buf = Ok (Null None, buf)
  /\ gcodep_parse_line (S fuel) p (Some (length pre)) buf = Ok (p, buf)
  /\ (forall accept, words accept (length pre) buf = Ok (([], length pre), buf))
  /\ (forall setter,
        set_S_param (cb_userdata p) setter (length pre) buf
        = Ok ((cb_userdata p, length pre), buf))
  /\ gcodep_parse_line (S fuel) p None buf = Ok (p, buf).
Proof.
  intros Hsp Hc buf.
  pose proof (parse_next_pair_end pre sp c tail Hsp Hc) as Htok. fold buf in Htok.
  split; [done|]. split; [by rewrite gcodep_parse_line_step, Htok|].
  split; [intros accept; by eapply words_at_Null|].
  split; [|done]. intros setter. by rewrite set_S_param_spec, Htok.
Qed.

(** An instance of X4: a comment after two blanks, at the end of a
    line. *)
Lemma X4_blank_lines_and_comments_witness :
  gcodep_parse_line 1 (recorder stop) (Some 5%nat)
    (line_buffer "G1 X1  ; G28 and so on")
  = Ok (recorder stop, line_buffer "G1 X1  ; G28 and so on").
Proof.
  refine (proj1 (proj2 (X4_blank_lines_and_comments_do_nothing 0 (recorder stop)
                          (cs "G1 X1") (cs "  ") ";"
                          (cs " G28 and so on" ++ [NUL]) _ _))).
  - by repeat constructor.
  - right. by left.
Defined.

Lemma parse_next_pair_checksum pre sp c tail :
  Forall (fun c => isspace c = true) sp ->
  parse_next_pair (Some (length pre)) (pre ++ sp ++ "*"%char :: c :: tail)
  = Ok (Null (if char_eqb c NUL then Some (ExpectedValueAfter "*") else None),
        pre ++ sp ++ "*"%char :: c :: tail).
Proof.
  intros Hsp. unfold parse_next_pair.
  erewrite bind_Ok by (by apply skip_space_at).
  rewrite (app_assoc pre sp).
  erewrite bind_Ok by (apply load_at; by rewrite length_app).
  change (char_eqb "*" NUL || char_eqb "*" ";" || char_eqb "*" "%") with false.
  cbv iota.
  replace ((pre ++ sp) ++ "*"%char :: c :: tail)
    with (((pre ++ sp) ++ ["*"%char]) ++ c :: tail) by (by rewrite <- !app_assoc).
  erewrite bind_Ok by (apply load_at; rewrite !length_app; simpl; lia).
  by destruct (char_eqb c NUL).
Qed.

(** X5.  A [*] where a letter is expected, the start of a checksum, ends
    the line: the checksum is not read, let alone checked, and words
    behind it are not run.  This is silent when anything at all follows
    the [*]; a [*] that is the last character of the line is reported as
    a letter without a value, the test for the end of the line coming
    first. *)
Theorem X5_checksum_ends_the_line {U} (fuel : nat) (p : GCodeParser U)
    (pre sp : buffer) (c : ascii) (tail : buffer) :
  Forall (fun c => isspace c = true) sp ->
  let buf := pre ++ sp ++ "*"%char :: c :: tail in
  parse_next_pair (Some (length pre)) buf
  = Ok (Null (if char_eqb c NUL then Some (ExpectedValueAfter "*") else None),
        buf)
  /\ gcodep_parse_line (S fuel) p (Some (length pre)) buf = Ok (p, buf)
  /\ (forall accept, words accept (length pre) buf = Ok (([], length pre), buf))
  /\ (fun q => (cb_userdata q, axes_pos q !!! AXIS_X))
       <$> session (recorder skip) ["N3 G1 X2*71 G1 X9"%string]
     = Some ([coordinated_move_call
                (vinsert AXIS_X (F32.of_Z 2) (vreplicate GCODE_NUM_AXES F32.zero))],
             F32.of_Z 2).
Proof.
  intros Hsp buf.
  pose proof (parse_next_pair_checksum pre sp c tail Hsp) as Htok.
  fold buf in Htok.
  split; [done|]. split; [by rewrite gcodep_parse_line_step, Htok|].
  split; [|by vm_compute]. intros accept. by eapply words_at_Null.
Qed.

(** An instance of X5: the checksum of [N3 G1 X2*71]. *)
Lemma X5_checksum_witness :
  parse_next_pair (Some 8%nat) (line_buffer "N3 G1 X2*71")
  = Ok (Null None, line_buffer "N3 G1 X2*71").
Proof.
  refine (proj1 (X5_checksum_ends_the_line 0 (recorder stop) (cs "N3 G1 X2")
                   [] "7" (cs "1" ++ [NUL]) _)).
  constructor.
Defined.

(** ** Units and positioning modes *)

(** X6.  The six commands that choose a unit or a positioning mode, G20,
    G21, G90, G91, M82 and M83, take nothing from the line, call no
    callback, and leave positions, origin and feedrate alone.  G20 and
    G21 set the unit factor and no mode; G90 and G91 set the mode of
    every axis, E included, whatever M82 or M83 had said before; M82 and
    M83 set the mode of E and of no other axis. *)
Theorem X6_units_and_modes_change_one_setting {U} (p : GCodeParser U)
    (letter : ascii) (value : float) (n : Z) (line : nat) (buf : buffer) :
  F32.to_int value = Some n ->
  (letter, n) ∈ [("G"%char, 20); ("G"%char, 21); ("G"%char, 90);
                 ("G"%char, 91); ("M"%char, 82); ("M"%char, 83)] ->
  exists p',
    parse_word p letter value line buf = Ok ((p', Some line), buf)
    /\ callbacks p' = callbacks p
    /\ cb_userdata p' = cb_userdata p
    /\ (relative_zero p', axes_pos p', current_feedrate p')
       = (relative_zero p, axes_pos p, current_feedrate p)
    /\ unit_to_mm_factor p'
       = (if bool_decide ((letter, n) = ("G"%char, 20)) then inch
          else if bool_decide ((letter, n) = ("G"%char, 21)) then one
          else unit_to_mm_factor p)
    /\ forall a,
         axis_is_absolute p' !!! a
         = (if bool_decide ((letter, n) = ("G"%char, 90)) then 1
            else if bool_decide ((letter, n) = ("G"%char, 91)) then 0
            else if bool_decide ((letter, n) = ("M"%char, 82) /\ a = AXIS_E) then 1
            else if bool_decide ((letter, n) = ("M"%char, 83) /\ a = AXIS_E) then 0
            else axis_is_absolute p !!! a).
Proof.
  intros Hn Hin.
  repeat (apply elem_of_cons in Hin as [[= -> ->]|Hin]);
    [..|by apply elem_of_nil in Hin];
    rewrite ?(parse_word_G _ _ _ _ _ Hn), ?(parse_word_M _ _ _ _ _ Hn);
    cbv zeta; eexists; (split; [reflexivity|]);
    (do 4 (split; [reflexivity|])); intros a;
    unfold set_all_axis_to_absolute, with_axis_is_absolute,
      with_unit_to_mm_factor; cbn [axis_is_absolute].
  - done.
  - done.
  - by rewrite vlookup_replicate.
  - by rewrite vlookup_replicate.
  - destruct (decide (a = AXIS_E)) as [->|Ha].
    + by rewrite vlookup_insert.
    + rewrite vlookup_insert_ne by done.
      rewrite (bool_decide_eq_false_2 (_ /\ a = AXIS_E)) by (by intros [_ ?]).
      done.
  - destruct (decide (a = AXIS_E)) as [->|Ha].
    + by rewrite vlookup_insert.
    + rewrite vlookup_insert_ne by done.
      rewrite !(bool_decide_eq_false_2 (_ /\ a = AXIS_E)) by (by intros [_ ?]).
      done.
Qed.

(** An instance of X6: [M83] on a fresh parser. *)
Lemma X6_units_and_modes_witness :
  exists p',
    parse_word (recorder stop) "M" (F32.of_Z 83) 3 (line_buffer "M83")
    = Ok ((p', Some 3%nat), line_buffer "M83")
    /\ axis_is_absolute p' !!! AXIS_E = 0
    /\ axis_is_absolute p' !!! AXIS_X = 1.
Proof.
  destruct (X6_units_and_modes_change_one_setting (recorder stop) "M"
              (F32.of_Z 83) 83 3 (line_buffer "M83"))
    as (p' & H & _ & _ & _ & _ & Habs).
  - reflexivity.
  - by repeat constructor.
  - exists p'. split; [done|].
    split; [by rewrite (Habs AXIS_E)|by rewrite (Habs AXIS_X)].
Defined.

(** ** What a line keeps *)

Lemma fold_move_word_settings {U} ws (q : GCodeParser U) :
  let q' := fold_left move_word ws q in
  unit_to_mm_factor q' = unit_to_mm_factor q
  /\ axis_is_absolute q' = axis_is_absolute q
  /\ relative_zero q' = relative_zero q.
Proof.
  revert q. induction ws as [|w ws IH]; intros q; simpl; [done|].
  destruct (IH (move_word q w)) as (-> & -> & ->).
  unfold move_word, feed_word, axis_word.
  destruct (char_eqb w.1 "F"); [by destruct (F32.neqb _ _)|].
  by destruct (axis_of_letter w.1).
Qed.

Lemma moved_settings {U} (p : GCodeParser U) fun_move ws :
  unit_to_mm_factor (moved p fun_move ws) = unit_to_mm_factor p
  /\ axis_is_absolute (moved p fun_move ws) = axis_is_absolute p
  /\ relative_zero (moved p fun_move ws) = relative_zero p.
Proof.
  unfold moved. destruct (existsb _ _); simpl; apply fold_move_word_settings.
Qed.

Lemma word_effect_settings {U} (p : GCodeParser U) line buf p' next buf' :
  word_effect p line buf p' next buf' -> settings_ok p -> settings_ok p'.
Proof.
  intros [] [Hunit Habs]; try done.
  - destruct (moved_settings p fun_move ws) as (Eu & Ea & _).
    split; [by rewrite Eu|]. intros a. by rewrite Ea.
  - destruct (rebase_word_position ws p) as (_ & _ & _ & Eu & Ea & _).
    split; [by rewrite Eu|]. intros a. by rewrite Ea.
  - split; [|done]. simpl.
    match goal with H : _ \/ _ |- _ => destruct H as [->| ->] end;
      [by right|by left].
  - split; [done|]. intros a.
    unfold set_all_axis_to_absolute, with_axis_is_absolute.
    cbn [axis_is_absolute]. by rewrite vlookup_replicate.
  - split; [done|]. intros a.
    unfold with_axis_is_absolute. cbn [axis_is_absolute].
    destruct (decide (a = AXIS_E)) as [->|Ha].
    + by rewrite vlookup_insert.
    + rewrite vlookup_insert_ne by done. apply Habs.
Qed.

Lemma gcodep_new_settings {U} cbs (u : U) : settings_ok (gcodep_new cbs u).
Proof.
  split; [by left|]. intros a. right.
  unfold gcodep_new, set_all_axis_to_absolute, with_axis_is_absolute.
  cbn [axis_is_absolute]. by rewrite vlookup_replicate.
Qed.

(** X7.  A line changes neither the callback table nor the
    [provided_axes] field, which no code of the file writes after
    [gcodep_new] or reads at all.  And the settings stay what the
    commands can make them: the unit factor is 1.0 or 25.4 and the mode
    of every axis is 0 or 1, on a fresh parser and then after every line
    that comes to its end. *)
Theorem X7_a_line_keeps_callbacks_and_settings {U} (fuel : nat)
    (p p' : GCodeParser U) (line : ptr) (buf buf' : buffer) :
  gcodep_parse_line fuel p line buf = Ok (p', buf') ->
  callbacks p' = callbacks p
  /\ provided_axes p' = provided_axes p
  /\ (settings_ok p -> settings_ok p')
  /\ (forall cbs (u : U),
        settings_ok (gcodep_new cbs u) /\ provided_axes (gcodep_new cbs u) = 0).
Proof.
  intros H.
  assert (callbacks p' = callbacks p /\ provided_axes p' = provided_axes p
          /\ (settings_ok p -> settings_ok p')) as (Hc & Hp & Hs).
  { revert H.
    apply (gcodep_parse_line_ind
             (fun s s' => callbacks s'.1 = callbacks s.1
                          /\ provided_axes s'.1 = provided_axes s.1
                          /\ (settings_ok s.1 -> settings_ok s'.1))).
    - done.
    - intros s1 s2 s3 (-> & -> & H12) (-> & -> & H23). naive_solver.
    - done.
    - intros q l b q' next b' Hw. simpl.
      destruct (word_effect_callbacks _ _ _ _ _ _ Hw) as [-> ->].
      split; [done|]. split; [done|]. by eapply word_effect_settings. }
  split; [done|]. split; [done|]. split; [done|].
  intros cbs u. split; [apply gcodep_new_settings|done].
Qed.

(** An instance of X7: a line of settings and a move. *)
Lemma X7_a_line_keeps_callbacks_witness :
  exists (q : GCodeParser log) buf',
    gcodep_parse_line 9 (recorder skip) (Some 0%nat)
      (line_buffer "G20 G91 M82 G1 X1")
    = Ok (q, buf')
    /\ callbacks q = callbacks (recorder skip).
Proof.
  eexists _, _. split; [by vm_compute|].
  refine (proj1 (X7_a_line_keeps_callbacks_and_settings 9 (recorder skip) _
                   (Some 0%nat) (line_buffer "G20 G91 M82 G1 X1") _ _)).
  by vm_compute.
Defined.

(** ** Heater, fan and motors *)

(** X8.  M104, M106 and M109 look at the one word behind them.  If its
    letter is S, in either case, the word is taken and its value is
    handed to the setter as it was written, not scaled by the unit
    factor: [set_fanspeed] for M106, [set_temperature] for the other two.
    If it is another word, or none, no setter is called, nothing is
    taken, and the top level finds the same word again when it reads on.
    M109 then calls [wait_temperature] in either case.  Nothing but the
    user data changes. *)
Theorem X8_S_parameter_of_M104_M106_M109 {U} (p : GCodeParser U)
    (value : float) (n : Z) (line : nat) (buf : buffer) (tok : token)
    (buf' : buffer) :
  F32.to_int value = Some n ->
  n ∈ [104; 106; 109] ->
  parse_next_pair (Some line) buf = Ok (tok, buf') ->
  let setter := if bool_decide (n = 106) then cb_set_fanspeed (callbacks p)
                else cb_set_temperature (callbacks p) in
  let wait := if bool_decide (n = 109) then cb_wait_temperature (callbacks p)
              else id in
  parse_word p "M" value line buf
  = Ok (match tok with
        | Pair c v rest =>
            if char_eqb c "S"
            then (with_userdata p (wait (setter (cb_userdata p) v)), Some rest)
            else (with_userdata p (wait (cb_userdata p)), Some line)
        | Null _ => (with_userdata p (wait (cb_userdata p)), Some line)
        end, buf')
  /\ parse_next_pair (Some line) buf' = Ok (tok, buf').
Proof.
  intros Hn Hin Htok. split; [|by eapply parse_next_pair_again].
  rewrite (parse_word_M _ _ _ _ _ Hn). cbv zeta.
  repeat (apply elem_of_cons in Hin as [->|Hin]); [..|by apply elem_of_nil in Hin];
    rewrite set_S_param_spec, Htok; simpl;
    destruct tok as [d|c v r]; try done; by destruct (char_eqb c "S").
Qed.

(** An instance of X8: [M109 s210], with a lower-case letter. *)
Lemma X8_S_parameter_witness :
  exists q : GCodeParser log,
    parse_word (recorder stop) "M" (F32.of_Z 109) 5 (line_buffer "M109 s210")
    = Ok ((q, Some 9%nat), line_buffer "M109 s210")
    /\ cb_userdata q
       = [set_temperature_call (F32.of_Z 210); wait_temperature_call].
Proof.
  destruct (X8_S_parameter_of_M104_M106_M109 (recorder stop) (F32.of_Z 109) 109
              5 (line_buffer "M109 s210") (Pair "S" (F32.of_Z 210) 9)
              (line_buffer "M109 s210")) as [H _].
  - reflexivity.
  - by repeat constructor.
  - by vm_compute.
  - eexists. split; [exact H|reflexivity].
Defined.

(** X9.  M84, M107 and M116 take no parameter: each is one call,
    [disable_motors], [set_fanspeed] with 0 and [wait_temperature], made
    without a look at the rest of the line, so on any buffer, however it
    ends, and the rest is left for the top level even where it starts
    with an S word.  Nothing but the user data changes. *)
Theorem X9_M84_M107_M116_are_one_call {U} (p : GCodeParser U) (value : float)
    (n : Z) (line : nat) (buf : buffer) :
  F32.to_int value = Some n ->
  n ∈ [84; 107; 116] ->
  let u := cb_userdata p in
  let u' := if bool_decide (n = 84) then cb_disable_motors (callbacks p) u
            else if bool_decide (n = 107)
                 then cb_set_fanspeed (callbacks p) u F32.zero
                 else cb_wait_temperature (callbacks p) u in
  parse_word p "M" value line buf = Ok ((with_userdata p u', Some line), buf)
  /\ machine_state (with_userdata p u') = machine_state p
  /\ (cb_userdata <$> session (recorder skip) ["M107 S5"%string]
      = Some [set_fanspeed_call F32.zero;
              unprocessed_call "S" (F32.of_Z 5) []]).
Proof.
  intros Hn Hin. cbv zeta. rewrite (parse_word_M _ _ _ _ _ Hn). cbv zeta.
  repeat (apply elem_of_cons in Hin as [->|Hin]); [..|by apply elem_of_nil in Hin];
    (split; [reflexivity|]); (split; [reflexivity|by vm_compute]).
Qed.

(** An instance of X9: [M84] on a buffer with no line in it at all. *)
Lemma X9_M84_M107_M116_witness :
  parse_word (recorder stop) "M" (F32.of_Z 84) 0 []
  = Ok ((with_userdata (recorder stop) [disable_motors_call], Some 0%nat), []).
Proof.
  refine (proj1 (X9_M84_M107_M116_are_one_call (recorder stop) (F32.of_Z 84) 84
                   0 [] _ _)).
  - reflexivity.
  - by repeat constructor.
Defined.

(** ** An axis named more than once *)

Lemma last_value_snoc a ws w :
  last_value a (ws ++ [w])
  = if bool_decide (axis_of_letter (fst w) = Some a) then Some (snd w)
    else last_value a ws.
Proof. unfold last_value. by rewrite fold_left_app. Qed.

Lemma axis_of_letter_F : axis_of_letter "F" = None.
Proof. reflexivity. Qed.

Lemma fold_move_word_axis {U} (p : GCodeParser U) ws a :
  axes_pos (fold_left move_word ws p) !!! a
  = if bool_decide (axis_is_absolute p !!! a ≠ 0)
    then match last_value a ws with
         | Some v => F32.add (relative_zero p !!! a)
                       (F32.mul (unit_to_mm_factor p) v)
         | None => axes_pos p !!! a
         end
    else fold_left
           (fun x w => if bool_decide (axis_of_letter (fst w) = Some a)
                       then F32.add x (F32.mul (unit_to_mm_factor p) (snd w))
                       else x)
           ws (axes_pos p !!! a).
Proof.
  induction ws as [|w ws IH] using rev_ind; [by case_bool_decide|].
  rewrite !fold_left_app, last_value_snoc. simpl.
  destruct (fold_move_word_settings ws p) as (Eu & Ea & Er).
  set (q := fold_left move_word ws p) in *.
  unfold move_word. destruct (char_eqb w.1 "F") eqn:EF.
  { apply Ascii.eqb_eq in EF. rewrite EF, axis_of_letter_F.
    rewrite !(bool_decide_eq_false_2 (None = Some a)) by done.
    unfold feed_word. destruct (F32.neqb _ _); simpl; apply IH. }
  destruct (axis_of_letter w.1) as [b|] eqn:Eb.
  - unfold axis_word. cbn [axes_pos with_axes_pos]. unfold with_axes_pos.
    cbn [axes_pos]. rewrite Eu, Ea, Er.
    destruct (decide (b = a)) as [->|Hb].
    + rewrite vlookup_insert, !(bool_decide_eq_true_2 (Some a = Some a)) by done.
      case_bool_decide as Habs; [done|].
      by rewrite IH.
    + rewrite vlookup_insert_ne by done.
      rewrite !(bool_decide_eq_false_2 (Some b = Some a)) by congruence.
      apply IH.
  - rewrite !(bool_decide_eq_false_2 (None = Some a)) by done. apply IH.
Qed.

(** X10.  In the words of one G0 or G1 an axis may be named more than
    once.  For an axis in absolute mode the last of its words decides,
    the earlier ones have no effect on where the move goes: the target is
    the origin of the axis plus the scaled value of that word.  For an
    axis in relative mode they add up, in the order of the line, and the
    origin set by G92 plays no part.  An axis that is not named stays
    where it is. *)
Theorem X10_an_axis_named_twice {U} (p : GCodeParser U)
    (fun_move : U -> AxesRegister -> U) (line : nat) (buf : buffer)
    (p' : GCodeParser U) (rest : nat) (buf' : buffer) (a : GCodeParserAxes) :
  handle_move p fun_move line buf = Ok ((p', rest), buf') ->
  exists ws,
    words is_move_letter line buf = Ok ((ws, rest), buf')
    /\ axes_pos p' !!! a
       = (if bool_decide (axis_is_absolute p !!! a ≠ 0)
          then match last_value a ws with
               | Some v => F32.add (relative_zero p !!! a)
                             (F32.mul (unit_to_mm_factor p) v)
               | None => axes_pos p !!! a
               end
          else fold_left
                 (fun x w => if bool_decide (axis_of_letter (fst w) = Some a)
                             then F32.add x
                                    (F32.mul (unit_to_mm_factor p) (snd w))
                             else x)
                 ws (axes_pos p !!! a)).
Proof.
  rewrite handle_move_spec. intros ([ws r] & H & [= -> ->])%on_result_Ok.
  exists ws. split; [done|]. simpl. rewrite <- fold_move_word_axis.
  unfold moved. by destruct (existsb _ _).
Qed.

(** An instance of X10: [X1 Y3 X5] after a G1 on a fresh parser, which is
    in absolute mode, ends at X = 5. *)
Lemma X10_an_axis_named_twice_witness :
  exists (q : GCodeParser log) buf',
    handle_move (recorder stop) (cb_coordinated_move (callbacks (recorder stop)))
      2 (line_buffer "G1X1 Y3 X5")
    = Ok ((q, 10%nat), buf')
    /\ axes_pos q !!! AXIS_X = F32.of_Z 5.
Proof.
  assert (exists (q : GCodeParser log) buf',
             handle_move (recorder stop)
               (cb_coordinated_move (callbacks (recorder stop)))
               2 (line_buffer "G1X1 Y3 X5")
             = Ok ((q, 10%nat), buf')) as (q & b & H)
    by (eexists _, _; by vm_compute).
  exists q, b. split; [done|].
  destruct (X10_an_axis_named_twice _ _ _ _ _ _ _ AXIS_X H) as (ws & Hws & ->).
  vm_compute in Hws. injection Hws as <- _. by vm_compute.
Defined.

(** X11.  G92 reads the position of an axis, which it does not change,
    so when an axis is named more than once the last of its words sets
    the origin and the earlier ones have no effect; the origin of an axis
    that is not named stays.  The positioning mode plays no part. *)
Theorem X11_rebase_takes_the_last_word_of_an_axis {U} (p : GCodeParser U)
    (line : nat) (buf : buffer) (p' : GCodeParser U) (rest : nat)
    (buf' : buffer) :
  handle_rebase p line buf = Ok ((p', rest), buf') ->
  exists ws,
    words is_axis_letter line buf = Ok ((ws, rest), buf')
    /\ forall a,
         relative_zero p' !!! a
         = match last_value a ws with
           | Some v => F32.sub (axes_pos p !!! a)
                         (F32.mul (unit_to_mm_factor p) v)
           | None => relative_zero p !!! a
           end.
Proof.
  rewrite handle_rebase_spec. intros ([ws r] & H & [= -> ->])%on_result_Ok.
  exists ws. split; [done|]. intros a. simpl. clear H.
  induction ws as [|w ws IH] using rev_ind; [done|].
  rewrite fold_left_app, last_value_snoc. simpl.
  destruct (rebase_word_position ws p) as (Ep & _ & _ & Eu & _).
  unfold rebase_word at 1. destruct (axis_of_letter w.1) as [b|].
  - unfold with_relative_zero. cbn [relative_zero]. rewrite Ep, Eu.
    destruct (decide (b = a)) as [->|Hb].
    + by rewrite vlookup_insert, bool_decide_eq_true_2.
    + rewrite vlookup_insert_ne by done.
      rewrite (bool_decide_eq_false_2 (Some b = Some a)) by congruence.
      apply IH.
  - rewrite (bool_decide_eq_false_2 (None = Some a)) by done. apply IH.
Qed.

(** An instance of X11: [G92 X1 X7] at position 0 puts the origin of X
    at -7. *)
Lemma X11_rebase_witness :
  exists (q : GCodeParser log) buf',
    handle_rebase (recorder stop) 3 (line_buffer "G92X1 X7") = Ok ((q, 8%nat), buf')
    /\ relative_zero q !!! AXIS_X
       = F32.sub F32.zero (F32.mul one (F32.of_Z 7)).
Proof.
  assert (exists (q : GCodeParser log) buf',
             handle_rebase (recorder stop) 3 (line_buffer "G92X1 X7")
             = Ok ((q, 8%nat), buf')) as (q & b & H)
    by (eexists _, _; by vm_compute).
  exists q, b. split; [done|].
  destruct (X11_rebase_takes_the_last_word_of_an_axis _ _ _ _ _ _ H)
    as (ws & Hws & ->).
  vm_compute in Hws. injection Hws as <- _. by vm_compute.
Defined.

(** ** The flags of [go_home] *)

Lemma bit_range (a : GCodeParserAxes) : 0 < bit a /\ Z.log2 (bit a) < 7.
Proof.
  unfold bit. rewrite Z.shiftl_1_l.
  assert (Z.of_nat (fin_to_nat a) < 7) as Ha
    by (pose proof (fin_to_nat_lt a); unfold GCODE_NUM_AXES in *; lia).
  split; [apply Z.pow_pos_nonneg; lia|].
  rewrite Z.log2_pow2 by lia. exact Ha.
Qed.

Lemma fold_name_axis_range ws flags :
  0 <= flags -> Z.log2 flags < 7 ->
  0 <= fold_left name_axis ws flags /\ Z.log2 (fold_left name_axis ws flags) < 7.
Proof.
  revert flags. induction ws as [|w ws IH]; intros flags H0 H7; simpl; [done|].
  apply IH; unfold name_axis; destruct (axis_of_letter w.1) as [a|]; try done.
  - apply Z.lor_nonneg. pose proof (bit_range a). lia.
  - pose proof (bit_range a). rewrite Z.log2_lor by lia. lia.
Qed.

Lemma home_flags_range ws :
  Forall (fun w => is_axis_letter (fst w) = true) ws ->
  1 <= home_flags ws <= kAllAxesBitmap.
Proof.
  intros Hws. destruct ws as [|w ws]; [by vm_compute|].
  unfold home_flags.
  destruct (fold_name_axis_range (w :: ws) 0) as [H0 H7]; [done|done|].
  fold (named_axes (w :: ws)) in H0, H7.
  assert (named_axes (w :: ws) <> 0) as Hne.
  { apply Forall_cons in Hws as [Hw _]. unfold is_axis_letter in Hw.
    apply bool_decide_eq_true in Hw as [a Ha].
    intros E. pose proof (named_axes_bits (w :: ws) a) as Hbit.
    rewrite E, Z.testbit_0_l in Hbit. simpl in Hbit.
    by rewrite bool_decide_eq_true_2 in Hbit. }
  split; [lia|].
  assert (named_axes (w :: ws) < 2 ^ 7) by (apply Z.log2_lt_pow2; lia).
  change kAllAxesBitmap with 127. lia.
Qed.

(** X12.  G28 calls [go_home] once, and the flags it hands over are
    never 0 and never have a bit outside the seven axis bits: they lie
    between 1 and [kAllAxesBitmap], so they fit the [unsigned char] of
    the callback.  Both registers are zero afterwards, whatever the words
    were, and the unit and the modes are what they were. *)
Theorem X12_go_home_gets_axis_bits_only {U} (p : GCodeParser U) (line : nat)
    (buf : buffer) (p' : GCodeParser U) (rest : nat) (buf' : buffer) :
  handle_home p line buf = Ok ((p', rest), buf') ->
  exists flags,
    1 <= flags <= kAllAxesBitmap
    /\ Z.land flags kAllAxesBitmap = flags
    /\ cb_userdata p' = cb_go_home (callbacks p) (cb_userdata p) flags
    /\ (forall a, axes_pos p' !!! a = F32.zero /\ relative_zero p' !!! a = F32.zero)
    /\ (unit_to_mm_factor p', axis_is_absolute p', current_feedrate p')
       = (unit_to_mm_factor p, axis_is_absolute p, current_feedrate p).
Proof.
  rewrite handle_home_spec. intros ([ws r] & H & [= -> ->])%on_result_Ok.
  exists (home_flags ws).
  unfold homed, with_userdata, with_relative_zero, with_axes_pos.
  cbn [fst snd cb_userdata callbacks axes_pos relative_zero unit_to_mm_factor
       axis_is_absolute current_feedrate].
  pose proof (home_flags_range ws (words_accepted _ _ _ _ _ _ H)) as Hrange.
  split; [done|]. split.
  { change kAllAxesBitmap with (Z.ones 7) in *.
    rewrite Z.land_ones by lia. apply Z.mod_small.
    rewrite Z.ones_equiv in Hrange. lia. }
  split; [done|]. split; [|done].
  intros a. by rewrite !vlookup_replicate.
Qed.

(** An instance of X12: [G28 Y1 C0]. *)
Lemma X12_go_home_witness :
  exists (q : GCodeParser log) flags,
    handle_home (recorder stop) 3 (line_buffer "G28Y1 C0")
    = Ok ((q, 8%nat), line_buffer "G28Y1 C0")
    /\ cb_userdata q = [go_home_call flags]
    /\ 1 <= flags <= kAllAxesBitmap.
Proof.
  assert (exists q : GCodeParser log,
             handle_home (recorder stop) 3 (line_buffer "G28Y1 C0")
             = Ok ((q, 8%nat), line_buffer "G28Y1 C0")) as (q & H)
    by (eexists; by vm_compute).
  destruct (X12_go_home_gets_axis_bits_only _ _ _ _ _ _ H)
    as (flags & Hrange & _ & Hu & _).
  exists q, flags. split; [exact H|]. split; [exact Hu|exact Hrange].
Defined.

(** ** A parser without callbacks *)

Lemma fold_move_word_quiet {U} ws (q : GCodeParser U) :
  cb_set_feedrate (callbacks q) = dummy_set_feedrate ->
  cb_userdata (fold_left move_word ws q) = cb_userdata q.
Proof.
  revert q. induction ws as [|w ws IH]; intros q Hq; simpl; [done|].
  rewrite IH by (by rewrite move_word_callbacks).
  unfold move_word, feed_word, axis_word.
  destruct (char_eqb w.1 "F");
    [destruct (F32.neqb _ _); [by rewrite Hq|done]|].
  by destruct (axis_of_letter w.1).
Qed.

Lemma dummy_unprocessed_inv {U} (u : U) letter value rest buf r :
  dummy_unprocessed u letter value rest buf = Ok r ->
  r = (u, None) /\ is_Some (F32.to_int value).
Proof.
  unfold dummy_unprocessed, bind, int_cast.
  destruct (F32.to_int value) as [n|]; [|done]. unfold ret.
  destruct (c_str rest buf) as [[s b]| |]; [|done|done].
  intros [= <-]. by split.
Qed.

Lemma dummy_unprocessed_cast {U} (u : U) letter value rest buf :
  F32.to_int value = None ->
  dummy_unprocessed u letter value rest buf = Fault (IntCastUndefined value).
Proof. intros H. unfold dummy_unprocessed, bind, int_cast. by rewrite H. Qed.

Lemma dummy_unprocessed_Ok {U} (u : U) letter value rest buf t :
  is_Some (F32.to_int value) ->
  terminated_at buf t -> (rest <= t)%nat ->
  dummy_unprocessed u letter value rest buf = Ok (u, None).
Proof.
  intros [n Hn] Ht Hrest. unfold dummy_unprocessed, bind, int_cast.
  rewrite Hn. unfold ret.
  by destruct (c_str_total buf t rest Ht Hrest) as (s & -> & _).
Qed.

Lemma stays_in_line_dummy {U} (u0 : U) :
  stays_in_line (callbacks (gcodep_new None u0)).
Proof.
  intros u letter value line buf. cbn.
  destruct (dummy_unprocessed u letter value line buf) as [r|f|] eqn:E.
  - apply dummy_unprocessed_inv in E as [-> _]. by intros n.
  - intros t Ht Hl. destruct (F32.to_int value) as [n|] eqn:Hn.
    + by rewrite (dummy_unprocessed_Ok u letter value line buf t) in E.
    + rewrite dummy_unprocessed_cast in E by done. injection E as <-. eauto.
  - unfold dummy_unprocessed, bind, int_cast in E.
    destruct (F32.to_int value); [|done]. unfold ret, c_str in E.
    assert (forall rest l, c_str_in rest l <> OutOfFuel) as Hfuel.
    { induction rest as [|c rest IH]; intros l; simpl; [done|].
      destruct (char_eqb c NUL); [done|].
      pose proof (IH (S l)). by destruct (c_str_in rest (S l)). }
    pose proof (Hfuel (drop line buf) line).
    by destruct (c_str_in (drop line buf) line).
Qed.

Lemma word_effect_quiet {U} (p : GCodeParser U) line buf p' next buf' (u0 : U) :
  word_effect p line buf p' next buf' ->
  callbacks p = callbacks (gcodep_new None u0) ->
  cb_userdata p' = cb_userdata p.
Proof.
  intros Hw Hp. destruct Hw as [fun_move ws rest b Hf _| | | | | |u Hu
                                |setter wait u rest b Hs Hwait HS| |
                                letter value u next Hun]; try done.
  - unfold moved.
    assert (fun_move = dummy_move) as ->
      by (destruct Hf as [->| ->]; by rewrite Hp).
    destruct (existsb _ _); simpl; apply fold_move_word_quiet; by rewrite Hp.
  - unfold homed. simpl. by rewrite Hp.
  - apply rebase_word_position.
  - simpl. destruct Hu as [->|[->| ->]]; by rewrite Hp.
  - simpl. apply set_S_param_inv in HS as (t & _ & [(v & _ & ->)|(_ & -> & _)]).
    + destruct Hs as [->| ->], Hwait as [->| ->]; by rewrite Hp.
    + destruct Hwait as [->| ->]; by rewrite ?Hp.
  - simpl. rewrite Hp in Hun. cbn in Hun.
    by apply dummy_unprocessed_inv in Hun as [[= <- _] _].
Qed.

(** X13.  A parser made with no callbacks, or with a table in which all
    are NULL, runs on the stand-ins of the file.  They leave the user
    data alone, so a line leaves it as it was, whatever the line holds.
    The stand-in for [unprocessed] casts the number of the word to [int]
    for its message, reads the rest of the line for it, and returns
    NULL.  So the first word without a handler ends the line, the words
    behind it are not run; unless its number has no [int] value: then
    the line goes wrong at that cast.  The stand-in stays in the line. *)
Theorem X13_without_callbacks_the_user_data_stays {U} (u0 : U) (fuel : nat)
    (p : GCodeParser U) (line : ptr) (buf : buffer) :
  callbacks p = callbacks (gcodep_new None u0) ->
  (forall p' buf',
      gcodep_parse_line fuel p line buf = Ok (p', buf') ->
      cb_userdata p' = cb_userdata p)
  /\ (forall letter value rest buf',
        parse_next_pair line buf = Ok (Pair letter value rest, buf') ->
        unhandled letter value ->
        (forall t,
            is_Some (F32.to_int value) ->
            terminated_at buf' t -> (rest <= t)%nat ->
            gcodep_parse_line (S (S fuel)) p line buf = Ok (p, buf'))
        /\ (F32.to_int value = None ->
            gcodep_parse_line (S (S fuel)) p line buf
            = Fault (IntCastUndefined value)))
  /\ stays_in_line (callbacks p)
  /\ (forall u,
        callbacks (gcodep_new
                     (Some {| coordinated_move := None; rapid_move := None;
                              go_home := None; set_feedrate := None;
                              set_fanspeed := None; set_temperature := None;
                              wait_temperature := None; disable_motors := None;
                              unprocessed := None |}) u)
        = callbacks (gcodep_new None u0)).
Proof.
  intros Hp. split; [|split; [|split; [|done]]].
  - intros p' buf' H.
    assert (callbacks p = callbacks (gcodep_new None u0) ->
            callbacks p' = callbacks (gcodep_new None u0)
            /\ cb_userdata p' = cb_userdata p) as Hgoal; [|by apply Hgoal].
    revert H.
    apply (gcodep_parse_line_ind
             (fun s s' => callbacks s.1 = callbacks (gcodep_new None u0) ->
                          callbacks s'.1 = callbacks (gcodep_new None u0)
                          /\ cb_userdata s'.1 = cb_userdata s.1)).
    + done.
    + intros s1 s2 s3 H12 H23 H1. destruct (H12 H1) as [H2 E12].
      destruct (H23 H2) as [H3 E23]. split; [done|congruence].
    + done.
    + intros q l b q' next b' Hw Hq. simpl in *. split.
      * by rewrite (proj1 (word_effect_callbacks _ _ _ _ _ _ Hw)).
      * by eapply (word_effect_quiet _ _ _ _ _ _ u0).
  - intros letter value rest buf' Htok Hun. split.
    + intros t Hv Ht Hrest.
      rewrite gcodep_parse_line_step, Htok, parse_word_unhandled by done.
      unfold call_unprocessed. rewrite Hp. cbn.
      rewrite (dummy_unprocessed_Ok _ _ _ _ _ t) by done.
      by destruct p.
    + intros Hv.
      rewrite gcodep_parse_line_step, Htok, parse_word_unhandled by done.
      unfold call_unprocessed. rewrite Hp. cbn.
      by rewrite dummy_unprocessed_cast.
  - rewrite Hp. apply stays_in_line_dummy.
Qed.

(** An instance of X13: [T1] has no handler, the [G28] behind it is not
    run. *)
Lemma X13_without_callbacks_witness :
  gcodep_parse_line 2 (gcodep_new None tt) (Some 0%nat) (line_buffer "T1 G28")
  = Ok (gcodep_new None tt, line_buffer "T1 G28").
Proof.
  refine (proj1 (proj1 (proj2 (X13_without_callbacks_the_user_data_stays tt 0
                                 (gcodep_new None tt) (Some 0%nat)
                                 (line_buffer "T1 G28") eq_refl))
                   "T"%char (F32.of_Z 1) 3%nat _ _ _) 6%nat _ _ _).
  - by vm_compute.
  - left. by repeat split.
  - by eexists.
  - split; [reflexivity|]. intros i c Hi.
    do 6 (destruct i as [|i]; [by intros [= <-]|]). lia.
  - lia.
Defined.

(** X14.  Where the caller gave no [rapid_move], [gcodep_new] puts the
    callback for coordinated moves in its place, the caller's own or the
    stand-in.  On such a parser G0 is G1: the same words are taken and
    the same calls are made. *)
Theorem X14_without_rapid_move_G0_is_G1 {U} (cbs : GCodeParserCb U) (u0 : U)
    (p : GCodeParser U) (v0 v1 : float) (line : nat) (buf : buffer) :
  rapid_move cbs = None ->
  callbacks p = callbacks (gcodep_new (Some cbs) u0) ->
  F32.to_int v0 = Some 0 ->
  F32.to_int v1 = Some 1 ->
  cb_rapid_move (callbacks p) = cb_coordinated_move (callbacks p)
  /\ cb_coordinated_move (callbacks p)
     = default dummy_move (coordinated_move cbs)
  /\ parse_word p "G" v0 line buf = parse_word p "G" v1 line buf.
Proof.
  intros Hr Hp H0 H1.
  assert (cb_rapid_move (callbacks p) = cb_coordinated_move (callbacks p)) as E
    by (rewrite Hp; simpl; by rewrite Hr).
  split; [done|]. split; [by rewrite Hp|].
  by rewrite (parse_word_G _ _ _ _ _ H0), (parse_word_G _ _ _ _ _ H1), E.
Qed.

(** An instance of X14: only [coordinated_move] is given; [G0 X1] is
    recorded as a coordinated move. *)
Lemma X14_without_rapid_move_witness :
  let cbs := {| coordinated_move := Some (fun u axes => u ++ [coordinated_move_call axes]);
                rapid_move := None; go_home := None; set_feedrate := None;
                set_fanspeed := None; set_temperature := None;
                wait_temperature := None; disable_motors := None;
                unprocessed := None |} in
  parse_word (gcodep_new (Some cbs) []) "G" (F32.of_Z 0) 2 (line_buffer "G0X1")
  = parse_word (gcodep_new (Some cbs) []) "G" (F32.of_Z 1) 2 (line_buffer "G0X1").
Proof.
  intros cbs.
  refine (proj2 (proj2 (X14_without_rapid_move_G0_is_G1 cbs []
                          (gcodep_new (Some cbs) []) (F32.of_Z 0) (F32.of_Z 1)
                          2 (line_buffer "G0X1") _ _ _ _))); reflexivity.
Defined.

(** ** The letter of a word *)

Lemma skip_space_in_skipped rest l q :
  skip_space_in rest l = Ok q ->
  (forall j, (l <= j < q)%nat ->
     exists s, rest !! (j - l)%nat = Some s
               /\ isspace s = true /\ char_eqb s NUL = false)
  /\ exists c, rest !! (q - l)%nat = Some c
               /\ negb (char_eqb c NUL) && isspace c = false.
Proof.
  revert l. induction rest as [|c rest IH]; intros l; simpl; [done|].
  destruct (negb (char_eqb c NUL) && isspace c) eqn:Ec.
  - intros H. pose proof (skip_space_in_bounds _ _ _ H) as Hb.
    destruct (IH _ H) as [Hsk (c' & Hc' & Hstop)]. split.
    + intros j Hj. destruct (decide (j = l)) as [->|Hne].
      * rewrite Nat.sub_diag. exists c. simpl.
        apply andb_prop in Ec as [E1%negb_true_iff E2]. done.
      * destruct (Hsk j) as (s & Hs & Hsp); [lia|]. exists s.
        replace (j - l)%nat with (S (j - S l)) by lia. done.
    + exists c'. replace (q - l)%nat with (S (q - S l)) by lia. done.
  - intros [= <-]. split; [intros j Hj; lia|].
    exists c. by rewrite Nat.sub_diag.
Qed.

Lemma toupper_not_lower c : islower (toupper c) = false.
Proof. by destruct c as [[] [] [] [] [] [] [] []]. Qed.

(** X15.  The letter of a word is the first character from the given
    place on that is not white space, put into upper case: between the
    place and the letter there is white space only, the letter is not the
    end of the line and not [;], [%] or [*], and what the caller gets is
    never a lower-case letter.  So [g1 x5] is read as [G1 X5], and the
    comparisons with upper-case letters in the handlers see every
    letter. *)
Theorem X15_letter_is_the_first_character_in_upper_case (l : nat)
    (buf : buffer) (c : ascii) (v : float) (r : nat) (buf' : buffer) :
  parse_next_pair (Some l) buf = Ok (Pair c v r, buf') ->
  islower c = false
  /\ exists i c0,
       (l <= i < r)%nat
       /\ buf !! i = Some c0
       /\ c = toupper c0
       /\ is_letter c0 = true
       /\ forall j, (l <= j < i)%nat ->
            exists s, buf !! j = Some s /\ isspace s = true.
Proof.
  intros H. pose proof (parse_next_pair_two _ _ _ _ _ _ H) as Htwo.
  unfold parse_next_pair in H.
  apply bind_inv in H as (q0 & b & Hq0 & H).
  pose proof Hq0 as [-> Hb0]%skip_space_inv.
  apply bind_inv in H as (c0 & b & [-> Hc0]%load_inv & H).
  destruct (char_eqb c0 NUL || char_eqb c0 ";" || char_eqb c0 "%") eqn:Eend;
    [done|].
  apply bind_inv in H as (c' & b & [-> _]%load_inv & H).
  destruct (char_eqb c' NUL); [done|].
  destruct (char_eqb (toupper c0) "*") eqn:Estar; [done|].
  apply bind_inv in H as (q & b & [-> Hq]%skip_space_inv & H).
  apply bind_inv in H as (c1 & b & [-> _]%load_inv & H).
  apply bind_inv in H as (u & b1 & _ & H).
  apply bind_inv in H as (s & b & ->%c_str_inv & H).
  destruct (strtof s) as [v' n].
  apply bind_inv in H as (u' & b2 & _ & H).
  destruct (n =? 0)%nat eqn:En;
    [by apply bind_inv in H as (s' & b & ->%c_str_inv & H)|].
  apply bind_inv in H as (r' & b & [-> Hr]%skip_space_inv & H).
  injection H as <- _ <- _.
  split; [apply toupper_not_lower|].
  unfold skip_space in Hq0.
  destruct (skip_space_in (drop l buf) l) as [q0'| |] eqn:Esk; try done.
  injection Hq0 as ->.
  destruct (skip_space_in_skipped _ _ _ Esk) as [Hsk (c2 & Hc2 & Hstop)].
  rewrite lookup_drop in Hc2.
  replace (l + (q0 - l))%nat with q0 in Hc2 by lia.
  assert (c2 = c0) as -> by congruence.
  exists q0, c0. split; [lia|]. split; [done|]. split; [done|]. split.
  - unfold is_letter. rewrite Eend, Estar. simpl.
    apply orb_false_iff in Eend as [[E1 _]%orb_false_iff _].
    rewrite E1 in Hstop. simpl in Hstop. by rewrite Hstop.
  - intros j Hj. destruct (Hsk j Hj) as (sp & Hsp & Hspace & _).
    rewrite lookup_drop in Hsp.
    replace (l + (j - l))%nat with j in Hsp by lia. eauto.
Qed.

(** An instance of X15: the [x] of [g1  x5]. *)
Lemma X15_letter_witness :
  islower "X" = false
  /\ exists i c0,
       (2 <= i < 6)%nat
       /\ line_buffer "g1  x5" !! i = Some c0
       /\ "X"%char = toupper c0
       /\ is_letter c0 = true
       /\ forall j, (2 <= j < i)%nat ->
            exists s, line_buffer "g1  x5" !! j = Some s /\ isspace s = true.
Proof.
  refine (X15_letter_is_the_first_character_in_upper_case 2
            (line_buffer "g1  x5") "X" (F32.of_Z 5) 6 (line_buffer "g1  x5") _).
  by vm_compute.
Defined.

(** ** What can go wrong *)

















